(** * project-manager: persistence and synchronisation layer

    A shallow embedding of the task/project tracker's persistence code:

    - [Js]: the few JavaScript built-ins the code relies on (truthiness of
      strings, [String.prototype.trim], [Array.prototype.slice/find/filter],
      [Date.prototype.toISOString], [Number.prototype.toString]);
    - [DataRoute]: the two HTTP handlers of [src/app/api/data/route.ts];
    - [ProjectManager]: the component with projects, tasks and a trash bin
      (local cache, remote load, debounced save, CRUD handlers, the lists
      its views compute);
    - [ProjectManagementPage]: the component whose tasks carry [completedAt]
      (task form submit, status change, save and delete of a task, the
      dashboard counts, the list view, [saveToApi] and [loadData]).

    Definitions come first, the theorems about them follow. *)

From Stdlib Require Import List String Ascii NArith Bool Lia.
From Stdlib Require Import DecimalString DecimalN DecimalFacts.
From Stdlib Require Import ZArith Permutation Sorted.
Import ListNotations.
Local Open Scope string_scope.
Local Open Scope N_scope.

Set Implicit Arguments.

(* ===================================================================== *)
(** * Part I: definitions                                                 *)
(* ===================================================================== *)

(** ** JavaScript built-ins *)

Module Js.

(** Strings are sequences of 8-bit code units. *)

(** WhiteSpace and LineTerminator code units below 256: TAB, LF, VT, FF, CR,
    SP and NBSP. *)
Definition isWhiteSpace (c : ascii) : bool :=
  let n := N_of_ascii c in
  ((9 <=? n) && (n <=? 13)) || (n =? 32) || (n =? 160).

Fixpoint dropWhile {A} (p : A -> bool) (l : list A) : list A :=
  match l with
  | [] => []
  | x :: l' => if p x then dropWhile p l' else l
  end.

Definition trimStart (l : list ascii) : list ascii := dropWhile isWhiteSpace l.
Definition trimEnd (l : list ascii) : list ascii := rev (dropWhile isWhiteSpace (rev l)).

(** [s.trim()] *)
Definition trim (s : string) : string :=
  string_of_list_ascii (trimEnd (trimStart (list_ascii_of_string s))).

(** Truthiness of a string: only the empty string is falsy. *)
Definition truthy (s : string) : bool :=
  match s with EmptyString => false | String _ _ => true end.

(** Truthiness of [string | null] and [string | undefined]. *)
Definition truthy_opt (o : option string) : bool :=
  match o with Some s => truthy s | None => false end.

(** [s || null] and [s || undefined] on a string. *)
Definition or_null (s : string) : option string :=
  if truthy s then Some s else None.

(** [o || null] on [string | null | undefined]. *)
Definition opt_or_null (o : option string) : option string :=
  match o with Some s => or_null s | None => None end.

(** [a || b] where [a] is an array or [undefined]: every array, the empty
    one included, is truthy. *)
Definition arr_or {A} (a : option (list A)) (b : list A) : list A :=
  match a with Some l => l | None => b end.

(** [a?.length > 0]: [undefined > 0] is [false]. *)
Definition nonEmpty {A} (a : option (list A)) : bool :=
  match a with Some (_ :: _) => true | _ => false end.

(** [l.length > 0] *)
Definition hasItems {A} (l : list A) : bool :=
  match l with [] => false | _ :: _ => true end.

(** [l.slice(0, n)] *)
Definition slice0 {A} (n : nat) (l : list A) : list A := firstn n l.

(** [n.toString()] for a non-negative integer. *)
Definition toString (n : N) : string := NilEmpty.string_of_uint (N.to_uint n).

(** Decimal digits of [n], left-padded with zeros to [width] characters. *)
Fixpoint zeros (k : nat) : string :=
  match k with O => "" | S k' => String "0" (zeros k') end.

Definition pad (width : nat) (n : N) : string :=
  let s := toString n in
  zeros (width - String.length s) ++ s.

(** Civil date of a day count since 1970-01-01 (proleptic Gregorian). *)
Definition civil (days : N) : N * N * N :=
  let z := days + 719468 in
  let era := z / 146097 in
  let doe := z - era * 146097 in
  let yoe := (doe - doe / 1460 + doe / 36524 - doe / 146096) / 365 in
  let y := yoe + era * 400 in
  let doy := doe - (365 * yoe + yoe / 4 - yoe / 100) in
  let mp := (5 * doy + 2) / 153 in
  let d := doy - (153 * mp + 2) / 5 + 1 in
  let m := if mp <? 10 then mp + 3 else mp - 9 in
  (if m <=? 2 then y + 1 else y, m, d).

(** [new Date(ms).toISOString()] for a time value [ms >= 0]; years above
    9999 use the expanded six-digit form. *)
Definition toISOString (ms : N) : string :=
  let days := ms / 86400000 in
  let r := ms mod 86400000 in
  let '(y, m, d) := civil days in
  let year := if y <=? 9999 then pad 4 y else "+" ++ pad 6 y in
  year ++ "-" ++ pad 2 m ++ "-" ++ pad 2 d ++ "T" ++
  pad 2 (r / 3600000) ++ ":" ++ pad 2 (r / 60000 mod 60) ++ ":" ++
  pad 2 (r / 1000 mod 60) ++ "." ++ pad 3 (r mod 1000) ++ "Z".

(** [s.split('T')[0]]: the part of [s] before the first ['T']. *)
Fixpoint beforeT (s : string) : string :=
  match s with
  | EmptyString => EmptyString
  | String c s' => if Ascii.eqb c "T" then EmptyString else String c (beforeT s')
  end.

(** [new Date().toISOString().split('T')[0]] *)
Definition isoDate (ms : N) : string := beforeT (toISOString ms).

(** [s.toLowerCase()] on code units below 256: the letters A to Z and the
    accented capitals U+00C0 to U+00DE (U+00D7, the multiplication sign,
    apart) move up by 32. *)
Definition lowerChar (c : ascii) : ascii :=
  let n := N_of_ascii c in
  if ((65 <=? n) && (n <=? 90)) || ((192 <=? n) && (n <=? 222) && negb (n =? 215))
  then ascii_of_N (n + 32)
  else c.

Fixpoint toLowerCase (s : string) : string :=
  match s with
  | EmptyString => EmptyString
  | String c s' => String (lowerChar c) (toLowerCase s')
  end.

(** [s.startsWith(q)] *)
Fixpoint startsWith (s q : string) : bool :=
  match q, s with
  | EmptyString, _ => true
  | String _ _, EmptyString => false
  | String b q', String a s' => Ascii.eqb a b && startsWith s' q'
  end.

(** [s.includes(q)]: [q] occurs somewhere in [s]. *)
Fixpoint includes (s q : string) : bool :=
  startsWith s q
  || match s with
     | EmptyString => false
     | String _ s' => includes s' q
     end.

End Js.

(** ** The remote document store: [src/app/api/data/route.ts] *)

Module DataRoute.

Definition DATA_KEY : string := "project-manager-data".

Section Handlers.
(** The handlers never look inside a task, a project or a trash entry. *)
Variables T P D : Type.

(** The object held in the [value] column. *)
Record Value := mkValue {
  v_tasks : option (list T);
  v_projects : option (list P);
  v_lastUpdated : option string
}.

(** What [data.value] can be: [null] (or an empty string), an object, or a
    non-empty string, which is JSON text that parses to an object or does
    not parse. *)
Inductive Cell :=
| CNull
| CObject (v : Value)
| CText (parsed : option Value).

(** The [kv_store] table as the handlers see it: the row stored under
    [DATA_KEY], and the error the next [select] or [upsert] reports. *)
Record Db := mkDb {
  row : option Cell;
  selectError : option string;
  upsertError : option string
}.

(** The JSON body of a POST request. *)
Record Body := mkBody {
  b_tasks : option (list T);
  b_projects : option (list P);
  b_deletedTasks : option (list D)
}.

Record GetResponse := mkGetResponse {
  g_tasks : list T;
  g_projects : list P;
  g_lastUpdated : option string;
  g_source : string
}.

Record PostResponse := mkPostResponse {
  p_status : N;
  p_success : bool;
  p_lastUpdated : option string;
  p_error : option string;
  p_source : string
}.

Definition respond (parsed : Value) : GetResponse :=
  mkGetResponse (Js.arr_or (v_tasks parsed) []) (Js.arr_or (v_projects parsed) [])
                (v_lastUpdated parsed) "supabase".

(** [export async function GET()]; [supabase] is [None] when the client
    is not configured. *)
Definition GET (supabase : option Db) : GetResponse :=
  match supabase with
  | None => mkGetResponse [] [] None "no-db"
  | Some db =>
      let data := match selectError db with
                  | Some _ => None
                  | None => row db
                  end in
      match data with
      | Some (CObject v) => respond v
      | Some (CText (Some v)) => respond v
      | Some (CText None) => mkGetResponse [] [] None "error"
      | Some CNull | None => mkGetResponse [] [] None "empty"
      end
  end.

(** [export async function POST(request)]: [body] is [None] when
    [request.json()] throws; [now] is the server's clock. *)
Definition POST (now : N) (body : option Body) (supabase : option Db)
  : PostResponse * option Db :=
  match body with
  | None => (mkPostResponse 500 false None (Some "SyntaxError") "error", supabase)
  | Some body =>
      let lastUpdated := Js.toISOString now in
      match supabase with
      | None =>
          (mkPostResponse 500 false None (Some "Database not configured") "no-db", None)
      | Some db =>
          match upsertError db with
          | Some message =>
              (mkPostResponse 500 false None (Some message) "error", Some db)
          | None =>
              let value := mkValue (Some (Js.arr_or (b_tasks body) []))
                                   (Some (Js.arr_or (b_projects body) []))
                                   (Some lastUpdated) in
              (mkPostResponse 200 true (Some lastUpdated) None "supabase",
               Some (mkDb (Some (CObject value)) (selectError db) (upsertError db)))
          end
      end
  end.

End Handlers.

Arguments mkValue {T P}.
Arguments CNull {T P}.
Arguments CObject {T P}.
Arguments CText {T P}.
Arguments mkDb {T P}.
Arguments mkBody {T P D}.
Arguments mkGetResponse {T P}.
Arguments GET {T P}.
Arguments POST {T P D}.

End DataRoute.

(** ** Types shared by the components *)

Inductive Priority := low | medium | high | urgent.
Inductive TaskStatus := backlog | todo | in_progress | review | done.
Inductive ProjectStatus := live | building | planned | offline.
Inductive Agent := Jarvis | Bob | Justin | Kyle | Ethan | Shen.

Definition TaskStatus_eqb (a b : TaskStatus) : bool :=
  match a, b with
  | backlog, backlog | todo, todo | in_progress, in_progress
  | review, review | done, done => true
  | _, _ => false
  end.

(** ** The component with projects, tasks and trash *)

Module ProjectManager.

Module Task.
Record t := mk {
  id : string;
  title : string;
  description : string;
  status : TaskStatus;
  priority : Priority;
  assignee : option Agent;
  dueDate : option string;
  tags : list string;
  createdAt : string;
  projectId : option string
}.
End Task.

(** [interface DeletedTask extends Task { deletedAt: string }] *)
Module DeletedTask.
Record t := mk {
  task : Task.t;
  deletedAt : string
}.
Definition id (d : t) : string := Task.id (task d).
End DeletedTask.

Module Project.
Record t := mk {
  id : string;
  name : string;
  description : string;
  url : string;
  status : ProjectStatus;
  category : string;
  techStack : string;
  owner : Agent;
  designScore : N;
  createdAt : string
}.
End Project.

(** [Omit<Project, 'id' | 'createdAt'>] *)
Module NewProject.
Record t := mk {
  name : string;
  description : string;
  url : string;
  status : ProjectStatus;
  category : string;
  techStack : string;
  owner : Agent;
  designScore : N
}.
Definition blank : t := mk "" "" "" planned "Dashboard" "" Jarvis 5.
End NewProject.

(** The new-task form; [assignee] is [None] for the empty string. *)
Module NewTask.
Record t := mk {
  title : string;
  description : string;
  priority : Priority;
  assignee : option Agent;
  status : TaskStatus;
  dueDate : string;
  projectId : string
}.
Definition blank : t := mk "" "" medium None todo "" "".
End NewTask.

Module ConfirmDelete.
Inductive kind := task | project.
Record t := mk { type : kind; id : string; name : string }.
End ConfirmDelete.

Definition DEFAULT_PROJECTS : list Project.t := [
  Project.mk "1" "Gem Dashboard Elite"
    "Main project tracker & crypto signals leaderboard"
    "https://gem-dashboard-elite.vercel.app" live "Dashboard"
    "Next.js 14, Supabase, Tailwind 3" Jarvis 7 "2026-01-15";
  Project.mk "2" "Project Manager"
    "Task & project management for the AI team"
    "https://project-manager-opal-one.vercel.app" live "Tool"
    "Next.js 16, Framer Motion, Tailwind 4" Jarvis 8 "2026-02-01";
  Project.mk "3" "Command Center"
    "Cyberpunk system ops dashboard with live data"
    "https://command-center-eosin.vercel.app" live "Dashboard"
    "Next.js 14, SQLite, Supabase" Justin 7 "2026-01-20";
  Project.mk "4" "Agent Status Dashboard"
    "Monitor all 16 agents, APIs, cron jobs"
    "https://agent-status-dashboard.vercel.app" live "Dashboard"
    "Static HTML, Chart.js" Justin 8 "2026-01-18";
  Project.mk "5" "Crypto Tracker"
    "Live prices, calls, whale activity, liquidations"
    "https://crypto-tracker-theta-seven.vercel.app" live "Dashboard"
    "Next.js, Recharts, Tailwind 3" Jarvis 7 "2026-01-10";
  Project.mk "6" "Kyle Dashboard"
    "Lead generation tracking with pipeline flow"
    "https://kyle-dashboard.vercel.app" live "Marketing"
    "Static HTML, Chart.js" Kyle 8 "2026-01-22";
  Project.mk "7" "Algo Leaderboard"
    "Algo trading performance rankings"
    "https://algo-leaderboard.vercel.app" live "Dashboard"
    "Next.js 14, Recharts" Jarvis 3 "2026-01-12";
  Project.mk "8" "Strategy Hub"
    "Internal content strategy docs"
    "https://strategy-hub-eosin.vercel.app" live "Marketing"
    "Next.js 14" Jarvis 3 "2026-01-14";
  Project.mk "9" "Master Dashboard"
    "System overview with Vercel/n8n/cron monitoring"
    "https://master-dashboard-fawn.vercel.app" live "Dashboard"
    "Next.js 16, Pages Router" Bob 4 "2026-01-08";
  Project.mk "10" "ROI Calculator"
    "Lead capture with ROI calculation"
    "https://roi-calculator-flax-eta.vercel.app" live "Tool"
    "Static HTML" Kyle 6 "2026-01-25";
  Project.mk "11" "Jarvis Dashboard v2"
    "Empty - needs to be built or deleted"
    "" planned "Dashboard"
    "Next.js 16, Tailwind 4" Bob 0 "2026-02-01";
  Project.mk "12" "Project Tracker"
    "Kanban board for Call Setter AI"
    "https://project-tracker-sand.vercel.app" live "Tool"
    "Static HTML, Upstash Redis" Jarvis 5 "2026-01-16"
].

Definition DEFAULT_TASKS : list Task.t := [
  Task.mk "1" "Fix Telegram API costs"
    "Reduce token usage by switching to Kimi K2.5"
    in_progress urgent (Some Jarvis) (Some "2026-02-06") ["bug"; "urgent"] "2026-02-05" (Some "2");
  Task.mk "2" "Glass UI Dashboard upgrade"
    "Apply glassmorphism to all dashboards"
    todo high (Some Bob) (Some "2026-02-07") ["design"] "2026-02-05" None;
  Task.mk "3" "Deploy monitoring agent"
    "Watch Vercel deployments and alert on failures"
    done medium (Some Justin) (Some "2026-02-05") ["devops"] "2026-02-04" (Some "4");
  Task.mk "4" "Lead generation optimization"
    "Improve Kyle dashboard metrics"
    review medium (Some Kyle) (Some "2026-02-08") ["marketing"] "2026-02-03" (Some "6");
  Task.mk "5" "Security audit completion"
    "Full system security review and API key cleanup"
    backlog high (Some Ethan) (Some "2026-02-10") ["security"] "2026-02-02" None;
  Task.mk "6" "Cost tracking improvements"
    "Better API cost monitoring with Shen dashboard"
    todo low (Some Shen) (Some "2026-02-09") ["finance"] "2026-02-01" None
].

Definition MAX_DELETED : nat := 20.

Inductive SyncStatus := idle | syncing | saved | error.

(** *** The local cache *)

(** What [localStorage.getItem] finds under a key: nothing (or the empty
    string), text that [JSON.parse] rejects, or the JSON text of a value. *)
Inductive Slot (A : Type) :=
| Missing
| Corrupt
| Stored (a : A).
Arguments Missing {A}.
Arguments Corrupt {A}.

Record LocalStorage := mkLocalStorage {
  pm_projects : Slot (list Project.t);
  pm_tasks : Slot (list Task.t);
  pm_deleted_tasks : Slot (list DeletedTask.t)
}.

(** The three keys, each with the type of the value kept under it. *)
Inductive Key : Type -> Type :=
| STORAGE_KEY_PROJECTS : Key (list Project.t)
| STORAGE_KEY_TASKS : Key (list Task.t)
| STORAGE_KEY_DELETED : Key (list DeletedTask.t).

Definition getItem {T} (key : Key T) (ls : LocalStorage) : Slot T :=
  match key in Key T return Slot T with
  | STORAGE_KEY_PROJECTS => pm_projects ls
  | STORAGE_KEY_TASKS => pm_tasks ls
  | STORAGE_KEY_DELETED => pm_deleted_tasks ls
  end.

Definition setItem {T} (key : Key T) (data : T) (ls : LocalStorage) : LocalStorage :=
  match key in Key T return T -> LocalStorage with
  | STORAGE_KEY_PROJECTS => fun d => mkLocalStorage (Stored d) (pm_tasks ls) (pm_deleted_tasks ls)
  | STORAGE_KEY_TASKS => fun d => mkLocalStorage (pm_projects ls) (Stored d) (pm_deleted_tasks ls)
  | STORAGE_KEY_DELETED => fun d => mkLocalStorage (pm_projects ls) (pm_tasks ls) (Stored d)
  end data.

(** *** The network *)

(** The JSON of a response as [loadFromApi] reads it. *)
Module Data.
Record t := mk {
  source : option string;
  tasks : option (list Task.t);
  projects : option (list Project.t);
  deletedTasks : option (list DeletedTask.t)
}.
End Data.

(** How a [fetch] settles: the promise rejects, or resolves to a response
    with its [ok] flag and its body ([None] when the body is not JSON). *)
Inductive FetchOutcome :=
| Rejected
| Response (ok : bool) (json : option Data.t).

Definition PostBody := DataRoute.Body Task.t Project.t DeletedTask.t.

Inductive Request :=
| GET_data
| POST_data (body : PostBody).

(** *** Timers *)

(** A pending [setTimeout] callback of [debouncedSave], with the arguments
    [t], [p], [d] its closure holds. *)
Record Timer := mkTimer {
  tid : positive;
  due : N;
  timer_t : list Task.t;
  timer_p : list Project.t;
  timer_d : option (list DeletedTask.t)
}.

(** *** The world: component state, refs and environment *)

(** [projects] ... [syncStatus] are React state, [saveTimer] and
    [isInitialLoad] are refs.  The rest is the environment: the clock in
    milliseconds, whether [window] exists, whether [localStorage.setItem]
    throws, the local store, the event loop's pending timers and next timer
    handle, how the coming [fetch] calls settle (a rejection once the list is
    used up), and the requests sent so far, oldest first. *)
Record World := mkWorld {
  projects : list Project.t;
  tasks : list Task.t;
  deletedTasks : list DeletedTask.t;
  newProject : NewProject.t;
  newTask : NewTask.t;
  showAddProject : bool;
  showAddTask : bool;
  selectedTask : option Task.t;
  confirmDelete : option ConfirmDelete.t;
  syncStatus : SyncStatus;
  saveTimer : option positive;
  isInitialLoad : bool;
  clock : N;
  hasWindow : bool;
  storageFull : bool;
  localStorage : LocalStorage;
  timers : list Timer;
  nextTimer : positive;
  network : list FetchOutcome;
  requests : list Request
}.

(** Functional updates of one field. *)
Definition with_projects (v : list Project.t) (w : World) : World :=
  mkWorld v (tasks w) (deletedTasks w) (newProject w) (newTask w) (showAddProject w)
    (showAddTask w) (selectedTask w) (confirmDelete w) (syncStatus w) (saveTimer w)
    (isInitialLoad w) (clock w) (hasWindow w) (storageFull w) (localStorage w) (timers
    w) (nextTimer w) (network w) (requests w).
Definition with_tasks (v : list Task.t) (w : World) : World :=
  mkWorld (projects w) v (deletedTasks w) (newProject w) (newTask w) (showAddProject
    w) (showAddTask w) (selectedTask w) (confirmDelete w) (syncStatus w) (saveTimer w)
    (isInitialLoad w) (clock w) (hasWindow w) (storageFull w) (localStorage w) (timers
    w) (nextTimer w) (network w) (requests w).
Definition with_deletedTasks (v : list DeletedTask.t) (w : World) : World :=
  mkWorld (projects w) (tasks w) v (newProject w) (newTask w) (showAddProject w)
    (showAddTask w) (selectedTask w) (confirmDelete w) (syncStatus w) (saveTimer w)
    (isInitialLoad w) (clock w) (hasWindow w) (storageFull w) (localStorage w) (timers
    w) (nextTimer w) (network w) (requests w).
Definition with_newProject (v : NewProject.t) (w : World) : World :=
  mkWorld (projects w) (tasks w) (deletedTasks w) v (newTask w) (showAddProject w)
    (showAddTask w) (selectedTask w) (confirmDelete w) (syncStatus w) (saveTimer w)
    (isInitialLoad w) (clock w) (hasWindow w) (storageFull w) (localStorage w) (timers
    w) (nextTimer w) (network w) (requests w).
Definition with_newTask (v : NewTask.t) (w : World) : World :=
  mkWorld (projects w) (tasks w) (deletedTasks w) (newProject w) v (showAddProject w)
    (showAddTask w) (selectedTask w) (confirmDelete w) (syncStatus w) (saveTimer w)
    (isInitialLoad w) (clock w) (hasWindow w) (storageFull w) (localStorage w) (timers
    w) (nextTimer w) (network w) (requests w).
Definition with_showAddProject (v : bool) (w : World) : World :=
  mkWorld (projects w) (tasks w) (deletedTasks w) (newProject w) (newTask w) v
    (showAddTask w) (selectedTask w) (confirmDelete w) (syncStatus w) (saveTimer w)
    (isInitialLoad w) (clock w) (hasWindow w) (storageFull w) (localStorage w) (timers
    w) (nextTimer w) (network w) (requests w).
Definition with_showAddTask (v : bool) (w : World) : World :=
  mkWorld (projects w) (tasks w) (deletedTasks w) (newProject w) (newTask w)
    (showAddProject w) v (selectedTask w) (confirmDelete w) (syncStatus w) (saveTimer
    w) (isInitialLoad w) (clock w) (hasWindow w) (storageFull w) (localStorage w)
    (timers w) (nextTimer w) (network w) (requests w).
Definition with_selectedTask (v : option Task.t) (w : World) : World :=
  mkWorld (projects w) (tasks w) (deletedTasks w) (newProject w) (newTask w)
    (showAddProject w) (showAddTask w) v (confirmDelete w) (syncStatus w) (saveTimer
    w) (isInitialLoad w) (clock w) (hasWindow w) (storageFull w) (localStorage w)
    (timers w) (nextTimer w) (network w) (requests w).
Definition with_confirmDelete (v : option ConfirmDelete.t) (w : World) : World :=
  mkWorld (projects w) (tasks w) (deletedTasks w) (newProject w) (newTask w)
    (showAddProject w) (showAddTask w) (selectedTask w) v (syncStatus w) (saveTimer w)
    (isInitialLoad w) (clock w) (hasWindow w) (storageFull w) (localStorage w) (timers
    w) (nextTimer w) (network w) (requests w).
Definition with_syncStatus (v : SyncStatus) (w : World) : World :=
  mkWorld (projects w) (tasks w) (deletedTasks w) (newProject w) (newTask w)
    (showAddProject w) (showAddTask w) (selectedTask w) (confirmDelete w) v (saveTimer
    w) (isInitialLoad w) (clock w) (hasWindow w) (storageFull w) (localStorage w)
    (timers w) (nextTimer w) (network w) (requests w).
Definition with_saveTimer (v : option positive) (w : World) : World :=
  mkWorld (projects w) (tasks w) (deletedTasks w) (newProject w) (newTask w)
    (showAddProject w) (showAddTask w) (selectedTask w) (confirmDelete w) (syncStatus
    w) v (isInitialLoad w) (clock w) (hasWindow w) (storageFull w) (localStorage w)
    (timers w) (nextTimer w) (network w) (requests w).
Definition with_isInitialLoad (v : bool) (w : World) : World :=
  mkWorld (projects w) (tasks w) (deletedTasks w) (newProject w) (newTask w)
    (showAddProject w) (showAddTask w) (selectedTask w) (confirmDelete w) (syncStatus
    w) (saveTimer w) v (clock w) (hasWindow w) (storageFull w) (localStorage w)
    (timers w) (nextTimer w) (network w) (requests w).
Definition with_clock (v : N) (w : World) : World :=
  mkWorld (projects w) (tasks w) (deletedTasks w) (newProject w) (newTask w)
    (showAddProject w) (showAddTask w) (selectedTask w) (confirmDelete w) (syncStatus
    w) (saveTimer w) (isInitialLoad w) v (hasWindow w) (storageFull w) (localStorage
    w) (timers w) (nextTimer w) (network w) (requests w).
Definition with_hasWindow (v : bool) (w : World) : World :=
  mkWorld (projects w) (tasks w) (deletedTasks w) (newProject w) (newTask w)
    (showAddProject w) (showAddTask w) (selectedTask w) (confirmDelete w) (syncStatus
    w) (saveTimer w) (isInitialLoad w) (clock w) v (storageFull w) (localStorage w)
    (timers w) (nextTimer w) (network w) (requests w).
Definition with_storageFull (v : bool) (w : World) : World :=
  mkWorld (projects w) (tasks w) (deletedTasks w) (newProject w) (newTask w)
    (showAddProject w) (showAddTask w) (selectedTask w) (confirmDelete w) (syncStatus
    w) (saveTimer w) (isInitialLoad w) (clock w) (hasWindow w) v (localStorage w)
    (timers w) (nextTimer w) (network w) (requests w).
Definition with_localStorage (v : LocalStorage) (w : World) : World :=
  mkWorld (projects w) (tasks w) (deletedTasks w) (newProject w) (newTask w)
    (showAddProject w) (showAddTask w) (selectedTask w) (confirmDelete w) (syncStatus
    w) (saveTimer w) (isInitialLoad w) (clock w) (hasWindow w) (storageFull w) v
    (timers w) (nextTimer w) (network w) (requests w).
Definition with_timers (v : list Timer) (w : World) : World :=
  mkWorld (projects w) (tasks w) (deletedTasks w) (newProject w) (newTask w)
    (showAddProject w) (showAddTask w) (selectedTask w) (confirmDelete w) (syncStatus
    w) (saveTimer w) (isInitialLoad w) (clock w) (hasWindow w) (storageFull w)
    (localStorage w) v (nextTimer w) (network w) (requests w).
Definition with_nextTimer (v : positive) (w : World) : World :=
  mkWorld (projects w) (tasks w) (deletedTasks w) (newProject w) (newTask w)
    (showAddProject w) (showAddTask w) (selectedTask w) (confirmDelete w) (syncStatus
    w) (saveTimer w) (isInitialLoad w) (clock w) (hasWindow w) (storageFull w)
    (localStorage w) (timers w) v (network w) (requests w).
Definition with_network (v : list FetchOutcome) (w : World) : World :=
  mkWorld (projects w) (tasks w) (deletedTasks w) (newProject w) (newTask w)
    (showAddProject w) (showAddTask w) (selectedTask w) (confirmDelete w) (syncStatus
    w) (saveTimer w) (isInitialLoad w) (clock w) (hasWindow w) (storageFull w)
    (localStorage w) (timers w) (nextTimer w) v (requests w).
Definition with_requests (v : list Request) (w : World) : World :=
  mkWorld (projects w) (tasks w) (deletedTasks w) (newProject w) (newTask w)
    (showAddProject w) (showAddTask w) (selectedTask w) (confirmDelete w) (syncStatus
    w) (saveTimer w) (isInitialLoad w) (clock w) (hasWindow w) (storageFull w)
    (localStorage w) (timers w) (nextTimer w) (network w) v.

(** *** Effects: state and exceptions *)

Inductive Exn := QuotaExceededError | TypeError | SyntaxError.

Inductive Outcome (A : Type) :=
| Returned (a : A)
| Threw (e : Exn).
Arguments Threw {A}.

(** A computation runs on a world and returns or throws; what it did to the
    world before throwing stays done. *)
Definition M (A : Type) : Type := World -> Outcome A * World.

Definition ret {A} (a : A) : M A := fun w => (Returned a, w).

Definition bind {A B} (m : M A) (k : A -> M B) : M B :=
  fun w =>
    match m w with
    | (Returned a, w') => k a w'
    | (Threw e, w') => (Threw e, w')
    end.

Definition throw {A} (e : Exn) : M A := fun w => (Threw e, w).

Definition try_catch {A} (m : M A) (handler : Exn -> M A) : M A :=
  fun w =>
    match m w with
    | (Returned a, w') => (Returned a, w')
    | (Threw e, w') => handler e w'
    end.

Definition get : M World := fun w => (Returned w, w).
Definition modify (f : World -> World) : M unit := fun w => (Returned tt, f w).

Declare Scope js_scope.
Delimit Scope js_scope with js.
Notation "x <- m ;; k" := (bind m (fun x => k))
  (at level 61, m at next level, right associativity) : js_scope.
Notation "m ;; k" := (bind m (fun _ => k))
  (at level 61, right associativity) : js_scope.
Local Open Scope js_scope.

(** The world a computation leaves, and what it returned. *)
Definition exec {A} (m : M A) (w : World) : World := snd (m w).
Definition outcome {A} (m : M A) (w : World) : Outcome A := fst (m w).

Definition setProjects (v : list Project.t) : M unit := modify (with_projects v).
Definition setTasks (v : list Task.t) : M unit := modify (with_tasks v).
Definition setDeletedTasks (v : list DeletedTask.t) : M unit := modify (with_deletedTasks v).
Definition setNewProject (v : NewProject.t) : M unit := modify (with_newProject v).
Definition setNewTask (v : NewTask.t) : M unit := modify (with_newTask v).
Definition setShowAddProject (v : bool) : M unit := modify (with_showAddProject v).
Definition setShowAddTask (v : bool) : M unit := modify (with_showAddTask v).
Definition setSelectedTask (v : option Task.t) : M unit := modify (with_selectedTask v).
Definition setConfirmDelete (v : option ConfirmDelete.t) : M unit :=
  modify (with_confirmDelete v).
Definition setSyncStatus (v : SyncStatus) : M unit := modify (with_syncStatus v).

(** *** Persistence: local cache and remote API *)

(** [function loadLocal<T>(key, defaults)] *)
Definition loadLocal {T} (key : Key T) (defaults : T) : M T :=
  w <- get ;;
  if negb (hasWindow w) then ret defaults
  else
    match getItem key (localStorage w) with
    | Stored a => ret a
    | Missing => ret defaults
    | Corrupt => ret defaults
    end.

(** [function saveLocal<T>(key, data)] *)
Definition saveLocal {T} (key : Key T) (data : T) : M unit :=
  w <- get ;;
  if negb (hasWindow w) then ret tt
  else if storageFull w then throw QuotaExceededError
  else modify (with_localStorage (setItem key data (localStorage w))).

(** [await fetch('/api/data', ...)]: the request goes out and the promise
    settles as the environment dictates. *)
Definition fetch (req : Request) : M (bool * option Data.t) :=
  w <- get ;;
  modify (with_requests (requests w ++ [req])) ;;
  match network w with
  | [] => throw TypeError
  | o :: rest =>
      modify (with_network rest) ;;
      match o with
      | Rejected => throw TypeError
      | Response ok json => ret (ok, json)
      end
  end.

(** [await res.json()] *)
Definition json (body : option Data.t) : M Data.t :=
  match body with
  | Some data => ret data
  | None => throw SyntaxError
  end.

(** [async function saveToApi(tasks, projects, deleted?)] *)
Definition saveToApi (tasks : list Task.t) (projects : list Project.t)
                     (deleted : option (list DeletedTask.t)) : M unit :=
  try_catch
    (_ <- fetch (POST_data (DataRoute.mkBody (Some tasks) (Some projects) deleted)) ;;
     ret tt)
    (fun _ => ret tt).

(** What [loadFromApi] hands back when it does not return [null];
    [tasks] and [projects] are passed on as received. *)
Module ApiData.
Record t := mk {
  tasks : option (list Task.t);
  projects : option (list Project.t);
  deletedTasks : list DeletedTask.t
}.
End ApiData.

Definition source_is_supabase (data : Data.t) : bool :=
  match Data.source data with
  | Some s => String.eqb s "supabase"
  | None => false
  end.

(** [async function loadFromApi()] *)
Definition loadFromApi : M (option ApiData.t) :=
  try_catch
    (res <- fetch GET_data ;;
     if negb (fst res) then ret None
     else
       data <- json (snd res) ;;
       if source_is_supabase data
          && (Js.nonEmpty (Data.tasks data) || Js.nonEmpty (Data.projects data))
       then ret (Some (ApiData.mk (Data.tasks data) (Data.projects data)
                                  (Js.arr_or (Data.deletedTasks data) [])))
       else ret None)
    (fun _ => ret None).

(** [remote.length > 0 ? remote : local]; reading [length] of [undefined]
    throws. *)
Definition remoteOrLocal {A} (remote : option (list A)) (local : list A) : M (list A) :=
  match remote with
  | Some l => ret (if Js.hasItems l then l else local)
  | None => throw TypeError
  end.

(** *** The debounced save *)

(** [clearTimeout(id)] *)
Definition clearTimeout (id : positive) : M unit :=
  w <- get ;;
  modify (with_timers (filter (fun tm => negb (Pos.eqb (tid tm) id)) (timers w))).

(** [setTimeout(async () => { ... saveToApi(t, p, d) ... }, delay)] *)
Definition setTimeout (t : list Task.t) (p : list Project.t)
                      (d : option (list DeletedTask.t)) (delay : N) : M positive :=
  w <- get ;;
  let id := nextTimer w in
  modify (with_timers (timers w ++ [mkTimer id (clock w + delay) t p d])) ;;
  modify (with_nextTimer (Pos.succ id)) ;;
  ret id.

Definition DEBOUNCE : N := 800.

(** [debouncedSave(t, p, d?)] *)
Definition debouncedSave (t : list Task.t) (p : list Project.t)
                         (d : option (list DeletedTask.t)) : M unit :=
  saveLocal STORAGE_KEY_TASKS t ;;
  saveLocal STORAGE_KEY_PROJECTS p ;;
  match d with
  | Some d' => saveLocal STORAGE_KEY_DELETED d'
  | None => ret tt
  end ;;
  w <- get ;;
  match saveTimer w with
  | Some id => clearTimeout id
  | None => ret tt
  end ;;
  id <- setTimeout t p d DEBOUNCE ;;
  modify (with_saveTimer (Some id)).

(** The callback [debouncedSave] hands to [setTimeout]. *)
Definition timerBody (tm : Timer) : M unit :=
  setSyncStatus syncing ;;
  saveToApi (timer_t tm) (timer_p tm) (timer_d tm) ;;
  setSyncStatus saved.

(** Pending timers in the order they fire: by due time, earlier scheduled
    first among equals. *)
Fixpoint insertByDue (tm : Timer) (l : list Timer) : list Timer :=
  match l with
  | [] => [tm]
  | x :: l' => if due tm <? due x then tm :: l else x :: insertByDue tm l'
  end.

Definition firingOrder (l : list Timer) : list Timer :=
  fold_left (fun acc tm => insertByDue tm acc) l [].

Definition fire (w : World) (tm : Timer) : World :=
  exec (timerBody tm) (with_clock (N.max (clock w) (due tm)) w).

(** [dt] milliseconds pass with no other event: every timer that falls due
    fires in order (no callback of this component sets a timer), and the
    clock ends [dt] later. *)
Definition elapse (dt : N) (w : World) : World :=
  let target := clock w + dt in
  let ready := filter (fun tm => due tm <=? target) (timers w) in
  let later := filter (fun tm => negb (due tm <=? target)) (timers w) in
  with_clock target (fold_left fire (firingOrder ready) (with_timers later w)).

(** *** Mount: load from the cache, then from the API *)

(** The body of the mount effect's [load]. *)
Definition load : M unit :=
  localP <- loadLocal STORAGE_KEY_PROJECTS DEFAULT_PROJECTS ;;
  localT <- loadLocal STORAGE_KEY_TASKS DEFAULT_TASKS ;;
  localD <- loadLocal STORAGE_KEY_DELETED [] ;;
  setProjects localP ;;
  setTasks localT ;;
  setDeletedTasks localD ;;
  setSyncStatus syncing ;;
  apiData <- loadFromApi ;;
  match apiData with
  | Some api =>
      (p <- remoteOrLocal (ApiData.projects api) localP ;; setProjects p) ;;
      (t <- remoteOrLocal (ApiData.tasks api) localT ;; setTasks t) ;;
      setDeletedTasks (Js.arr_or (Some (ApiData.deletedTasks api)) localD) ;;
      (p <- remoteOrLocal (ApiData.projects api) localP ;;
       saveLocal STORAGE_KEY_PROJECTS p) ;;
      (t <- remoteOrLocal (ApiData.tasks api) localT ;;
       saveLocal STORAGE_KEY_TASKS t) ;;
      saveLocal STORAGE_KEY_DELETED (Js.arr_or (Some (ApiData.deletedTasks api)) localD) ;;
      setSyncStatus saved
  | None =>
      saveToApi localT localP (Some localD) ;;
      setSyncStatus saved
  end ;;
  modify (with_isInitialLoad false).

(** *** Persist on change *)

(** The handlers below are closures of one render: [r] is the world at that
    render, from which they read [tasks], [projects] and [deletedTasks]. *)

(** [persistProjects(p)] *)
Definition persistProjects (r : World) (p : list Project.t) : M unit :=
  setProjects p ;;
  debouncedSave (tasks r) p (Some (deletedTasks r)).

(** [persistTasks(t, d?)] *)
Definition persistTasks (r : World) (t : list Task.t)
                        (d : option (list DeletedTask.t)) : M unit :=
  setTasks t ;;
  match d with
  | Some d' => setDeletedTasks d'
  | None => ret tt
  end ;;
  debouncedSave t (projects r) (Some (Js.arr_or d (deletedTasks r))).

(** *** CRUD: projects *)

Definition addProject : M unit :=
  r <- get ;;
  let newProject := newProject r in
  if negb (Js.truthy (Js.trim (NewProject.name newProject))) then ret tt
  else
    let project :=
      Project.mk (Js.toString (clock r))
                 (NewProject.name newProject) (NewProject.description newProject)
                 (NewProject.url newProject) (NewProject.status newProject)
                 (NewProject.category newProject) (NewProject.techStack newProject)
                 (NewProject.owner newProject) (NewProject.designScore newProject)
                 (Js.isoDate (clock r)) in
    persistProjects r (project :: projects r) ;;
    setNewProject NewProject.blank ;;
    setShowAddProject false.

(** *** CRUD: tasks *)

Definition addTask : M unit :=
  r <- get ;;
  let newTask := newTask r in
  if negb (Js.truthy (Js.trim (NewTask.title newTask))) then ret tt
  else
    let task :=
      Task.mk (Js.toString (clock r)) (NewTask.title newTask)
              (NewTask.description newTask) (NewTask.status newTask)
              (NewTask.priority newTask) (NewTask.assignee newTask)
              (Js.or_null (NewTask.dueDate newTask)) []
              (Js.isoDate (clock r)) (Js.or_null (NewTask.projectId newTask)) in
    persistTasks r (task :: tasks r) None ;;
    setNewTask NewTask.blank ;;
    setShowAddTask false.

Definition softDeleteTask (id : string) : M unit :=
  r <- get ;;
  match find (fun t => String.eqb (Task.id t) id) (tasks r) with
  | None => ret tt
  | Some task =>
      let deleted := DeletedTask.mk task (Js.toISOString (clock r)) in
      let newDeleted := Js.slice0 MAX_DELETED (deleted :: deletedTasks r) in
      setDeletedTasks newDeleted ;;
      let newTasks := filter (fun t => negb (String.eqb (Task.id t) id)) (tasks r) in
      persistTasks r newTasks (Some newDeleted) ;;
      setSelectedTask None ;;
      setConfirmDelete None
  end.

Definition restoreTask (id : string) : M unit :=
  r <- get ;;
  match find (fun t => String.eqb (DeletedTask.id t) id) (deletedTasks r) with
  | None => ret tt
  | Some task =>
      let restored := DeletedTask.task task in
      let newDeleted :=
        filter (fun t => negb (String.eqb (DeletedTask.id t) id)) (deletedTasks r) in
      setDeletedTasks newDeleted ;;
      persistTasks r (restored :: tasks r) (Some newDeleted)
  end.

Definition permanentDeleteTask (id : string) : M unit :=
  r <- get ;;
  let newDeleted :=
    filter (fun t => negb (String.eqb (DeletedTask.id t) id)) (deletedTasks r) in
  setDeletedTasks newDeleted ;;
  saveLocal STORAGE_KEY_DELETED newDeleted ;;
  debouncedSave (tasks r) (projects r) (Some newDeleted).

Definition withStatus (newStatus : TaskStatus) (t : Task.t) : Task.t :=
  Task.mk (Task.id t) (Task.title t) (Task.description t) newStatus (Task.priority t)
          (Task.assignee t) (Task.dueDate t) (Task.tags t) (Task.createdAt t)
          (Task.projectId t).

Definition updateTaskStatus (taskId : string) (newStatus : TaskStatus) : M unit :=
  r <- get ;;
  persistTasks r
    (map (fun t => if String.eqb (Task.id t) taskId then withStatus newStatus t else t)
         (tasks r))
    None.

(** *** The component at mount *)

(** The state [useState] and [useRef] start from, in a given environment. *)
Definition initial (clock : N) (hasWindow storageFull : bool) (ls : LocalStorage)
                   (network : list FetchOutcome) : World :=
  mkWorld DEFAULT_PROJECTS DEFAULT_TASKS [] NewProject.blank NewTask.blank
          false false None None idle None true
          clock hasWindow storageFull ls [] 1%positive network [].

(** *** Sequences of events *)

(** One mutation after another, [fst] milliseconds after the previous
    event; a handler that throws ends its own event only. *)
Fixpoint run (events : list (N * M unit)) (w : World) : World :=
  match events with
  | [] => w
  | (dt, handler) :: rest => run rest (exec handler (elapse dt w))
  end.

(** The bodies of the POST requests sent so far, oldest first. *)
Fixpoint posts (l : list Request) : list PostBody :=
  match l with
  | [] => []
  | GET_data :: l' => posts l'
  | POST_data b :: l' => b :: posts l'
  end.

(** The response of the data route as the client's [fetch] receives it. *)
Definition wireGet (r : DataRoute.GetResponse Task.t Project.t) : FetchOutcome :=
  Response true
    (Some (Data.mk (Some (DataRoute.g_source r)) (Some (DataRoute.g_tasks r))
                   (Some (DataRoute.g_projects r)) None)).

Definition wirePost (r : DataRoute.PostResponse) : FetchOutcome :=
  Response ((200 <=? DataRoute.p_status r) && (DataRoute.p_status r <=? 299))
    (Some (Data.mk (Some (DataRoute.p_source r)) None None None)).

(** *** More handlers of the component *)

(** The "Empty Trash" button. *)
Definition emptyTrash : M unit :=
  r <- get ;;
  setDeletedTasks [] ;;
  saveLocal STORAGE_KEY_DELETED [] ;;
  debouncedSave (tasks r) (projects r) (Some []).

(** The component state the handlers below touch besides the world. *)
Record Screen := mkScreen {
  world : World;
  selectedProject : option Project.t;
  editingProject : option Project.t;
  editingTask : option Task.t
}.

(** A handler on the screen returns or throws like one on the world. *)
Definition S (A : Type) : Type := Screen -> Outcome A * Screen.

(** Run a computation of the world inside the screen. *)
Definition inWorld {A} (m : M A) : S A :=
  fun s =>
    (fst (m (world s)),
     mkScreen (snd (m (world s))) (selectedProject s) (editingProject s) (editingTask s)).

Definition andThen {A B} (m : S A) (k : A -> S B) : S B :=
  fun s =>
    match m s with
    | (Returned a, s') => k a s'
    | (Threw e, s') => (Threw e, s')
    end.

Definition setSelectedProject (v : option Project.t) : S unit :=
  fun s => (Returned tt, mkScreen (world s) v (editingProject s) (editingTask s)).
Definition setEditingProject (v : option Project.t) : S unit :=
  fun s => (Returned tt, mkScreen (world s) (selectedProject s) v (editingTask s)).
Definition setEditingTask (v : option Task.t) : S unit :=
  fun s => (Returned tt, mkScreen (world s) (selectedProject s) (editingProject s) v).

Definition updateProject : S unit :=
  fun s =>
    match editingProject s with
    | None => (Returned tt, s)
    | Some editingProject =>
        andThen
          (inWorld (persistProjects (world s)
                      (map (fun p => if String.eqb (Project.id p) (Project.id editingProject)
                                     then editingProject else p)
                           (projects (world s)))))
          (fun _ => setEditingProject None) s
    end.

Definition deleteProject (id : string) : S unit :=
  fun s =>
    andThen
      (inWorld (persistProjects (world s)
                  (filter (fun p => negb (String.eqb (Project.id p) id))
                          (projects (world s)))))
      (fun _ => setSelectedProject None) s.

Definition updateTask (updated : Task.t) : S unit :=
  fun s =>
    andThen
      (inWorld (persistTasks (world s)
                  (map (fun t => if String.eqb (Task.id t) (Task.id updated)
                                 then updated else t)
                       (tasks (world s)))
                  None))
      (fun _ => andThen (setEditingTask None)
                        (fun _ => inWorld (setSelectedTask None))) s.

(** *** What the views compute *)

(** The project badge of a task card: nothing without a [projectId],
    else [projects.find(p => p.id === task.projectId)?.name || 'Unknown']. *)
Definition projectBadge (projects : list Project.t) (task : Task.t) : option string :=
  if Js.truthy_opt (Task.projectId task) then
    match find (fun p => match Task.projectId task with
                         | Some id => String.eqb (Project.id p) id
                         | None => false
                         end) projects with
    | Some p => if Js.truthy (Project.name p) then Some (Project.name p) else Some "Unknown"
    | None => Some "Unknown"
    end
  else None.

Definition ProjectStatus_eqb (a b : ProjectStatus) : bool :=
  match a, b with
  | live, live | building, building | planned, planned | offline, offline => true
  | _, _ => false
  end.

Definition agentName (a : Agent) : string :=
  match a with
  | Jarvis => "Jarvis" | Bob => "Bob" | Justin => "Justin"
  | Kyle => "Kyle" | Ethan => "Ethan" | Shen => "Shen"
  end.

(** [filteredTasks]: the tasks the search box lets through. *)
Definition filteredTasks (tasks : list Task.t) (taskSearch : string) : list Task.t :=
  if negb (Js.truthy taskSearch) then tasks
  else
    let q := Js.toLowerCase taskSearch in
    filter (fun t =>
              Js.includes (Js.toLowerCase (Task.title t)) q
              || Js.includes (Js.toLowerCase (Task.description t)) q
              || match Task.assignee t with
                 | Some a => Js.includes (Js.toLowerCase (agentName a)) q
                 | None => false
                 end)
           tasks.

(** The five columns of the board. *)
Module Grouped.
Record t := mk {
  backlog : list Task.t;
  todo : list Task.t;
  in_progress : list Task.t;
  review : list Task.t;
  done : list Task.t
}.
End Grouped.

(** [grouped[status]] *)
Definition column (g : Grouped.t) (status : TaskStatus) : list Task.t :=
  match status with
  | backlog => Grouped.backlog g
  | todo => Grouped.todo g
  | in_progress => Grouped.in_progress g
  | review => Grouped.review g
  | done => Grouped.done g
  end.

(** [grouped[t.status].push(t)] *)
Definition push (g : Grouped.t) (t : Task.t) : Grouped.t :=
  match Task.status t with
  | backlog => Grouped.mk (Grouped.backlog g ++ [t]) (Grouped.todo g) (Grouped.in_progress g)
                          (Grouped.review g) (Grouped.done g)
  | todo => Grouped.mk (Grouped.backlog g) (Grouped.todo g ++ [t]) (Grouped.in_progress g)
                       (Grouped.review g) (Grouped.done g)
  | in_progress => Grouped.mk (Grouped.backlog g) (Grouped.todo g)
                              (Grouped.in_progress g ++ [t]) (Grouped.review g)
                              (Grouped.done g)
  | review => Grouped.mk (Grouped.backlog g) (Grouped.todo g) (Grouped.in_progress g)
                         (Grouped.review g ++ [t]) (Grouped.done g)
  | done => Grouped.mk (Grouped.backlog g) (Grouped.todo g) (Grouped.in_progress g)
                       (Grouped.review g) (Grouped.done g ++ [t])
  end.

(** [tasksByStatus] *)
Definition tasksByStatus (filteredTasks : list Task.t) : Grouped.t :=
  fold_left push filteredTasks (Grouped.mk [] [] [] [] []).

(** [filteredProjects] *)
Definition filteredProjects (projects : list Project.t) (searchQuery : string)
           (filterStatus : option ProjectStatus) : list Project.t :=
  filter (fun p =>
            let matchesSearch :=
              negb (Js.truthy searchQuery)
              || Js.includes (Js.toLowerCase (Project.name p)) (Js.toLowerCase searchQuery)
              || Js.includes (Js.toLowerCase (Project.description p))
                             (Js.toLowerCase searchQuery) in
            let matchesStatus :=
              match filterStatus with
              | None => true
              | Some s => ProjectStatus_eqb (Project.status p) s
              end in
            matchesSearch && matchesStatus)
         projects.

End ProjectManager.

(** ** The component whose tasks carry [completedAt] *)

Module ProjectManagementPage.

Module Task.
Record t := mk {
  id : string;
  title : string;
  description : string;
  status : TaskStatus;
  priority : Priority;
  assignee : option Agent;
  dueDate : option string;
  tags : list string;
  createdAt : string;
  updatedAt : string;
  completedAt : option string;
  projectId : option string
}.
End Task.

(** The fields of the task form that [handleSubmit] reads.  Every way the
    form is filled ([useState], [setFormData(task)], the inputs) leaves
    [title], [description], [status], [priority] and [tags] defined. *)
Module FormData.
Record t := mk {
  title : string;
  description : string;
  status : TaskStatus;
  priority : Priority;
  assignee : option Agent;
  dueDate : option string;
  tags : list string;
  projectId : option string
}.
End FormData.

(** [generateId()]: [suffix] is [Math.random().toString(36).substr(2, 9)]. *)
Definition generateId (now : N) (suffix : string) : string :=
  "task-" ++ Js.toString now ++ "-" ++ suffix.

(** [a || b] on strings. *)
Definition str_or (a : option string) (b : string) : string :=
  match a with
  | Some s => if Js.truthy s then s else b
  | None => b
  end.

(** [TaskModal]'s [handleSubmit]: [task] is the task being edited, [None]
    for a new one; [now] is the clock.  The result is the task handed to
    [onSave], [None] when the form is refused. *)
Definition handleSubmit (task : option Task.t) (formData : FormData.t)
                        (now : N) (suffix : string) : option Task.t :=
  if negb (Js.truthy (Js.trim (FormData.title formData))) then None
  else
    let now' := Js.toISOString now in
    Some (Task.mk
            (str_or (option_map Task.id task) (generateId now suffix))
            (FormData.title formData)
            (str_or (Some (FormData.description formData)) "")
            (FormData.status formData)
            (FormData.priority formData)
            (FormData.assignee formData)
            (Js.opt_or_null (FormData.dueDate formData))
            (FormData.tags formData)
            (str_or (option_map Task.createdAt task) now')
            now'
            (if TaskStatus_eqb (FormData.status formData) done
                && negb (Js.truthy_opt (match task with
                                        | Some t => Task.completedAt t
                                        | None => None
                                        end))
             then Some now'
             else Js.opt_or_null (match task with
                                  | Some t => Task.completedAt t
                                  | None => None
                                  end))
            (Js.opt_or_null (FormData.projectId formData))).

(** [handleSaveTask]'s state update. *)
Definition handleSaveTask (task : Task.t) (prev : list Task.t) : list Task.t :=
  match find (fun t => String.eqb (Task.id t) (Task.id task)) prev with
  | Some _ => map (fun t => if String.eqb (Task.id t) (Task.id task) then task else t) prev
  | None => task :: prev
  end.

(** The task [handleStatusChange] puts in place of [t]. *)
Definition changeStatus (status : TaskStatus) (now : N) (t : Task.t) : Task.t :=
  Task.mk (Task.id t) (Task.title t) (Task.description t) status (Task.priority t)
          (Task.assignee t) (Task.dueDate t) (Task.tags t) (Task.createdAt t)
          (Js.toISOString now)
          (if TaskStatus_eqb status done && negb (Js.truthy_opt (Task.completedAt t))
           then Some (Js.toISOString now)
           else if negb (TaskStatus_eqb status done) then None
           else Task.completedAt t)
          (Task.projectId t).

(** [handleStatusChange]'s state update. *)
Definition handleStatusChange (id : string) (status : TaskStatus) (now : N)
                              (prev : list Task.t) : list Task.t :=
  map (fun t => if negb (String.eqb (Task.id t) id) then t else changeStatus status now t)
      prev.

(** Editing [task] through the form: the form is filled from the task, the
    user picks [status], and the saved task replaces the old one. *)
Definition formOf (t : Task.t) : FormData.t :=
  FormData.mk (Task.title t) (Task.description t) (Task.status t) (Task.priority t)
              (Task.assignee t) (Task.dueDate t) (Task.tags t) (Task.projectId t).

Definition pickStatus (status : TaskStatus) (f : FormData.t) : FormData.t :=
  FormData.mk (FormData.title f) (FormData.description f) status (FormData.priority f)
              (FormData.assignee f) (FormData.dueDate f) (FormData.tags f)
              (FormData.projectId f).

(** [handleDeleteTask]'s state update; [confirmed] is the answer to
    [confirm('Delete this task?')]. *)
Definition handleDeleteTask (confirmed : bool) (id : string) (prev : list Task.t)
  : list Task.t :=
  if negb confirmed then prev
  else filter (fun t => negb (String.eqb (Task.id t) id)) prev.

(** *** The counters of the dashboard *)

Definition Priority_eqb (a b : Priority) : bool :=
  match a, b with
  | low, low | medium, medium | high, high | urgent, urgent => true
  | _, _ => false
  end.

Definition Agent_eqb (a b : Agent) : bool :=
  match a, b with
  | Jarvis, Jarvis | Bob, Bob | Justin, Justin | Kyle, Kyle | Ethan, Ethan
  | Shen, Shen => true
  | _, _ => false
  end.

(** [byStatus[status]] *)
Definition byStatus (tasks : list Task.t) (status : TaskStatus) : nat :=
  List.length (filter (fun t => TaskStatus_eqb (Task.status t) status) tasks).

(** [byPriority[priority]] *)
Definition byPriority (tasks : list Task.t) (priority : Priority) : nat :=
  List.length (filter (fun t => negb (TaskStatus_eqb (Task.status t) done)
                                && Priority_eqb (Task.priority t) priority)
                      tasks).

(** [byAssignee[agent]] *)
Definition byAssignee (tasks : list Task.t) (agent : Agent) : nat :=
  List.length (filter (fun t => negb (TaskStatus_eqb (Task.status t) done)
                                && match Task.assignee t with
                                   | Some a => Agent_eqb a agent
                                   | None => false
                                   end)
                      tasks).

(** *** The list view *)

Inductive SortBy := sortPriority | sortDueDate | sortStatus | sortAssignee.

(** [priorityOrder] and [statusOrder] *)
Definition priorityOrder (p : Priority) : Z :=
  match p with urgent => 0 | high => 1 | medium => 2 | low => 3 end%Z.

Definition statusOrder (s : TaskStatus) : Z :=
  match s with backlog => 0 | todo => 1 | in_progress => 2 | review => 3 | done => 4 end%Z.

Definition agentName (a : Agent) : string :=
  match a with
  | Jarvis => "Jarvis" | Bob => "Bob" | Justin => "Justin"
  | Kyle => "Kyle" | Ethan => "Ethan" | Shen => "Shen"
  end.

(** [l.sort(compare)]: the sort is stable, so with a consistent comparator
    its result is the one of inserting each element, from the last to the
    first, before the first element it does not come after. *)
Fixpoint insertSorted {A} (compare : A -> A -> Z) (x : A) (l : list A) : list A :=
  match l with
  | [] => [x]
  | y :: l' => if (compare x y <=? 0)%Z then x :: l else y :: insertSorted compare x l'
  end.

Definition sort {A} (compare : A -> A -> Z) (l : list A) : list A :=
  fold_right (insertSorted compare) [] l.

Section ListView.
(** [new Date(s).getTime()] and [a.localeCompare(b)] are the platform's. *)
Variable getTime : string -> Z.
Variable localeCompare : string -> string -> Z.

(** The comparator of the list view. *)
Definition compareTasks (sortBy : SortBy) (a b : Task.t) : Z :=
  match sortBy with
  | sortPriority => (priorityOrder (Task.priority a) - priorityOrder (Task.priority b))%Z
  | sortDueDate =>
      match Js.opt_or_null (Task.dueDate a), Js.opt_or_null (Task.dueDate b) with
      | None, None => 0%Z
      | None, Some _ => 1%Z
      | Some _, None => (-1)%Z
      | Some da, Some db => (getTime da - getTime db)%Z
      end
  | sortStatus => (statusOrder (Task.status a) - statusOrder (Task.status b))%Z
  | sortAssignee =>
      localeCompare (match Task.assignee a with Some x => agentName x | None => "zzz" end)
                    (match Task.assignee b with Some x => agentName x | None => "zzz" end)
  end.

(** What passes the filters of the list view; [None] stands for 'all'. *)
Definition passes (filterStatus : option TaskStatus) (filterAssignee : option Agent)
           (searchQuery : string) (task : Task.t) : bool :=
  if match filterStatus with
     | Some s => negb (TaskStatus_eqb (Task.status task) s)
     | None => false
     end then false
  else if match filterAssignee with
          | Some a => negb (match Task.assignee task with
                            | Some x => Agent_eqb x a
                            | None => false
                            end)
          | None => false
          end then false
  else if Js.truthy searchQuery
          && negb (Js.includes (Js.toLowerCase (Task.title task))
                               (Js.toLowerCase searchQuery)) then false
  else true.

(** [filteredTasks] of the list view. *)
Definition filteredTasks (tasks : list Task.t) (filterStatus : option TaskStatus)
           (filterAssignee : option Agent) (searchQuery : string) (sortBy : SortBy)
  : list Task.t :=
  sort (compareTasks sortBy)
       (filter (passes filterStatus filterAssignee searchQuery) tasks).

End ListView.

(** *** Persistence of the page: browser cache and the sort API *)

Module Project.
Record t := mk {
  id : string;
  name : string;
  color : string;
  description : string
}.
End Project.

Definition DEFAULT_PROJECTS : list Project.t :=
  [ Project.mk "proj-1" "Gem Dashboard" "#54B4D3" "Main dashboard project";
    Project.mk "proj-2" "Agent System" "#10B981" "AI agents and automation";
    Project.mk "proj-3" "Marketing" "#F59E0B" "Marketing and content";
    Project.mk "proj-4" "Infrastructure" "#8B5CF6" "DevOps and infrastructure" ].

(** What [localStorage.getItem] gives for a key that holds JSON: null
    ([NoItem]) or a string, which is empty (falsy), or JSON for a value of
    the expected type, or text on which [JSON.parse] throws. *)
Inductive Item (A : Type) :=
| NoItem
| EmptyText
| NotJson
| Json (a : A).
Arguments NoItem {A}.
Arguments EmptyText {A}.
Arguments NotJson {A}.

(** [if (saved)] *)
Definition present {A} (saved : Item A) : bool :=
  match saved with
  | NoItem | EmptyText => false
  | NotJson | Json _ => true
  end.

(** The three keys of the page: 'pm-tasks', 'pm-projects' and
    'pm-last-updated' (a plain string). *)
Record Storage := mkStorage {
  pm_tasks : Item (list Task.t);
  pm_projects : Item (list Project.t);
  pm_last_updated : option string
}.

(** The object the sort API answers with, as the page reads it: a field is
    [None] when it is missing or null; [version] is [None] also when it is
    not a number. *)
Module SortData.
Record t := mk {
  tasks : option (list Task.t);
  projects : option (list Project.t);
  version : option Z;
  lastUpdated : option string
}.
End SortData.

(** How a [fetch] settles: the promise rejects, or resolves to a response
    with its [ok] flag and a body that is JSON ([Some]) or not. *)
Inductive FetchOutcome :=
| Rejected
| Response (ok : bool) (json : option SortData.t).

Inductive Request :=
| GetSort
| PostSort (tasks : list Task.t) (projects : list Project.t) (version : Z).

Inductive SyncStatus := idle | syncing | error.

(** [type ViewMode] *)
Module ViewMode.
Inductive t := dashboard | kanban | calendar | list.
End ViewMode.

(** State and ref of the component that persistence touches, and the
    environment: whether [setItem] throws, the cache, how the coming
    fetches settle and the requests sent so far.  [tasks] is the array the
    state holds: a view that sorts the array it is given changes it. *)
Record Page := mkPage {
  tasks : list Task.t;
  projects : list Project.t;
  viewMode : ViewMode.t;
  syncStatus : SyncStatus;
  lastUpdated : option string;
  isInitialLoad : bool;
  storageFull : bool;
  localStorage : Storage;
  network : list FetchOutcome;
  requests : list Request
}.

Definition with_tasks (v : list Task.t) (p : Page) : Page :=
  mkPage v (projects p) (viewMode p) (syncStatus p) (lastUpdated p) (isInitialLoad p)
    (storageFull p) (localStorage p) (network p) (requests p).
Definition with_projects (v : list Project.t) (p : Page) : Page :=
  mkPage (tasks p) v (viewMode p) (syncStatus p) (lastUpdated p) (isInitialLoad p)
    (storageFull p) (localStorage p) (network p) (requests p).
Definition with_viewMode (v : ViewMode.t) (p : Page) : Page :=
  mkPage (tasks p) (projects p) v (syncStatus p) (lastUpdated p) (isInitialLoad p)
    (storageFull p) (localStorage p) (network p) (requests p).
Definition with_syncStatus (v : SyncStatus) (p : Page) : Page :=
  mkPage (tasks p) (projects p) (viewMode p) v (lastUpdated p) (isInitialLoad p)
    (storageFull p) (localStorage p) (network p) (requests p).
Definition with_lastUpdated (v : option string) (p : Page) : Page :=
  mkPage (tasks p) (projects p) (viewMode p) (syncStatus p) v (isInitialLoad p)
    (storageFull p) (localStorage p) (network p) (requests p).
Definition with_isInitialLoad (v : bool) (p : Page) : Page :=
  mkPage (tasks p) (projects p) (viewMode p) (syncStatus p) (lastUpdated p) v
    (storageFull p) (localStorage p) (network p) (requests p).
Definition with_localStorage (v : Storage) (p : Page) : Page :=
  mkPage (tasks p) (projects p) (viewMode p) (syncStatus p) (lastUpdated p)
    (isInitialLoad p) (storageFull p) v (network p) (requests p).
Definition with_network (v : list FetchOutcome) (p : Page) : Page :=
  mkPage (tasks p) (projects p) (viewMode p) (syncStatus p) (lastUpdated p)
    (isInitialLoad p) (storageFull p) (localStorage p) v (requests p).
Definition with_requests (v : list Request) (p : Page) : Page :=
  mkPage (tasks p) (projects p) (viewMode p) (syncStatus p) (lastUpdated p)
    (isInitialLoad p) (storageFull p) (localStorage p) (network p) v.

Inductive Exn := QuotaExceededError | SyntaxError | TypeError | Error.

Inductive Outcome (A : Type) :=
| Returned (a : A)
| Threw (e : Exn).
Arguments Threw {A}.

(** A computation runs on the page and returns or throws; what it did
    before throwing stays done. *)
Definition M (A : Type) : Type := Page -> Outcome A * Page.

Definition ret {A} (a : A) : M A := fun p => (Returned a, p).

Definition bind {A B} (m : M A) (k : A -> M B) : M B :=
  fun p =>
    match m p with
    | (Returned a, p') => k a p'
    | (Threw e, p') => (Threw e, p')
    end.

Definition throw {A} (e : Exn) : M A := fun p => (Threw e, p).

Definition try_catch {A} (m : M A) (handler : Exn -> M A) : M A :=
  fun p =>
    match m p with
    | (Returned a, p') => (Returned a, p')
    | (Threw e, p') => handler e p'
    end.

Definition get : M Page := fun p => (Returned p, p).
Definition modify (f : Page -> Page) : M unit := fun p => (Returned tt, f p).

Declare Scope page_scope.
Delimit Scope page_scope with page.
Notation "x <- m ;; k" := (bind m (fun x => k))
  (at level 61, m at next level, right associativity) : page_scope.
Notation "m ;; k" := (bind m (fun _ => k))
  (at level 61, right associativity) : page_scope.
Local Open Scope page_scope.

Definition exec {A} (m : M A) (p : Page) : Page := snd (m p).
Definition outcome {A} (m : M A) (p : Page) : Outcome A := fst (m p).

Definition setTasks (v : list Task.t) : M unit := modify (with_tasks v).
Definition setProjects (v : list Project.t) : M unit := modify (with_projects v).
Definition setSyncStatus (v : SyncStatus) : M unit := modify (with_syncStatus v).
Definition setLastUpdated (v : option string) : M unit := modify (with_lastUpdated v).

(** [localStorage.setItem(key, value)], [write] putting the value under the
    key. *)
Definition setItem (write : Storage -> Storage) : M unit :=
  p <- get ;;
  if storageFull p then throw QuotaExceededError
  else modify (with_localStorage (write (localStorage p))).

Definition put_tasks (v : list Task.t) (s : Storage) : Storage :=
  mkStorage (Json v) (pm_projects s) (pm_last_updated s).
Definition put_projects (v : list Project.t) (s : Storage) : Storage :=
  mkStorage (pm_tasks s) (Json v) (pm_last_updated s).
Definition put_last_updated (v : string) (s : Storage) : Storage :=
  mkStorage (pm_tasks s) (pm_projects s) (Some v).

(** [JSON.parse(saved)] on a truthy item. *)
Definition JSON_parse {A} (saved : Item A) : M A :=
  match saved with
  | Json a => ret a
  | NoItem | EmptyText | NotJson => throw SyntaxError
  end.

(** [await fetch('/api/sort', ...)] *)
Definition fetch (req : Request) : M (bool * option SortData.t) :=
  p <- get ;;
  modify (with_requests (requests p ++ [req])) ;;
  match network p with
  | [] => throw TypeError
  | o :: rest =>
      modify (with_network rest) ;;
      match o with
      | Rejected => throw TypeError
      | Response ok json => ret (ok, json)
      end
  end.

(** [await response.json()] *)
Definition json (body : option SortData.t) : M SortData.t :=
  match body with
  | Some data => ret data
  | None => throw SyntaxError
  end.

(** [saveToApi(tasksData, projectsData)] of the page. *)
Definition saveToApi (tasksData : list Task.t) (projectsData : list Project.t) : M unit :=
  try_catch
    (setSyncStatus syncing ;;
     response <- fetch (PostSort tasksData projectsData 2) ;;
     if fst response then
       data <- json (snd response) ;;
       setLastUpdated (SortData.lastUpdated data) ;;
       setSyncStatus idle
     else throw Error)
    (fun _ => setSyncStatus error).

(** [data.version === 2] *)
Definition version_is_2 (data : SortData.t) : bool :=
  match SortData.version data with
  | Some v => (v =? 2)%Z
  | None => false
  end.

Section Mount.
(** [new Date(s).getTime()] is the platform's; the dates are taken to
    parse. *)
Variable getTime : string -> Z.

(** The comparator of the "Recent Tasks" card of [DashboardView]: the task
    updated last comes first. *)
Definition recentFirst (a b : Task.t) : Z :=
  (getTime (Task.updatedAt b) - getTime (Task.updatedAt a))%Z.

(** A render of the page, as far as the task array goes.  The page hands
    the array the state holds to the view on show; [DashboardView] calls
    [tasks.sort(...)] on it, which sorts that very array in place; the
    other views filter it into arrays of their own. *)
Definition render : M unit :=
  p <- get ;;
  match viewMode p with
  | ViewMode.dashboard => modify (with_tasks (sort recentFirst (tasks p)))
  | ViewMode.kanban | ViewMode.calendar | ViewMode.list => ret tt
  end.

(** [await promise] in [loadData]: the promise settles, and before
    [loadData] goes on React has rendered the state set so far. *)
Definition await {A} (promise : M A) : M A :=
  fun p => let (o, p') := promise p in (o, exec render p').

(** The array [localTasks] once [setTasks(localTasks)] has run: the local
    variable and the state hold one and the same array, so what a render
    does to the state's array it does to [localTasks].  The model keeps
    that array in the state and reads the variable from there; [loadData]
    touches it only where the state has not been set again. *)
Definition theStateArray : M (list Task.t) := p <- get ;; ret (tasks p).

(** [loadData], the effect run on mount. *)
Definition loadData : M unit :=
  p <- get ;;
  let savedTasks := pm_tasks (localStorage p) in
  let savedProjects := pm_projects (localStorage p) in
  let savedLastUpdated := pm_last_updated (localStorage p) in
  localTasks <- (if present savedTasks then JSON_parse savedTasks else ret []) ;;
  localProjects <- (if present savedProjects then JSON_parse savedProjects
                    else ret DEFAULT_PROJECTS) ;;
  setTasks localTasks ;;
  setProjects localProjects ;;
  (if Js.truthy_opt savedLastUpdated then setLastUpdated savedLastUpdated
   else ret tt) ;;
  try_catch
    (setSyncStatus syncing ;;
     response <- await (fetch GetSort) ;;
     if fst response then
       data <- await (json (snd response)) ;;
       (match SortData.tasks data with
        | Some remote =>
            if version_is_2 data then
              setTasks remote ;;
              (match SortData.projects data with
               | Some remoteProjects => setProjects remoteProjects
               | None => ret tt
               end) ;;
              setLastUpdated (SortData.lastUpdated data) ;;
              setItem (put_tasks remote) ;;
              (match SortData.projects data with
               | Some remoteProjects => setItem (put_projects remoteProjects)
               | None => ret tt
               end) ;;
              (match SortData.lastUpdated data with
               | Some stamp =>
                   if Js.truthy stamp then setItem (put_last_updated stamp) else ret tt
               | None => ret tt
               end)
            else
              localTasks <- theStateArray ;;
              if Js.hasItems localTasks then await (saveToApi localTasks localProjects)
              else ret tt
        | None =>
            localTasks <- theStateArray ;;
            if Js.hasItems localTasks then await (saveToApi localTasks localProjects)
            else ret tt
        end) ;;
       setSyncStatus idle
     else ret tt)
    (fun _ => setSyncStatus error) ;;
  modify (with_isInitialLoad false).

End Mount.

End ProjectManagementPage.

(** ** Vocabulary of the properties *)

(** A title is blank when all its characters are white space. *)
Definition whitespaceOnly (s : string) : bool :=
  forallb Js.isWhiteSpace (list_ascii_of_string s).

Section Vocabulary.
Import ProjectManager.

(** A browser whose store is full, with the seed data on screen. *)
Definition fullStore : World :=
  initial 1770384896789 true true (mkLocalStorage Missing Missing Missing) [].

(** The part of the world the user edits. *)
Definition document (w : World) : list Task.t * list Project.t * list DeletedTask.t :=
  (tasks w, projects w, deletedTasks w).

Definition hasId (id : string) (t : Task.t) : bool := String.eqb (Task.id t) id.
Definition trashedAs (id : string) (d : DeletedTask.t) : bool :=
  String.eqb (DeletedTask.id d) id.

(** [softDeleteTask(id)], then after [dt] milliseconds [restoreTask(id)]. *)
Definition deleteThenRestore (id : string) (dt : N) (w : World) : World :=
  exec (restoreTask id) (elapse dt (exec (softDeleteTask id) w)).

(** The round trip as C10 words it, for a world and one of its live tasks. *)
Definition roundTripOf (w : World) (t : Task.t) : Prop :=
  In t (tasks w) ->
  (List.length (deletedTasks w) < MAX_DELETED)%nat ->
  forall dt,
    deletedTasks (deleteThenRestore (Task.id t) dt w) = deletedTasks w
    /\ hd_error (tasks (deleteThenRestore (Task.id t) dt w)) = Some t.

Definition twinA : Task.t :=
  Task.mk "1770384896789" "Write report" "" todo medium None None [] "2026-02-06" None.
Definition twinB : Task.t :=
  Task.mk "1770384896789" "Call supplier" "" todo high None None [] "2026-02-06" None.

(** Two tasks created in the same millisecond, hence with the same id. *)
Definition twins : World :=
  with_tasks [twinA; twinB]
    (initial 1770384900000 true false (mkLocalStorage Missing Missing Missing) []).

(** The seed data on screen, nothing in the trash. *)
Definition seeded : World :=
  initial 1770384896789 true false (mkLocalStorage Missing Missing Missing) [].

Definition seedTask3 : Task.t :=
  Task.mk "3" "Deploy monitoring agent" "Watch Vercel deployments and alert on failures"
          done medium (Some Justin) (Some "2026-02-05") ["devops"] "2026-02-04" (Some "4").

(** Soft deletions, each [fst] milliseconds after the previous event. *)
Definition softDeletes (l : list (N * string)) : list (N * M unit) :=
  map (fun e => (fst e, softDeleteTask (snd e))) l.

(** The trash entries a run of soft deletions makes from the live tasks
    [live], starting at time [now], oldest first. *)
Fixpoint trashEntries (now : N) (live : list Task.t) (l : list (N * string))
  : list DeletedTask.t :=
  match l with
  | [] => []
  | (dt, id) :: l' =>
      match find (hasId id) live with
      | Some t => DeletedTask.mk t (Js.toISOString (now + dt))
                    :: trashEntries (now + dt) live l'
      | None => trashEntries (now + dt) live l'
      end
  end.

(** Twenty-two live tasks with ids "1" to "22", deleted in that order, five
    milliseconds apart. *)
Definition manyTasks : list Task.t :=
  map (fun n => Task.mk (Js.toString (N.of_nat n)) "Task" "" todo medium None None []
                        "2026-02-06" None)
      (seq 1 22).

Definition busy : World := with_tasks manyTasks seeded.

Definition burst : list (N * string) := map (fun t => (5, Task.id t)) manyTasks.

(** What the user does to create something: fill the form, press the button. *)
Inductive Create :=
| CreateTask (form : NewTask.t)
| CreateProject (form : NewProject.t).

Definition create (c : Create) : M unit :=
  match c with
  | CreateTask form => bind (setNewTask form) (fun _ => addTask)
  | CreateProject form => bind (setNewProject form) (fun _ => addProject)
  end.

Definition creates (l : list (N * Create)) : list (N * M unit) :=
  map (fun e => (fst e, create (snd e))) l.

Definition taskIds (w : World) : list string :=
  (map Task.id (tasks w) ++ map DeletedTask.id (deletedTasks w))%list.

Definition projectIds (w : World) : list string := map Project.id (projects w).

(** Every task id occurs once among live tasks and trash, every project id
    once among the projects. *)
Definition idsUnique (w : World) : Prop := NoDup (taskIds w) /\ NoDup (projectIds w).

(** No id in use is the decimal form of a clock reading still to come. *)
Definition idsBehindClock (w : World) : Prop :=
  forall n, clock w < n ->
            ~ In (Js.toString n) (taskIds w) /\ ~ In (Js.toString n) (projectIds w).

(** The seed tasks "1" to "6", then two tasks created in the same
    millisecond. *)
Definition sameMillisecond : list (N * Create) :=
  [ (1000, CreateTask (NewTask.mk "Write report" "" medium None todo "" ""));
    (0, CreateTask (NewTask.mk "Call supplier" "" high None todo "" "")) ].

(** Two creations a second apart. *)
Definition aSecondApart : list (N * Create) :=
  [ (1000, CreateTask (NewTask.mk "Write report" "" medium None todo "" ""));
    (1000, CreateProject (NewProject.mk "Intranet" "" "" planned "Tool" "" Bob 5)) ].

(** A change of the document as the handlers make it: through
    [persistTasks] or [persistProjects], or, for the two trash buttons,
    with their own call of [debouncedSave]. *)
Inductive Mutation :=
| ChangeTasks (t : list Task.t) (d : option (list DeletedTask.t))
| ChangeProjects (p : list Project.t)
| DeleteForever (id : string)
| ClearTrash.

(** The handler of a mutation, a closure of the latest render. *)
Definition mutate (m : Mutation) : M unit :=
  bind get (fun r =>
    match m with
    | ChangeTasks t d => persistTasks r t d
    | ChangeProjects p => persistProjects r p
    | DeleteForever id => permanentDeleteTask id
    | ClearTrash => emptyTrash
    end).

(** A first mutation, then more, each [fst] milliseconds after the one
    before. *)
Definition burstOf (first : Mutation) (more : list (N * Mutation)) (w : World) : World :=
  run (map (fun e => (fst e, mutate (snd e))) more) (exec (mutate first) w).

(** The POST body that carries the document of [w]. *)
Definition bodyOf (w : World) : PostBody :=
  DataRoute.mkBody (Some (tasks w)) (Some (projects w)) (Some (deletedTasks w)).

(** Cache writes do not throw: there is no window, or the store has room. *)
Definition writable (w : World) : Prop := hasWindow w = false \/ storageFull w = false.

(** Every pending timer is the one whose handle the [saveTimer] ref holds. *)
Definition heldOnly (w : World) : Prop :=
  forall tm, In tm (timers w) -> saveTimer w = Some (tid tm).

(** After a mutation: one pending timer, held by the ref, due a debounce
    interval from now, carrying the document. *)
Definition scheduled (w : World) : Prop :=
  exists id,
    timers w = [mkTimer id (clock w + DEBOUNCE) (tasks w) (projects w)
                        (Some (deletedTasks w))]
    /\ saveTimer w = Some id.

Definition cleared (w : World) : list Timer :=
  match saveTimer w with
  | Some id => filter (fun tm => negb (Pos.eqb (tid tm) id)) (timers w)
  | None => timers w
  end.

(** Three mutations within the debounce interval of one another. *)
Definition threeEdits : list (N * Mutation) :=
  [ (100, ChangeProjects []); (799, ChangeTasks [] (Some [])) ].

(** The collection the local cache yields for a key. *)
Definition cached {T} (key : Key T) (defaults : T) (w : World) : T :=
  match outcome (loadLocal key defaults) w with
  | Returned a => a
  | Threw _ => defaults
  end.

(** The remote collection if it has items, the local one otherwise. *)
Definition pick {A} (remote local : list A) : list A :=
  if Js.hasItems remote then remote else local.

(** The GET of a world in a browser with room in its store answers with
    authoritative data, of which a collection has items. *)
Definition authoritative (w : World) (rt : list Task.t) (rp : list Project.t)
           (rd : option (list DeletedTask.t)) : Prop :=
  hasWindow w = true
  /\ storageFull w = false
  /\ (exists rest,
         network w = Response true (Some (Data.mk (Some "supabase") (Some rt) (Some rp) rd))
                       :: rest)
  /\ (rt <> [] \/ rp <> []).

(** The reconciliation as C1 words it: each of the three collections is the
    remote one if that has items and the cached one otherwise, and the cache
    ends up holding the three results. *)
Definition reconciledPerGroup (w : World) : Prop :=
  forall rt rp rd,
    authoritative w rt rp rd ->
    let t := pick rt (cached STORAGE_KEY_TASKS DEFAULT_TASKS w) in
    let p := pick rp (cached STORAGE_KEY_PROJECTS DEFAULT_PROJECTS w) in
    let d := pick (Js.arr_or rd []) (cached STORAGE_KEY_DELETED [] w) in
    tasks (exec load w) = t
    /\ projects (exec load w) = p
    /\ deletedTasks (exec load w) = d
    /\ localStorage (exec load w) = mkLocalStorage (Stored p) (Stored t) (Stored d).

Definition cachedA : Task.t :=
  Task.mk "1770000000001" "A" "" todo medium None None [] "2026-02-02" None.
Definition remoteB : Task.t :=
  Task.mk "1770000000002" "B" "" todo medium None None [] "2026-02-02" None.
Definition remoteP : Project.t :=
  Project.mk "1770000000003" "P" "" "" planned "Tool" "" Bob 5 "2026-02-02".
Definition binned : DeletedTask.t :=
  DeletedTask.mk
    (Task.mk "1770000000000" "D" "" done low None None [] "2026-02-01" None)
    "2026-02-03T10:00:00.000Z".

(** The cache holds task A, no project and one trash entry; the remote
    document holds task B, project P and an empty trash. *)
Definition emptiedElsewhere : World :=
  initial 1770384896789 true false
          (mkLocalStorage (Stored []) (Stored [cachedA]) (Stored [binned]))
          [Response true (Some (Data.mk (Some "supabase") (Some [remoteB]) (Some [remoteP])
                                        (Some [])))].

(** The cache holds task A and no project; the remote document holds task
    B, project P and one trash entry. *)
Definition remoteWins : World :=
  initial 1770384896789 true false
          (mkLocalStorage (Stored []) (Stored [cachedA]) Missing)
          [Response true (Some (Data.mk (Some "supabase") (Some [remoteB]) (Some [remoteP])
                                        (Some [binned])))].

(** The answer of the data route when no database is configured. *)
Definition noDatabase : FetchOutcome :=
  wirePost (fst (DataRoute.POST 1770384900000
                   (Some (DataRoute.mkBody (Some [cachedA]) (Some DEFAULT_PROJECTS)
                                           (Some ([] : list DeletedTask.t))))
                   (@None (DataRoute.Db Task.t Project.t)))).

(** A browser whose next request gets the answer [o]. *)
Definition answering (o : FetchOutcome) : World :=
  initial 1770384896789 true false (mkLocalStorage Missing Missing Missing) [o].

(** That browser after one edit of the tasks. *)
Definition edited (o : FetchOutcome) : World :=
  exec (mutate (ChangeTasks [cachedA] None)) (answering o).

Definition Db := DataRoute.Db Task.t Project.t.

(** An empty table that reports no error. *)
Definition emptyDb : Db := DataRoute.mkDb None None None.

(** A document with a trash entry. *)
Definition withTrash : PostBody :=
  DataRoute.mkBody (Some [remoteB]) (Some [remoteP]) (Some [binned]).

(** A browser with an empty cache whose GET gets the route's answer after
    that document was posted. *)
Definition reloaded : World :=
  initial 1770384999000 true false (mkLocalStorage Missing Missing Missing)
          [wireGet (DataRoute.GET (snd (DataRoute.POST 1770384900000 (Some withTrash)
                                                       (Some emptyDb))))].

(** Whether [loadFromApi] takes an answer for remote data: a response that
    is [ok], with a JSON body whose [source] is ['supabase'] and whose tasks
    or projects have items. *)
Definition usable (o : FetchOutcome) : bool :=
  match o with
  | Response true (Some data) =>
      source_is_supabase data
      && (Js.nonEmpty (Data.tasks data) || Js.nonEmpty (Data.projects data))
  | _ => false
  end.

(** The next [fetch] brings no usable remote data. *)
Definition noRemoteData (w : World) : Prop :=
  forall o rest, network w = o :: rest -> usable o = false.

(** The cache holding exactly the document of [w]. *)
Definition cacheOf (w : World) : LocalStorage :=
  mkLocalStorage (Stored (projects w)) (Stored (tasks w)) (Stored (deletedTasks w)).

(** The buttons that change the document. *)
Inductive Action :=
| AddTask
| AddProject
| SoftDelete (id : string)
| Restore (id : string)
| Purge (id : string)
| EmptyTrash
| SetStatus (id : string) (status : TaskStatus).

Definition handler (a : Action) : M unit :=
  match a with
  | AddTask => addTask
  | AddProject => addProject
  | SoftDelete id => softDeleteTask id
  | Restore id => restoreTask id
  | Purge id => permanentDeleteTask id
  | EmptyTrash => emptyTrash
  | SetStatus id status => updateTaskStatus id status
  end.

(** A browser with a corrupt task cache whose GET is answered by a route
    without database. *)
Definition offlineMount : World :=
  initial 1770384896789 true false
          (mkLocalStorage (Stored [remoteP]) Corrupt (Stored [binned]))
          [wireGet (DataRoute.GET (@None (DataRoute.Db Task.t Project.t)))].

(** Button presses, each [fst] milliseconds after the previous event. *)
Definition actions (l : list (N * Action)) : list (N * M unit) :=
  map (fun e => (fst e, handler (snd e))) l.

(** The cache holds exactly the document. *)
Definition inSync (w : World) : Prop := localStorage w = cacheOf w.

(** The seed data on screen and in the cache. *)
Definition synced : World :=
  initial 1770384896789 true false
          (mkLocalStorage (Stored DEFAULT_PROJECTS) (Stored DEFAULT_TASKS) (Stored [])) [].

(** Delete task 3, move task 2 to review, restore task 3, purge an id that
    is not in the trash. *)
Definition someEdits : list (N * Action) :=
  [ (500, SoftDelete "3"); (200, SetStatus "2" review); (1500, Restore "3");
    (100, Purge "9") ].

(** The documents a run of mutations leaves behind, one per mutation. *)
Fixpoint bodiesAlong (events : list (N * Mutation)) (w : World) : list PostBody :=
  match events with
  | [] => []
  | (dt, m) :: rest =>
      bodyOf (exec (mutate m) (elapse dt w))
        :: bodiesAlong rest (exec (mutate m) (elapse dt w))
  end.

(** Three edits a second apart. *)
Definition slowEdits : list (N * Mutation) :=
  [ (1000, ChangeProjects []); (800, ChangeTasks [] (Some [])) ].

(** The string each storage key stands for. *)
Definition keyName {T} (key : Key T) : string :=
  match key with
  | STORAGE_KEY_PROJECTS => "pm_projects"
  | STORAGE_KEY_TASKS => "pm_tasks"
  | STORAGE_KEY_DELETED => "pm_deleted_tasks"
  end.

(** A screen with nothing selected and nothing being edited. *)
Definition screenOf (w : World) : Screen := mkScreen w None None None.

(** Seed task 1, which belongs to project "2". *)
Definition seedTask1 : Task.t :=
  Task.mk "1" "Fix Telegram API costs" "Reduce token usage by switching to Kimi K2.5"
          in_progress urgent (Some Jarvis) (Some "2026-02-06") ["bug"; "urgent"]
          "2026-02-05" (Some "2").

(** A store that holds task A and project P. *)
Definition usedDb : DataRoute.Db Task.t Project.t :=
  DataRoute.mkDb
    (Some (DataRoute.CObject (DataRoute.mkValue (Some [cachedA]) (Some [remoteP])
                                                (Some "2026-02-01T00:00:00.000Z"))))
    None None.

(** A body that carries task B and no [projects] field. *)
Definition tasksOnly : PostBody := DataRoute.mkBody (Some [remoteB]) None None.

(** C8 as worded: pressing the button puts one task with a fresh id in
    front. *)
Definition createsFreshTask (w : World) : Prop :=
  exists task,
    tasks (exec addTask w) = task :: tasks w
    /\ ~ In (Task.id task) (map Task.id (tasks w)).

(** The form filled in, on the seed data. *)
Definition formFilled : World :=
  with_newTask (NewTask.mk "Write report" "" medium None todo "2026-02-10" "") seeded.

(** The form filled in again in the millisecond in which a task was added. *)
Definition sameMs : World :=
  with_newTask (NewTask.mk "Call supplier" "" high None todo "" "") (exec addTask formFilled).

(** The project form filled in, on the seed data. *)
Definition projectFormFilled : World :=
  with_newProject (NewProject.mk "Intranet" "Staff pages" "https://intranet.example"
                                 planned "Tool" "Next.js" Bob 5) seeded.

End Vocabulary.

Section VocabularyOfCompletedAt.
Import ProjectManagementPage.

(** A task finished on 5 February. *)
Definition finished : Task.t :=
  Task.mk "task-1770282000000-k3j9x0q1z" "Deploy monitoring agent" "" done medium
          (Some Justin) None ["devops"] "2026-02-04T08:00:00.000Z"
          "2026-02-05T09:00:00.000Z" (Some "2026-02-05T09:00:00.000Z") None.

(** The key the list view sorts by, where the key is a rank. *)
Definition rankOf (sortBy : SortBy) : option (Task.t -> Z) :=
  match sortBy with
  | sortPriority => Some (fun t => priorityOrder (Task.priority t))
  | sortStatus => Some (fun t => statusOrder (Task.status t))
  | sortDueDate | sortAssignee => None
  end.

(** Three open tasks and the finished one, in the order they were made. *)
Definition onTheBoard : list Task.t :=
  [ Task.mk "task-1-a" "Write report" "" todo medium None None [] "2026-02-01T08:00:00.000Z"
            "2026-02-01T08:00:00.000Z" None None;
    Task.mk "task-2-b" "Fix login" "" in_progress urgent (Some Bob) None []
            "2026-02-02T08:00:00.000Z" "2026-02-02T08:00:00.000Z" None None;
    finished;
    Task.mk "task-4-d" "Review budget" "" review medium (Some Shen) None []
            "2026-02-03T08:00:00.000Z" "2026-02-03T08:00:00.000Z" None None ].

End VocabularyOfCompletedAt.

Section VocabularyOfSync.
Import ProjectManagementPage.

(** The tasks and projects [loadData] reads from the cache. *)
Definition cachedTasks (p : Page) : list Task.t :=
  match pm_tasks (localStorage p) with
  | Json saved => saved
  | NoItem | EmptyText | NotJson => []
  end.

Definition cachedProjects (p : Page) : list Project.t :=
  match pm_projects (localStorage p) with
  | Json saved => saved
  | NoItem | EmptyText | NotJson => DEFAULT_PROJECTS
  end.

(** The item is not text on which [JSON.parse] throws. *)
Definition parses {A} (saved : Item A) : bool :=
  match saved with
  | NotJson => false
  | NoItem | EmptyText | Json _ => true
  end.

(** The tasks of an answer in the new format: it has tasks and version 2. *)
Definition accepted (data : SortData.t) : option (list Task.t) :=
  match SortData.tasks data with
  | Some remote => if version_is_2 data then Some remote else None
  | None => None
  end.

(** The fetch settles with an [ok] response whose body is JSON. *)
Definition answered (net : list FetchOutcome) : bool :=
  match net with
  | Response true (Some _) :: _ => true
  | _ => false
  end.

(** The tasks [l] as the array is once the view on show has rendered it. *)
Definition viewOrder (getTime : string -> Z) (view : ViewMode.t) (l : list Task.t)
  : list Task.t :=
  match view with
  | ViewMode.dashboard => sort (recentFirst getTime) l
  | ViewMode.kanban | ViewMode.calendar | ViewMode.list => l
  end.

(** The time of the last update, to order tasks by. *)
Definition updatedTime (getTime : string -> Z) (t : Task.t) : Z :=
  getTime (Task.updatedAt t).

(** The digits of a string read as one number: on ISO date strings of one
    length it orders as [new Date(s).getTime()] does. *)
Definition digitsOf (s : string) : Z :=
  fold_left (fun acc c =>
               let n := N_of_ascii c in
               if (48 <=? n) && (n <=? 57) then (acc * 10 + Z.of_N (n - 48))%Z else acc)
            (list_ascii_of_string s) 0%Z.

Definition cachedTask : Task.t :=
  Task.mk "task-1770282000000-k3j9x0q1z" "Deploy monitoring agent" "" todo high
          (Some Jarvis) None [] "2026-02-05T09:00:00.000Z" "2026-02-05T09:00:00.000Z"
          None None.

(** A second cached task, updated after the first. *)
Definition cachedLater : Task.t :=
  Task.mk "task-1770289200000-z9y8x7w6v" "Write report" "" in_progress medium
          (Some Bob) None [] "2026-02-05T11:00:00.000Z" "2026-02-05T12:30:00.000Z"
          None None.

Definition remoteTask : Task.t :=
  Task.mk "task-1770285600000-a1b2c3d4e" "Review budget" "" backlog low
          None None [] "2026-02-05T10:00:00.000Z" "2026-02-05T10:00:00.000Z"
          None None.

(** A page at mount, on the dashboard, with two cached tasks, the one
    updated first in front. *)
Definition atMount (net : list FetchOutcome) : Page :=
  mkPage [] DEFAULT_PROJECTS ViewMode.dashboard idle None true false
         (mkStorage (Json [cachedTask; cachedLater]) NoItem
                    (Some "2026-02-05T12:30:00.000Z"))
         net [].

(** An answer in the old format: tasks, no version. *)
Definition oldFormat : SortData.t :=
  SortData.mk (Some [remoteTask]) None None (Some "2026-02-05T10:00:00.000Z").

(** A page whose cached projects are not JSON. *)
Definition brokenCache : Page :=
  mkPage [] DEFAULT_PROJECTS ViewMode.dashboard idle None true false
         (mkStorage (Json [cachedTask]) NotJson None)
         [Response true (Some oldFormat)] [].

End VocabularyOfSync.

(** *** The calendar, to say what a date string and an id mean *)

Section VocabularyOfDates.

(** The Gregorian leap-year rule. *)
Definition isLeapYear (y : N) : bool :=
  (y mod 4 =? 0) && (negb (y mod 100 =? 0) || (y mod 400 =? 0)).

Definition daysInYear (y : N) : N := if isLeapYear y then 366 else 365.

Definition daysInMonth (y m : N) : N :=
  match m with
  | 1 | 3 | 5 | 7 | 8 | 10 | 12 => 31
  | 4 | 6 | 9 | 11 => 30
  | 2 => if isLeapYear y then 29 else 28
  | _ => 0
  end.

(** The days of the [n] years that start with the year [from]. *)
Fixpoint daysOfYears (from : N) (n : nat) : N :=
  match n with
  | O => 0
  | S n' => daysOfYears from n' + daysInYear (from + N.of_nat n')
  end.

(** The days of the first [n] months of the year [y]. *)
Fixpoint daysOfMonths (y : N) (n : nat) : N :=
  match n with
  | O => 0
  | S n' => daysOfMonths y n' + daysInMonth y (N.of_nat n)
  end.

(** The number of day [d] of month [m] of year [y], 1 January 1970 being
    day 0: the years, months and days that have passed are counted. *)
Definition dayNumber (y m d : N) : N :=
  daysOfYears 1970 (N.to_nat (y - 1970)) + daysOfMonths y (N.to_nat (m - 1)) + (d - 1).

Definition validDate (y m d : N) : Prop :=
  1970 <= y /\ 1 <= m <= 12 /\ 1 <= d <= daysInMonth y m.

(** The UTC day a time value in milliseconds falls on. *)
Definition utcDay (ms : N) : N := ms / 86400000.

(** 1 January 10000, 00:00 UTC, in milliseconds. *)
Definition year10000 : N := 253402300800000.

(** The last decimal digit of [n], as a character. *)
Definition digit (n : N) : ascii := ascii_of_N (48 + n mod 10).

Definition fourDigits (n : N) : string :=
  String (digit (n / 1000)) (String (digit (n / 100)) (String (digit (n / 10))
  (String (digit n) ""))).

Definition twoDigits (n : N) : string :=
  String (digit (n / 10)) (String (digit n) "").

(** The date as [YYYY-MM-DD]. *)
Definition dateText (y m d : N) : string :=
  fourDigits y ++ "-" ++ twoDigits m ++ "-" ++ twoDigits d.

(** The number a string of decimal digits stands for. *)
Definition readNumber (s : string) : option N :=
  option_map N.of_uint (NilEmpty.uint_of_string s).

(** Days from 1 January of the year 0 to 1 January of the year [y], in
    closed form. *)
Definition daysBeforeYear (y : N) : N :=
  365 * y + (y + 3) / 4 - (y + 99) / 100 + (y + 399) / 400.

(** [Js.civil] within one 400-year cycle that starts on 1 March. *)
Definition civilOfEra (doe : N) : N * N * N :=
  let yoe := (doe - doe / 1460 + doe / 36524 - doe / 146096) / 365 in
  let doy := doe - (365 * yoe + yoe / 4 - yoe / 100) in
  let mp := (5 * doy + 2) / 153 in
  let d := doy - (153 * mp + 2) / 5 + 1 in
  let m := if mp <? 10 then mp + 3 else mp - 9 in
  (if m <=? 2 then yoe + 1 else yoe, m, d).

(** Day [doe] of the cycle gets a valid date with that day number. *)
Definition okDoe (doe : N) : bool :=
  let '(y, m, d) := civilOfEra doe in
  (1 <=? m) && (m <=? 12) && (1 <=? d) && (d <=? daysInMonth y m)
  && (daysBeforeYear y + daysOfMonths y (N.to_nat (m - 1)) + d =? doe + 61)
  && ((doe <? 135080) || (370 <=? y)).

(** [f] holds of the [fuel] numbers from [k] on. *)
Fixpoint allFrom (fuel : nat) (k : N) (f : N -> bool) : bool :=
  match fuel with
  | O => true
  | S fuel' => f k && allFrom fuel' (k + 1) f
  end.

End VocabularyOfDates.

(* ===================================================================== *)
(** * Part II: theorems                                                   *)
(* ===================================================================== *)

(** ** Facts about the built-ins *)

Section JsFacts.

Lemma dropWhile_nil_iff {A} (p : A -> bool) (l : list A) :
  Js.dropWhile p l = [] <-> forallb p l = true.
Proof.
  induction l as [|x l IH]; simpl.
  - tauto.
  - destruct (p x); simpl.
    + exact IH.
    + split; discriminate.
Qed.

Lemma forallb_rev {A} (p : A -> bool) (l : list A) :
  forallb p (rev l) = forallb p l.
Proof.
  induction l as [|x l IH]; simpl; [reflexivity|].
  rewrite forallb_app, IH; simpl.
  rewrite andb_true_r. apply andb_comm.
Qed.

Lemma dropWhile_keeps_offender {A} (p : A -> bool) (l : list A) :
  forallb p l = false -> forallb p (Js.dropWhile p l) = false.
Proof.
  induction l as [|x l IH]; simpl; [discriminate|].
  destruct (p x) eqn:E; simpl.
  - exact IH.
  - rewrite E. reflexivity.
Qed.

Lemma truthy_of_list (l : list ascii) :
  Js.truthy (string_of_list_ascii l) = Js.hasItems l.
Proof. destruct l; reflexivity. Qed.

(** [!s.trim()] holds exactly of the blank strings. *)
Lemma trim_truthy (s : string) :
  Js.truthy (Js.trim s) = negb (whitespaceOnly s).
Proof.
  unfold Js.trim, whitespaceOnly, Js.trimEnd, Js.trimStart.
  rewrite truthy_of_list.
  set (l := list_ascii_of_string s).
  destruct (forallb Js.isWhiteSpace l) eqn:E; simpl.
  - apply dropWhile_nil_iff in E. rewrite E. reflexivity.
  - apply dropWhile_keeps_offender in E.
    rewrite <- forallb_rev in E.
    destruct (Js.dropWhile Js.isWhiteSpace
                (rev (Js.dropWhile Js.isWhiteSpace l))) as [|c m] eqn:D.
    + apply dropWhile_nil_iff in D. congruence.
    + simpl. destruct (rev m ++ [c])%list eqn:R; [|reflexivity].
      destruct (rev m); discriminate.
Qed.

Lemma toString_inj (a b : N) : Js.toString a = Js.toString b -> a = b.
Proof.
  unfold Js.toString. intros H.
  apply (f_equal NilEmpty.uint_of_string) in H.
  rewrite !NilEmpty.usu in H.
  injection H as H.
  apply (f_equal N.of_uint) in H.
  now rewrite !DecimalN.Unsigned.of_to in H.
Qed.

Lemma toString_parse (n : N) (s : string) :
  s = Js.toString n -> option_map N.of_uint (NilEmpty.uint_of_string s) = Some n.
Proof.
  intros ->. unfold Js.toString. rewrite NilEmpty.usu. cbn.
  now rewrite DecimalN.Unsigned.of_to.
Qed.

End JsFacts.

(** The built-ins stay folded while handlers are unfolded. *)
Arguments Js.toISOString : simpl never.
Arguments Js.isoDate : simpl never.
Arguments Js.toString : simpl never.
Arguments Js.trim : simpl never.

(** ** The date of a time value *)

(** Linear arithmetic with division and remainder by constants. *)
Ltac divlia := zify; Z.to_euclidean_division_equations; lia.

Lemma isLeapYear_spec (y : N) :
  isLeapYear y = true <-> y mod 4 = 0 /\ (y mod 100 <> 0 \/ y mod 400 = 0).
Proof.
  unfold isLeapYear.
  rewrite andb_true_iff, orb_true_iff, negb_true_iff, !N.eqb_eq, N.eqb_neq. tauto.
Qed.

Lemma daysBeforeYear_step y : daysBeforeYear (y + 1) = daysBeforeYear y + daysInYear y.
Proof.
  unfold daysBeforeYear, daysInYear.
  destruct (isLeapYear y) eqn:E.
  - apply isLeapYear_spec in E. divlia.
  - assert (H : ~ (y mod 4 = 0 /\ (y mod 100 <> 0 \/ y mod 400 = 0))).
    { rewrite <- isLeapYear_spec. congruence. }
    divlia.
Qed.

Lemma daysOfYears_closed (from : N) (n : nat) :
  daysOfYears from n + daysBeforeYear from = daysBeforeYear (from + N.of_nat n).
Proof.
  induction n as [|n IH].
  - cbn. now rewrite N.add_0_r.
  - cbn [daysOfYears]. rewrite Nnat.Nat2N.inj_succ, <- N.add_1_r, N.add_assoc, daysBeforeYear_step. lia.
Qed.

Lemma isLeapYear_cycle (era y : N) : isLeapYear (era * 400 + y) = isLeapYear y.
Proof.
  unfold isLeapYear.
  replace ((era * 400 + y) mod 4) with (y mod 4) by divlia.
  replace ((era * 400 + y) mod 100) with (y mod 100) by divlia.
  replace ((era * 400 + y) mod 400) with (y mod 400) by divlia.
  reflexivity.
Qed.

Lemma daysInMonth_cycle (era y m : N) : daysInMonth (era * 400 + y) m = daysInMonth y m.
Proof. unfold daysInMonth. now rewrite isLeapYear_cycle. Qed.

Lemma daysOfMonths_cycle (era y : N) (n : nat) :
  daysOfMonths (era * 400 + y) n = daysOfMonths y n.
Proof.
  induction n as [|n IH]; [reflexivity|].
  cbn [daysOfMonths]. now rewrite IH, daysInMonth_cycle.
Qed.

Lemma daysBeforeYear_cycle (era y : N) : daysBeforeYear (era * 400 + y) = era * 146097 + daysBeforeYear y.
Proof. unfold daysBeforeYear. divlia. Qed.

Lemma allFrom_spec (fuel : nat) (k : N) (f : N -> bool) :
  allFrom fuel k f = true -> forall i, k <= i < k + N.of_nat fuel -> f i = true.
Proof.
  revert k. induction fuel as [|fuel IH]; intros k H i Hi; [lia|].
  cbn [allFrom] in H. apply andb_true_iff in H as [H1 H2].
  destruct (N.eq_dec i k) as [->|Hne]; [exact H1|].
  apply (IH (k + 1)); [exact H2|lia].
Qed.

(** Checked by computation on each of the 146097 days of a cycle. *)
Lemma okDoe_all : allFrom (N.to_nat 146097) 0 okDoe = true.
Proof. vm_cast_no_check (eq_refl true). Qed.

Lemma civil_cycle (days : N) :
  Js.civil days
  = let era := (days + 719468) / 146097 in
    let '(y, m, d) := civilOfEra ((days + 719468) mod 146097) in
    (era * 400 + y, m, d).
Proof.
  unfold Js.civil, civilOfEra. cbv zeta.
  replace (days + 719468 - (days + 719468) / 146097 * 146097)
    with ((days + 719468) mod 146097) by divlia.
  set (doe := (days + 719468) mod 146097).
  set (yoe := (doe - doe / 1460 + doe / 36524 - doe / 146096) / 365).
  set (doy := doe - (365 * yoe + yoe / 4 - yoe / 100)).
  set (mp := (5 * doy + 2) / 153).
  set (m := if mp <? 10 then mp + 3 else mp - 9).
  destruct (m <=? 2); f_equal; f_equal; lia.
Qed.

(** [Js.civil] gives every day count the valid date with that day number. *)
Lemma civil_spec (days : N) :
  let '(y, m, d) := Js.civil days in
  validDate y m d /\ dayNumber y m d = days.
Proof.
  rewrite civil_cycle. cbv zeta.
  set (era := (days + 719468) / 146097).
  set (doe := (days + 719468) mod 146097).
  assert (Hdoe : doe < 146097) by (unfold doe; divlia).
  assert (Hz : days + 719468 = era * 146097 + doe) by (unfold era, doe; divlia).
  pose proof (@allFrom_spec _ _ _ okDoe_all doe) as Hok.
  specialize (Hok ltac:(rewrite Nnat.N2Nat.id; lia)).
  unfold okDoe in Hok.
  destruct (civilOfEra doe) as [[y m] d].
  rewrite !andb_true_iff, orb_true_iff, !N.leb_le, N.eqb_eq, N.ltb_lt in Hok.
  destruct Hok as [[[[[Hm1 Hm2] Hd1] Hd2] Hsum] Hyear].
  assert (Hy : 1970 <= era * 400 + y) by lia.
  unfold validDate. rewrite daysInMonth_cycle.
  repeat apply conj; try assumption.
  unfold dayNumber. rewrite daysOfMonths_cycle.
  pose proof (daysOfYears_closed 1970 (N.to_nat (era * 400 + y - 1970))) as Hyears.
  rewrite Nnat.N2Nat.id in Hyears.
  replace (1970 + (era * 400 + y - 1970)) with (era * 400 + y) in Hyears by lia.
  rewrite daysBeforeYear_cycle in Hyears.
  change (daysBeforeYear 1970) with 719528 in Hyears.
  lia.
Qed.

Lemma pad4_all :
  allFrom (N.to_nat 10000) 0 (fun n => String.eqb (Js.pad 4 n) (fourDigits n)) = true.
Proof. vm_cast_no_check (eq_refl true). Qed.

Lemma pad2_all :
  allFrom (N.to_nat 100) 0 (fun n => String.eqb (Js.pad 2 n) (twoDigits n)) = true.
Proof. vm_cast_no_check (eq_refl true). Qed.

Lemma pad4_digits (n : N) : n <= 9999 -> Js.pad 4 n = fourDigits n.
Proof.
  intros H. apply String.eqb_eq.
  apply (@allFrom_spec _ _ _ pad4_all). rewrite Nnat.N2Nat.id. lia.
Qed.

Lemma pad2_digits (n : N) : n <= 99 -> Js.pad 2 n = twoDigits n.
Proof.
  intros H. apply String.eqb_eq.
  apply (@allFrom_spec _ _ _ pad2_all). rewrite Nnat.N2Nat.id. lia.
Qed.

Lemma digit_not_T (n : N) : Ascii.eqb (digit n) "T" = false.
Proof.
  unfold digit.
  assert (H : n mod 10 < 10) by divlia.
  assert (E : n mod 10 = 0 \/ n mod 10 = 1 \/ n mod 10 = 2 \/ n mod 10 = 3 \/ n mod 10 = 4
              \/ n mod 10 = 5 \/ n mod 10 = 6 \/ n mod 10 = 7 \/ n mod 10 = 8 \/ n mod 10 = 9)
    by divlia.
  repeat (destruct E as [E|E]; [rewrite E; reflexivity|]). rewrite E. reflexivity.
Qed.

Lemma daysBeforeYear_mono (a b : N) : a <= b -> daysBeforeYear a <= daysBeforeYear b.
Proof. unfold daysBeforeYear. intros H. divlia. Qed.

Lemma daysInMonth_le y m : daysInMonth y m <= 31.
Proof.
  unfold daysInMonth.
  destruct m as [|[[[[|[]|]|[[]|[]|]|]|[[[]|[]|]|[[]|[]|]|]|]|[[[[]|[]|]|[[]|[]|]|]|[[[]|[]|]|[[]|[]|]|]|]|]];
    try destruct (isLeapYear y); lia.
Qed.

(** Before the year 10000 [Js.isoDate] writes, as [YYYY-MM-DD], the valid date
    of the UTC day the time value falls on. *)
Lemma isoDate_calendar (ms : N) :
  ms < year10000 ->
  exists y m d,
    Js.isoDate ms = dateText y m d
    /\ validDate y m d
    /\ dayNumber y m d = utcDay ms.
Proof.
  intros Hms. unfold year10000 in Hms. unfold utcDay.
  pose proof (civil_spec (ms / 86400000)) as H.
  unfold Js.isoDate, Js.toISOString. cbv zeta.
  destruct (Js.civil (ms / 86400000)) as [[y m] d].
  destruct H as [Hv Hn].
  exists y, m, d. split; [|split; assumption].
  assert (Hy : y <= 9999).
  { destruct (N.le_gt_cases y 9999) as [Hle|Hgt]; [exact Hle|exfalso].
    destruct Hv as (Hy0 & _ & _).
    unfold dayNumber in Hn.
    pose proof (daysOfYears_closed 1970 (N.to_nat (y - 1970))) as Hyears.
    rewrite Nnat.N2Nat.id in Hyears.
    replace (1970 + (y - 1970)) with y in Hyears by lia.
    change (daysBeforeYear 1970) with 719528 in Hyears.
    pose proof (@daysBeforeYear_mono 10000 y ltac:(lia)) as Hmono.
    change (daysBeforeYear 10000) with 3652425 in Hmono.
    assert (ms / 86400000 < 2932897) by divlia.
    lia. }
  destruct Hv as (_ & [Hm1 Hm2] & [Hd1 Hd2]).
  pose proof (daysInMonth_le y m) as Hd3.
  replace (y <=? 9999) with true by (symmetry; apply N.leb_le; exact Hy).
  rewrite (pad4_digits Hy), (@pad2_digits m), (@pad2_digits d) by lia.
  unfold fourDigits, twoDigits, dateText.
  cbn [append Js.beforeT].
  rewrite !digit_not_T. cbn [Ascii.eqb Bool.eqb].
  reflexivity.
Qed.

(** The decimal form of a number reads back as that number. *)
Lemma readNumber_toString (n : N) : readNumber (Js.toString n) = Some n.
Proof.
  unfold readNumber, Js.toString. rewrite NilEmpty.usu. cbn.
  now rewrite DecimalN.Unsigned.of_to.
Qed.

(** An id made from the clock is new among ids that stand for no number or
    for an earlier clock reading. *)
Lemma clock_id_fresh {A} (id : A -> string) (l : list A) (now : N) :
  (forall a n, In a l -> readNumber (id a) = Some n -> n < now) ->
  ~ In (Js.toString now) (map id l).
Proof.
  intros H Hin. apply in_map_iff in Hin as (a & E & Ha).
  specialize (H a now Ha). rewrite E, readNumber_toString in H.
  specialize (H eq_refl). lia.
Qed.

(** ** The local cache *)

(** Unfold a handler on a world given by its fields. *)
Ltac on_world w := destruct w; cbn in *; subst; cbn.

(** Split on what [debouncedSave] branches on: whether there is a window,
    whether the store is full, and whether a timer handle is held. *)
Ltac on_store w :=
  destruct (ProjectManager.hasWindow w) eqn:?, (ProjectManager.storageFull w) eqn:?,
           (ProjectManager.saveTimer w) eqn:?.

Section LocalCache.
Import ProjectManager.

Lemma saveLocal_without_window {T} (key : Key T) (data : T) (w : World) :
  hasWindow w = false -> saveLocal key data w = (Returned tt, w).
Proof. intros H. on_world w. reflexivity. Qed.

Lemma saveLocal_writes {T} (key : Key T) (data : T) (w : World) :
  hasWindow w = true -> storageFull w = false ->
  saveLocal key data w
  = (Returned tt, with_localStorage (setItem key data (localStorage w)) w).
Proof. intros H1 H2. on_world w. reflexivity. Qed.

Lemma saveLocal_throws {T} (key : Key T) (data : T) (w : World) :
  hasWindow w = true -> storageFull w = true ->
  saveLocal key data w = (Threw QuotaExceededError, w).
Proof. intros H1 H2. on_world w. reflexivity. Qed.

Lemma getItem_setItem {T} (key : Key T) (data : T) (ls : LocalStorage) :
  getItem key (setItem key data ls) = Stored data.
Proof. destruct key; reflexivity. Qed.

(** What was saved is what is loaded. *)
Lemma loadLocal_saveLocal {T} (key : Key T) (data defaults : T) (w : World) :
  hasWindow w = true -> storageFull w = false ->
  outcome (loadLocal key defaults) (exec (saveLocal key data) w) = Returned data.
Proof.
  intros H1 H2. unfold exec. rewrite saveLocal_writes by assumption.
  on_world w. unfold outcome, loadLocal, bind, get; cbn.
  rewrite getItem_setItem. reflexivity.
Qed.

(** C7, at a failing input: with the store full, [saveLocal] throws to its
    caller instead of swallowing the failure, and [debouncedSave], which
    calls it first, ends there: no timer is set and no request is sent. *)
Theorem saveLocal_full_store_throws :
  saveLocal STORAGE_KEY_TASKS DEFAULT_TASKS fullStore
    = (Threw QuotaExceededError, fullStore)
  /\ debouncedSave DEFAULT_TASKS DEFAULT_PROJECTS None fullStore
    = (Threw QuotaExceededError, fullStore)
  /\ timers (elapse 10000 (exec (debouncedSave DEFAULT_TASKS DEFAULT_PROJECTS None)
                                fullStore)) = []
  /\ requests (elapse 10000 (exec (debouncedSave DEFAULT_TASKS DEFAULT_PROJECTS None)
                                  fullStore)) = [].
Proof. repeat split; reflexivity. Qed.

End LocalCache.

(** ** Creating tasks and projects *)

Section Create.
Import ProjectManager.

(** C8 as stated fails: a task added in the millisecond in which another
    was added gets that task's id, so its id is not fresh. *)
Lemma addTask_reuses_the_id_of_the_millisecond :
  whitespaceOnly (NewTask.title (newTask sameMs)) = false
  /\ ~ createsFreshTask sameMs.
Proof.
  split; [reflexivity|].
  intros (task & E & Hfresh). apply Hfresh.
  vm_compute in E. injection E as <-.
  vm_compute. left. reflexivity.
Qed.



End Create.

(** ** Timers leave the document alone *)

Section TimersAndDocument.
Import ProjectManager.

Lemma fire_document (w : World) (tm : Timer) : document (fire w tm) = document w.
Proof.
  unfold fire, exec, timerBody, saveToApi, try_catch, fetch, bind, get.
  destruct w as [? ? ? ? ? ? ? ? ? ? ? ? ? ? ? ? ? ? net ?]; cbn.
  destruct net as [|[|ok body] net]; reflexivity.
Qed.

Lemma fold_fire_document (l : list Timer) (w : World) :
  document (fold_left fire l w) = document w.
Proof.
  revert w. induction l as [|tm l IH]; intros w; cbn.
  - reflexivity.
  - rewrite IH. apply fire_document.
Qed.

Lemma elapse_document (dt : N) (w : World) : document (elapse dt w) = document w.
Proof.
  unfold elapse.
  transitivity (document (fold_left fire
     (firingOrder (filter (fun tm => due tm <=? clock w + dt) (timers w)))
     (with_timers (filter (fun tm => negb (due tm <=? clock w + dt)) (timers w)) w))).
  - destruct (fold_left fire _ _); reflexivity.
  - rewrite fold_fire_document. destruct w; reflexivity.
Qed.

Lemma elapse_tasks (dt : N) (w : World) : tasks (elapse dt w) = tasks w.
Proof. exact (f_equal (fun d => fst (fst d)) (elapse_document dt w)). Qed.

Lemma elapse_projects (dt : N) (w : World) : projects (elapse dt w) = projects w.
Proof. exact (f_equal (fun d => snd (fst d)) (elapse_document dt w)). Qed.

Lemma elapse_deletedTasks (dt : N) (w : World) :
  deletedTasks (elapse dt w) = deletedTasks w.
Proof. exact (f_equal snd (elapse_document dt w)). Qed.

Lemma elapse_clock (dt : N) (w : World) : clock (elapse dt w) = clock w + dt.
Proof. unfold elapse. destruct (fold_left fire _ _); reflexivity. Qed.

End TimersAndDocument.

(** ** Soft delete and restore *)

Section Trash.
Import ProjectManager.

Lemma find_absent {A} (p : A -> bool) (l : list A) :
  (forall x, In x l -> p x = false) -> find p l = None.
Proof.
  induction l as [|x l IH]; cbn; intros H; [reflexivity|].
  rewrite (H x) by now left. apply IH. intros y Hy. apply H. now right.
Qed.

Lemma filter_keeps_all {A} (p : A -> bool) (l : list A) :
  (forall x, In x l -> p x = true) -> filter p l = l.
Proof.
  induction l as [|x l IH]; cbn; intros H; [reflexivity|].
  rewrite (H x) by now left. f_equal. apply IH. intros y Hy. apply H. now right.
Qed.

Lemma softDeleteTask_absent (id : string) (w : World) :
  find (hasId id) (tasks w) = None -> softDeleteTask id w = (Returned tt, w).
Proof.
  intros H. unfold softDeleteTask, bind, get. fold (hasId id). rewrite H. reflexivity.
Qed.

Lemma softDeleteTask_present (id : string) (w : World) (task : Task.t) :
  find (hasId id) (tasks w) = Some task ->
  document (exec (softDeleteTask id) w)
  = (filter (fun t => negb (hasId id t)) (tasks w),
     projects w,
     firstn MAX_DELETED (DeletedTask.mk task (Js.toISOString (clock w)) :: deletedTasks w)).
Proof.
  intros H. unfold exec, softDeleteTask, bind, get. fold (hasId id). rewrite H.
  unfold document, Js.slice0.
  on_store w; on_world w; reflexivity.
Qed.

Lemma restoreTask_absent (id : string) (w : World) :
  find (trashedAs id) (deletedTasks w) = None -> restoreTask id w = (Returned tt, w).
Proof.
  intros H. unfold restoreTask, bind, get. fold (trashedAs id). rewrite H. reflexivity.
Qed.

Lemma restoreTask_present (id : string) (w : World) (d : DeletedTask.t) :
  find (trashedAs id) (deletedTasks w) = Some d ->
  document (exec (restoreTask id) w)
  = (DeletedTask.task d :: tasks w,
     projects w,
     filter (fun t => negb (trashedAs id t)) (deletedTasks w)).
Proof.
  intros H. unfold exec, restoreTask, bind, get. fold (trashedAs id). rewrite H.
  unfold document.
  on_store w; on_world w; reflexivity.
Qed.

Lemma softDeleteTask_clock (id : string) (w : World) :
  clock (exec (softDeleteTask id) w) = clock w.
Proof.
  unfold exec, softDeleteTask, bind, get.
  destruct (find _ (tasks w)); [|reflexivity].
  on_store w; on_world w; reflexivity.
Qed.

End Trash.

Section RoundTrip.
Import ProjectManager.

(** C10 as stated fails: deleting and restoring the second of two live tasks
    that share an id brings back the first one, and the second is gone. *)
Lemma roundTrip_fails_on_shared_id : ~ roundTripOf twins twinB.
Proof.
  intros H.
  destruct (H (or_intror (or_introl eq_refl))
              ltac:(unfold twins, MAX_DELETED; cbn; lia) 0) as [_ Hhd].
  vm_compute in Hhd. discriminate Hhd.
Qed.

(** C10, amended: when [t] is the first live task with its id, no trash entry
    has that id and the trash is not full, deleting then restoring [t.id]
    leaves the trash as it was and puts [t] itself in front of the live tasks
    that have another id.  Soft-deleting an id no live task has changes
    nothing, and neither does restoring an id no trash entry has. *)
Theorem softDelete_restore_roundtrip (w : World) :
  (forall (t : Task.t) (dt : N),
      find (hasId (Task.id t)) (tasks w) = Some t ->
      (forall d, In d (deletedTasks w) -> DeletedTask.id d <> Task.id t) ->
      (List.length (deletedTasks w) < MAX_DELETED)%nat ->
      deletedTasks (deleteThenRestore (Task.id t) dt w) = deletedTasks w
      /\ tasks (deleteThenRestore (Task.id t) dt w)
         = t :: filter (fun x => negb (hasId (Task.id t) x)) (tasks w))
  /\ (forall id, (forall t, In t (tasks w) -> Task.id t <> id) ->
                 softDeleteTask id w = (Returned tt, w))
  /\ (forall id, (forall d, In d (deletedTasks w) -> DeletedTask.id d <> id) ->
                 restoreTask id w = (Returned tt, w)).
Proof.
  split; [|split].
  - intros t dt Hfirst Hfresh Hroom.
    unfold deleteThenRestore.
    remember (Task.id t) as id eqn:Eid.
    pose proof (softDeleteTask_present id w Hfirst) as H1.
    rewrite firstn_all2 in H1 by (cbn [List.length]; unfold MAX_DELETED in *; lia).
    remember (exec (softDeleteTask id) w) as w1 eqn:E1.
    pose proof (elapse_document dt w1) as H2.
    remember (elapse dt w1) as w2 eqn:E2.
    rewrite H1 in H2. unfold document in H2. injection H2 as Ht Hp Hd.
    assert (Hself : trashedAs id (DeletedTask.mk t (Js.toISOString (clock w))) = true).
    { unfold trashedAs, DeletedTask.id. cbn. rewrite <- Eid. apply String.eqb_refl. }
    assert (Hfind : find (trashedAs id) (deletedTasks w2)
                    = Some (DeletedTask.mk t (Js.toISOString (clock w)))).
    { rewrite Hd. cbn [find]. rewrite Hself. reflexivity. }
    pose proof (restoreTask_present id w2 Hfind) as H3.
    unfold document in H3. injection H3 as Ht' _ Hd'.
    rewrite Ht', Hd', Ht, Hd. split; [|reflexivity].
    cbn [filter]. rewrite Hself. cbn [negb].
    apply filter_keeps_all. intros d Hin.
    unfold trashedAs. apply negb_true_iff, String.eqb_neq. now apply Hfresh.
  - intros id Hnone. apply softDeleteTask_absent, find_absent.
    intros t Hin. apply String.eqb_neq. now apply Hnone.
  - intros id Hnone. apply restoreTask_absent, find_absent.
    intros d Hin. apply String.eqb_neq. now apply Hnone.
Qed.

Lemma softDelete_restore_roundtrip_witness :
  deletedTasks (deleteThenRestore "3" 100 seeded) = deletedTasks seeded
  /\ tasks (deleteThenRestore "3" 100 seeded)
     = seedTask3 :: filter (fun x => negb (hasId "3" x)) (tasks seeded).
Proof.
  apply (proj1 (softDelete_restore_roundtrip seeded) seedTask3 100).
  - reflexivity.
  - cbn. intros d [].
  - unfold MAX_DELETED. cbn. lia.
Defined.

End RoundTrip.

(** ** Trash capacity *)

Section TrashCapacity.
Import ProjectManager.

Lemma firstn_app_firstn {A} (a b : list A) (n m : nat) :
  (n <= m)%nat -> firstn n (a ++ firstn m b) = firstn n (a ++ b).
Proof.
  revert n m. induction a as [|x a IH]; intros n m Hnm; cbn [app].
  - rewrite firstn_firstn. f_equal. lia.
  - destruct n as [|n]; [reflexivity|]. cbn [firstn]. f_equal.
    apply IH. lia.
Qed.

Lemma find_after_filter (id id' : string) (live : list Task.t) :
  id' <> id ->
  find (hasId id') (filter (fun t => negb (hasId id t)) live) = find (hasId id') live.
Proof.
  intros Hne. induction live as [|t live IH]; cbn [filter find]; [reflexivity|].
  destruct (hasId id t) eqn:E; cbn [negb].
  - apply String.eqb_eq in E.
    replace (hasId id' t) with false; [exact IH|].
    symmetry. apply String.eqb_neq. congruence.
  - cbn [find]. now rewrite IH.
Qed.

Lemma trashEntries_after_filter (id : string) (now : N) (live : list Task.t)
      (l : list (N * string)) :
  ~ In id (map snd l) ->
  trashEntries now (filter (fun t => negb (hasId id t)) live) l = trashEntries now live l.
Proof.
  revert now. induction l as [|[dt id'] l IH]; intros now Hnot; cbn; [reflexivity|].
  cbn in Hnot. rewrite find_after_filter by (intros E; apply Hnot; left; congruence).
  rewrite IH by tauto. reflexivity.
Qed.

(** One soft deletion, seen on the document. *)
Lemma softDeleteTask_step (id : string) (dt : N) (w : World) :
  let w1 := exec (softDeleteTask id) (elapse dt w) in
  clock w1 = clock w + dt
  /\ match find (hasId id) (tasks w) with
     | Some t =>
         tasks w1 = filter (fun t => negb (hasId id t)) (tasks w)
         /\ deletedTasks w1
            = firstn MAX_DELETED
                (DeletedTask.mk t (Js.toISOString (clock w + dt)) :: deletedTasks w)
     | None => tasks w1 = tasks w /\ deletedTasks w1 = deletedTasks w
     end.
Proof.
  cbn zeta. rewrite softDeleteTask_clock, elapse_clock. split; [reflexivity|].
  rewrite <- (elapse_tasks dt w), <- (elapse_deletedTasks dt w), <- (elapse_clock dt w).
  destruct (find (hasId id) (tasks (elapse dt w))) as [t|] eqn:F.
  - pose proof (softDeleteTask_present id (elapse dt w) F) as H.
    unfold document in H. injection H as Ht _ Hd. now split.
  - unfold exec. rewrite (softDeleteTask_absent id (elapse dt w) F). now split.
Qed.

(** The trash after a run of soft deletions of distinct ids. *)
Lemma softDeletes_trash (l : list (N * string)) (w : World) :
  NoDup (map snd l) ->
  deletedTasks (run (softDeletes l) w)
  = match trashEntries (clock w) (tasks w) l with
    | [] => deletedTasks w
    | entries => firstn MAX_DELETED (rev entries ++ deletedTasks w)
    end.
Proof.
  revert w. induction l as [|[dt id] l IH]; intros w Hnd; [reflexivity|].
  cbn [softDeletes map run fst snd trashEntries] in *.
  inversion Hnd as [|? ? Hnot Hnd']; subst.
  destruct (softDeleteTask_step id dt w) as [Hc Hstep].
  fold (softDeletes l). rewrite (IH _ Hnd'), Hc.
  destruct (find (hasId id) (tasks w)) as [t|]; destruct Hstep as [Ht Hd]; rewrite Ht, Hd.
  - rewrite trashEntries_after_filter by assumption.
    destruct (trashEntries (clock w + dt) (tasks w) l) as [|e entries] eqn:E.
    + reflexivity.
    + rewrite firstn_app_firstn by lia.
      cbn [rev]. now rewrite <- !app_assoc.
  - reflexivity.
Qed.

Lemma trashEntries_ids (now : N) (live : list Task.t) (l : list (N * string)) :
  incl (map snd l) (map Task.id live) ->
  map DeletedTask.id (trashEntries now live l) = map snd l.
Proof.
  revert now. induction l as [|[dt id] l IH]; intros now Hin; [reflexivity|].
  cbn [trashEntries map snd] in *.
  destruct (find (hasId id) live) as [t|] eqn:F.
  - apply find_some in F. destruct F as [_ F]. apply String.eqb_eq in F.
    cbn [map]. unfold DeletedTask.id at 1. cbn. rewrite F. f_equal.
    apply IH. intros x Hx. apply Hin. now right.
  - exfalso. assert (Hid : In id (map Task.id live)) by (apply Hin; now left).
    apply in_map_iff in Hid. destruct Hid as [t [Ht Hl]].
    pose proof (find_none _ _ F t Hl) as Hf. unfold hasId in Hf.
    rewrite Ht, String.eqb_refl in Hf. discriminate.
Qed.

Lemma softDeleteTask_keeps_capacity (id : string) (dt : N) (w : World) :
  (List.length (deletedTasks w) <= MAX_DELETED)%nat ->
  (List.length (deletedTasks (exec (softDeleteTask id) (elapse dt w))) <= MAX_DELETED)%nat.
Proof.
  intros H. destruct (softDeleteTask_step id dt w) as [_ Hstep].
  destruct (find (hasId id) (tasks w)); destruct Hstep as [_ Hd]; rewrite Hd.
  - apply firstn_le_length.
  - exact H.
Qed.

(** C3: a trash within capacity stays within capacity through any run of
    soft deletions; and after more than [MAX_DELETED] soft deletions of
    distinct live tasks the trash has exactly [MAX_DELETED] entries, which
    are the last [MAX_DELETED] tasks deleted, newest first. *)
Theorem trash_capacity (l : list (N * string)) (w : World) :
  ((List.length (deletedTasks w) <= MAX_DELETED)%nat ->
   (List.length (deletedTasks (run (softDeletes l) w)) <= MAX_DELETED)%nat)
  /\ (NoDup (map snd l) ->
      incl (map snd l) (map Task.id (tasks w)) ->
      (MAX_DELETED < List.length l)%nat ->
      List.length (deletedTasks (run (softDeletes l) w)) = MAX_DELETED
      /\ deletedTasks (run (softDeletes l) w)
         = rev (skipn (List.length l - MAX_DELETED)
                      (trashEntries (clock w) (tasks w) l))
      /\ map DeletedTask.id (deletedTasks (run (softDeletes l) w))
         = rev (skipn (List.length l - MAX_DELETED) (map snd l))).
Proof.
  split.
  - revert w. induction l as [|[dt id] l IH]; intros w H; [exact H|].
    cbn [softDeletes map run fst snd]. fold (softDeletes l).
    apply IH. now apply softDeleteTask_keeps_capacity.
  - intros Hnd Hin Hlen.
    pose proof (@trashEntries_ids (clock w) _ _ Hin) as Hids.
    assert (Hn : List.length (trashEntries (clock w) (tasks w) l) = List.length l).
    { rewrite <- (length_map DeletedTask.id), Hids. apply length_map. }
    assert (Htrash : deletedTasks (run (softDeletes l) w)
                     = rev (skipn (List.length l - MAX_DELETED)
                                  (trashEntries (clock w) (tasks w) l))).
    { rewrite (softDeletes_trash l w Hnd).
      destruct (trashEntries (clock w) (tasks w) l) as [|e entries] eqn:E.
      - cbn in Hn. lia.
      - rewrite firstn_app, length_rev, Hn.
        replace (MAX_DELETED - List.length l)%nat with 0%nat by lia.
        cbn [firstn]. rewrite List.app_nil_r, firstn_rev, Hn. reflexivity. }
    split; [|split].
    + rewrite Htrash, length_rev, length_skipn, Hn. lia.
    + exact Htrash.
    + rewrite Htrash, map_rev, <- skipn_map, Hids. reflexivity.
Qed.

Lemma trash_capacity_witness :
  (List.length (deletedTasks (run (softDeletes burst) busy)) <= MAX_DELETED)%nat
  /\ List.length (deletedTasks (run (softDeletes burst) busy)) = MAX_DELETED
  /\ map DeletedTask.id (deletedTasks (run (softDeletes burst) busy))
     = ["22"; "21"; "20"; "19"; "18"; "17"; "16"; "15"; "14"; "13";
        "12"; "11"; "10"; "9"; "8"; "7"; "6"; "5"; "4"; "3"].
Proof.
  destruct (trash_capacity burst busy) as [Hcap Hexact].
  split.
  - apply Hcap. unfold MAX_DELETED. cbn. lia.
  - destruct Hexact as [Hlen [_ Hids]].
    + vm_compute. repeat (constructor; [cbn; intuition discriminate|]). constructor.
    + vm_compute. intros x Hx. exact Hx.
    + unfold MAX_DELETED. vm_compute. lia.
    + split; [exact Hlen|]. rewrite Hids. reflexivity.
Defined.

End TrashCapacity.

(** ** Ids of created tasks and projects *)

Section Ids.
Import ProjectManager.

Lemma addTask_step (w : World) :
  clock (exec addTask w) = clock w
  /\ exists task,
      Task.id task = Js.toString (clock w)
      /\ document (exec addTask w)
         = if whitespaceOnly (NewTask.title (newTask w)) then document w
           else (task :: tasks w, projects w, deletedTasks w).
Proof.
  unfold exec, addTask, bind, get, document.
  rewrite trim_truthy.
  destruct (whitespaceOnly (NewTask.title (newTask w))); cbn.
  - split; [reflexivity|]. exists (Task.mk (Js.toString (clock w)) "" "" todo low None None
                                            [] "" None). now split.
  - on_store w; on_world w; (split; [reflexivity|]);
      eexists; (split; [|reflexivity]); reflexivity.
Qed.

Lemma addProject_step (w : World) :
  clock (exec addProject w) = clock w
  /\ exists project,
      Project.id project = Js.toString (clock w)
      /\ document (exec addProject w)
         = if whitespaceOnly (NewProject.name (newProject w)) then document w
           else (tasks w, project :: projects w, deletedTasks w).
Proof.
  unfold exec, addProject, bind, get, document.
  rewrite trim_truthy.
  destruct (whitespaceOnly (NewProject.name (newProject w))); cbn.
  - split; [reflexivity|]. exists (Project.mk (Js.toString (clock w)) "" "" "" live "" ""
                                               Jarvis 0 ""). now split.
  - on_store w; on_world w; (split; [reflexivity|]);
      eexists; (split; [|reflexivity]); reflexivity.
Qed.

Lemma create_step (c : Create) (dt : N) (w : World) :
  clock (exec (create c) (elapse dt w)) = clock w + dt
  /\ ((taskIds (exec (create c) (elapse dt w)) = taskIds w
       /\ projectIds (exec (create c) (elapse dt w)) = projectIds w)
      \/ (taskIds (exec (create c) (elapse dt w)) = Js.toString (clock w + dt) :: taskIds w
          /\ projectIds (exec (create c) (elapse dt w)) = projectIds w)
      \/ (taskIds (exec (create c) (elapse dt w)) = taskIds w
          /\ projectIds (exec (create c) (elapse dt w))
             = Js.toString (clock w + dt) :: projectIds w)).
Proof.
  pose proof (elapse_document dt w) as Hdoc. pose proof (elapse_clock dt w) as Hclock.
  remember (elapse dt w) as w' eqn:E. clear E.
  unfold document in Hdoc. injection Hdoc as Ht Hp Hd.
  unfold taskIds, projectIds. rewrite <- Ht, <- Hp, <- Hd, <- Hclock.
  destruct c as [form|form].
  - change (exec (create (CreateTask form)) w') with (exec addTask (with_newTask form w')).
    destruct (addTask_step (with_newTask form w')) as [Hc [task [Hid H]]].
    replace (clock (with_newTask form w')) with (clock w') in * by (now destruct w').
    split; [exact Hc|].
    destruct (whitespaceOnly _); unfold document in H; injection H as H1 H2 H3;
      rewrite H1, H2, H3.
    + left. now destruct w'.
    + right; left. cbn [map app]. rewrite Hid. now destruct w'.
  - change (exec (create (CreateProject form)) w')
      with (exec addProject (with_newProject form w')).
    destruct (addProject_step (with_newProject form w')) as [Hc [project [Hid H]]].
    replace (clock (with_newProject form w')) with (clock w') in * by (now destruct w').
    split; [exact Hc|].
    destruct (whitespaceOnly _); unfold document in H; injection H as H1 H2 H3;
      rewrite H1, H2, H3.
    + left. now destruct w'.
    + right; right. cbn [map]. rewrite Hid. now destruct w'.
Qed.

Lemma create_keeps_ids (c : Create) (dt : N) (w : World) :
  0 < dt ->
  idsUnique w /\ idsBehindClock w ->
  idsUnique (exec (create c) (elapse dt w))
  /\ idsBehindClock (exec (create c) (elapse dt w)).
Proof.
  intros Hdt [[Ht Hp] Hbehind].
  destruct (create_step c dt w) as [Hc Hids].
  assert (Hnow : clock w < clock w + dt) by lia.
  destruct (Hbehind _ Hnow) as [Hft Hfp].
  assert (Hlater : forall n, clock w + dt < n ->
                             clock w < n /\ Js.toString (clock w + dt) <> Js.toString n).
  { intros n Hn. split; [lia|]. intros E. apply toString_inj in E. lia. }
  unfold idsUnique, idsBehindClock. rewrite Hc.
  destruct Hids as [[E1 E2]|[[E1 E2]|[E1 E2]]]; rewrite E1, E2.
  - repeat split; try assumption; apply Hbehind; lia.
  - split; [split; [now constructor|assumption]|].
    intros n Hn. destruct (Hlater n Hn) as [Hn' Hne]. destruct (Hbehind n Hn') as [A B].
    split; [|assumption]. intros [E|E]; [now apply Hne|now apply A].
  - split; [split; [assumption|now constructor]|].
    intros n Hn. destruct (Hlater n Hn) as [Hn' Hne]. destruct (Hbehind n Hn') as [A B].
    split; [assumption|]. intros [E|E]; [now apply Hne|now apply B].
Qed.

(** C9 as stated fails: two creations at one clock reading get one id. *)
Lemma ids_clash_in_same_millisecond :
  idsUnique seeded /\ ~ idsUnique (run (creates sameMillisecond) seeded).
Proof.
  split.
  - split; vm_compute; repeat (constructor; [cbn; intuition discriminate|]); constructor.
  - intros [H _]. vm_compute in H. inversion H as [|? ? Hnot _]. apply Hnot. now left.
Qed.

(** C9, amended: ids stay unique through any run of creations in which each
    creation comes at least a millisecond after the previous event, from a
    world with unique ids none of which is the decimal form of a later clock
    reading. *)
Theorem creates_keep_ids_unique (l : list (N * Create)) (w : World) :
  idsUnique w ->
  idsBehindClock w ->
  Forall (fun e => 0 < fst e) l ->
  idsUnique (run (creates l) w).
Proof.
  intros Hu Hb Hl.
  assert (H : idsUnique w /\ idsBehindClock w) by now split.
  clear Hu Hb. revert w H.
  induction Hl as [|[dt c] l Hdt Hl IH]; intros w H; [exact (proj1 H)|].
  cbn [creates map run fst snd]. fold (creates l).
  apply IH. now apply create_keeps_ids.
Qed.

Lemma creates_keep_ids_unique_witness : idsUnique (run (creates aSecondApart) seeded).
Proof.
  apply creates_keep_ids_unique.
  - split; vm_compute; repeat (constructor; [cbn; intuition discriminate|]); constructor.
  - intros n Hn.
    split; intros Hin; unfold taskIds, projectIds, seeded, initial in Hin; cbn in Hin;
      repeat (destruct Hin as [E|Hin];
              [apply toString_parse in E; vm_compute in E; injection E as <-;
               vm_compute in Hn; discriminate Hn|]);
      exact Hin.
  - repeat constructor.
Defined.

End Ids.

(** ** The debounced save *)

Section Debounce.
Import ProjectManager.

Lemma debouncedSave_writable (t : list Task.t) (p : list Project.t)
      (d : option (list DeletedTask.t)) (w : World) :
  writable w ->
  outcome (debouncedSave t p d) w = Returned tt
  /\ timers (exec (debouncedSave t p d) w)
     = (cleared w ++ [mkTimer (nextTimer w) (clock w + DEBOUNCE) t p d])%list
  /\ saveTimer (exec (debouncedSave t p d) w) = Some (nextTimer w)
  /\ clock (exec (debouncedSave t p d) w) = clock w
  /\ requests (exec (debouncedSave t p d) w) = requests w
  /\ document (exec (debouncedSave t p d) w) = document w
  /\ hasWindow (exec (debouncedSave t p d) w) = hasWindow w
  /\ storageFull (exec (debouncedSave t p d) w) = storageFull w.
Proof.
  intros [H|H]; unfold outcome, exec, cleared, document;
    destruct d; on_store w; on_world w; try discriminate; repeat split; reflexivity.
Qed.

Lemma filter_drops_all {A} (p : A -> bool) (l : list A) :
  (forall x, In x l -> p x = false) -> filter p l = [].
Proof.
  induction l as [|x l IH]; cbn; intros H; [reflexivity|].
  rewrite (H x) by now left. apply IH. intros y Hy. apply H. now right.
Qed.

Lemma cleared_held (w : World) : heldOnly w -> cleared w = [].
Proof.
  unfold heldOnly, cleared. intros H.
  destruct (saveTimer w) as [id|].
  - apply filter_drops_all. intros tm Hin.
    specialize (H tm Hin). injection H as ->. now rewrite Pos.eqb_refl.
  - destruct (timers w) as [|tm l]; [reflexivity|].
    specialize (H tm (or_introl eq_refl)). discriminate.
Qed.

(** What the two trash buttons do: the new trash on screen and in the
    cache, then [debouncedSave]. *)
Lemma trash_button_schedules (d : list DeletedTask.t) (w : World) :
  writable w -> heldOnly w ->
  let button :=
    (setDeletedTasks d ;; saveLocal STORAGE_KEY_DELETED d ;;
     debouncedSave (tasks w) (projects w) (Some d))%js in
  outcome button w = Returned tt
  /\ scheduled (exec button w)
  /\ writable (exec button w)
  /\ clock (exec button w) = clock w
  /\ requests (exec button w) = requests w.
Proof.
  intros Hw Hheld button.
  pose proof (cleared_held Hheld) as Hc.
  unfold button, outcome, exec, scheduled, writable, cleared in *.
  destruct Hw as [Hw|Hw]; on_store w; on_world w; try discriminate;
    rewrite ?Hc; cbn; repeat apply conj; try reflexivity; eauto.
Qed.

(** A mutation in a world whose only pending timers are held: it returns,
    sends nothing, and leaves exactly its own timer pending. *)
Lemma mutate_schedules (m : Mutation) (w : World) :
  writable w -> heldOnly w ->
  outcome (mutate m) w = Returned tt
  /\ scheduled (exec (mutate m) w)
  /\ writable (exec (mutate m) w)
  /\ clock (exec (mutate m) w) = clock w
  /\ requests (exec (mutate m) w) = requests w.
Proof.
  intros Hw Hheld.
  destruct m as [t d|p|id|]; [| |apply (trash_button_schedules _ Hw Hheld)
                                  |apply (trash_button_schedules _ Hw Hheld)].
  - set (w1 := match d with
               | Some d' => with_deletedTasks d' (with_tasks t w)
               | None => with_tasks t w
               end).
    assert (E : mutate (ChangeTasks t d) w
                = debouncedSave t (projects w) (Some (Js.arr_or d (deletedTasks w))) w1).
    { unfold mutate, persistTasks, bind, get, setTasks, setDeletedTasks, modify, ret, w1.
      destruct d; reflexivity. }
    assert (Hw1 : writable w1) by (unfold writable, w1 in *; destruct d, w; exact Hw).
    assert (Hc1 : cleared w1 = []).
    { rewrite <- (cleared_held Hheld). unfold cleared, w1. destruct d, w; reflexivity. }
    destruct (debouncedSave_writable t (projects w) (Some (Js.arr_or d (deletedTasks w))) Hw1)
      as (Ho & Ht & Hs & Hc & Hr & Hd & Hh & Hf).
    unfold outcome, exec in *. rewrite E.
    split; [exact Ho|]. split; [|split; [|split]].
    + exists (nextTimer w1). unfold scheduled, exec. rewrite Ht, Hs, Hc, Hc1.
      unfold document in Hd. injection Hd as -> -> ->.
      split; [|reflexivity]. unfold w1. destruct d, w; reflexivity.
    + unfold writable in *. now rewrite Hh, Hf.
    + rewrite Hc. unfold w1. destruct d, w; reflexivity.
    + rewrite Hr. unfold w1. destruct d, w; reflexivity.
  - set (w1 := with_projects p w).
    assert (E : mutate (ChangeProjects p) w
                = debouncedSave (tasks w) p (Some (deletedTasks w)) w1) by reflexivity.
    assert (Hw1 : writable w1) by (unfold writable, w1 in *; destruct w; exact Hw).
    assert (Hc1 : cleared w1 = []).
    { rewrite <- (cleared_held Hheld). unfold cleared, w1. destruct w; reflexivity. }
    destruct (debouncedSave_writable (tasks w) p (Some (deletedTasks w)) Hw1)
      as (Ho & Ht & Hs & Hc & Hr & Hd & Hh & Hf).
    unfold outcome, exec in *. rewrite E.
    split; [exact Ho|]. split; [|split; [|split]].
    + exists (nextTimer w1). unfold scheduled, exec. rewrite Ht, Hs, Hc, Hc1.
      unfold document in Hd. injection Hd as -> -> ->.
      split; [|reflexivity]. unfold w1. destruct w; reflexivity.
    + unfold writable in *. now rewrite Hh, Hf.
    + rewrite Hc. unfold w1. destruct w; reflexivity.
    + rewrite Hr. unfold w1. destruct w; reflexivity.
Qed.

Lemma posts_app (a b : list Request) : posts (a ++ b) = (posts a ++ posts b)%list.
Proof.
  induction a as [|[|body] a IH]; cbn; [reflexivity|exact IH|now rewrite IH].
Qed.


(** A debounce interval or more after a mutation its timer has fired: one
    POST with the document went out, whatever came of it. *)
Lemma elapse_after_due (quiet : N) (w : World) :
  scheduled w -> DEBOUNCE <= quiet ->
  timers (elapse quiet w) = []
  /\ requests (elapse quiet w) = (requests w ++ [POST_data (bodyOf w)])%list
  /\ syncStatus (elapse quiet w) = saved.
Proof.
  intros [id [Ht Hs]] Hq. unfold elapse. rewrite Ht. cbn [filter due].
  replace (clock w + DEBOUNCE <=? clock w + quiet) with true
    by (symmetry; apply N.leb_le; lia).
  cbn [negb firingOrder fold_left insertByDue].
  unfold fire, exec, timerBody, saveToApi, try_catch, fetch, bind, get, bodyOf.
  destruct w as [? ? ? ? ? ? ? ? ? ? ? ? ? ? ? ? ? ? net ?]; cbn.
  destruct net as [|[|ok body] net]; cbn; repeat split; reflexivity.
Qed.


(** The hypothesis on pending timers holds at mount and after every
    mutation, and the passing of time keeps it. *)
Lemma heldOnly_initial (clock : N) (hasWindow storageFull : bool) (ls : LocalStorage)
      (network : list FetchOutcome) :
  heldOnly (initial clock hasWindow storageFull ls network).
Proof. intros tm []. Qed.

Lemma scheduled_heldOnly (w : World) : scheduled w -> heldOnly w.
Proof. intros [id [Ht Hs]] tm Hin. rewrite Ht in Hin. destruct Hin as [<-|[]]. exact Hs. Qed.

Lemma fire_saveTimer (w : World) (tm : Timer) :
  saveTimer (fire w tm) = saveTimer w /\ timers (fire w tm) = timers w.
Proof.
  unfold fire, exec, timerBody, saveToApi, try_catch, fetch, bind, get.
  destruct w as [? ? ? ? ? ? ? ? ? ? ? ? ? ? ? ? ? ? net ?]; cbn.
  destruct net as [|[|ok body] net]; split; reflexivity.
Qed.

Lemma heldOnly_elapse (dt : N) (w : World) : heldOnly w -> heldOnly (elapse dt w).
Proof.
  intros H. unfold elapse.
  set (later := filter (fun tm => negb (due tm <=? clock w + dt)) (timers w)).
  assert (H0 : saveTimer (with_timers later w) = saveTimer w
               /\ timers (with_timers later w) = later) by (now destruct w).
  revert H0. generalize (with_timers later w).
  generalize (firingOrder (filter (fun tm => due tm <=? clock w + dt) (timers w))).
  intros l. induction l as [|x l IH]; intros w0 [Hs Ht]; cbn [fold_left].
  - intros tm Hin.
    replace (timers (with_clock (clock w + dt) w0)) with (timers w0) in Hin
      by (now destruct w0).
    replace (saveTimer (with_clock (clock w + dt) w0)) with (saveTimer w0)
      by (now destruct w0).
    rewrite Hs. apply H. rewrite Ht in Hin. unfold later in Hin.
    now apply filter_In in Hin.
  - apply IH. destruct (fire_saveTimer w0 x) as [A B]. now rewrite A, B.
Qed.



(** The one POST of that burst carries the empty task and project lists and
    the empty trash of its last mutation. *)
Example threeEdits_one_post :
  posts (requests (elapse 800 (burstOf (ChangeTasks [seedTask3] None) threeEdits seeded)))
  = [DataRoute.mkBody (Some []) (Some []) (Some [])].
Proof. reflexivity. Qed.

(** In a browser whose store is full a mutation stops at its first cache
    write: it throws, sets no timer and sends nothing. *)
Lemma mutate_on_full_store (m : Mutation) (w : World) :
  hasWindow w = true -> storageFull w = true ->
  outcome (mutate m) w = Threw QuotaExceededError
  /\ timers (exec (mutate m) w) = timers w
  /\ requests (exec (mutate m) w) = requests w
  /\ hasWindow (exec (mutate m) w) = true
  /\ storageFull (exec (mutate m) w) = true.
Proof.
  intros Hw Hf. unfold outcome, exec.
  destruct m as [t [d|]|p|id|]; on_world w; repeat apply conj; reflexivity.
Qed.

Lemma elapse_nothing_pending (dt : N) (w : World) :
  timers w = [] -> elapse dt w = with_clock (clock w + dt) w.
Proof. intros H. unfold elapse. rewrite H. cbn. rewrite <- H. now destruct w. Qed.

Lemma full_store_burst_goes_on (more : list (N * Mutation)) (w : World) :
  hasWindow w = true -> storageFull w = true -> timers w = [] ->
  timers (run (map (fun e => (fst e, mutate (snd e))) more) w) = []
  /\ requests (run (map (fun e => (fst e, mutate (snd e))) more) w) = requests w.
Proof.
  revert w. induction more as [|[dt m] more IH]; intros w Hw Hf Ht; [now split|].
  cbn [map run fst snd].
  rewrite (@elapse_nothing_pending dt w Ht).
  set (w1 := with_clock (clock w + dt) w).
  assert (Hw1 : hasWindow w1 = true) by (unfold w1; now destruct w).
  assert (Hf1 : storageFull w1 = true) by (unfold w1; now destruct w).
  assert (Ht1 : timers w1 = []) by (unfold w1; now destruct w).
  destruct (@mutate_on_full_store m w1 Hw1 Hf1) as (_ & Ht2 & Hr2 & Hw2 & Hf2).
  rewrite Ht1 in Ht2.
  destruct (IH _ Hw2 Hf2 Ht2) as [A B].
  split; [exact A|]. rewrite B, Hr2. unfold w1. now destruct w.
Qed.

(** C2: in a browser whose store is full, with no timer pending, no burst
    of mutations is ever saved remotely: each mutation throws at its first
    cache write, before [setTimeout], so that however long one waits
    afterwards no request has gone out and no timer is pending.  (Where the
    cache writes do not throw the burst is coalesced into one POST: lemma
    [debounce_coalesces].) *)
Theorem full_store_burst_sends_nothing (first : Mutation) (more : list (N * Mutation))
        (quiet : N) (w : World) :
  hasWindow w = true ->
  storageFull w = true ->
  timers w = [] ->
  outcome (mutate first) w = Threw QuotaExceededError
  /\ requests (elapse quiet (burstOf first more w)) = requests w
  /\ timers (elapse quiet (burstOf first more w)) = [].
Proof.
  intros Hw Hf Ht. unfold burstOf.
  destruct (@mutate_on_full_store first w Hw Hf) as (Ho & Ht1 & Hr1 & Hw1 & Hf1).
  rewrite Ht in Ht1.
  destruct (@full_store_burst_goes_on more _ Hw1 Hf1 Ht1) as [A B].
  split; [exact Ho|].
  rewrite (@elapse_nothing_pending quiet _ A).
  split.
  - rewrite <- Hr1, <- B. now destruct (run _ _).
  - rewrite <- A. now destruct (run _ _).
Qed.

(** Three edits on a full store: they are on screen, and 800 ms later
    nothing has been sent and nothing is pending. *)
Lemma full_store_burst_sends_nothing_witness :
  requests (elapse 800 (burstOf (ChangeTasks [seedTask3] None) threeEdits fullStore)) = []
  /\ timers (elapse 800 (burstOf (ChangeTasks [seedTask3] None) threeEdits fullStore)) = []
  /\ tasks (elapse 800 (burstOf (ChangeTasks [seedTask3] None) threeEdits fullStore)) = []
  /\ tasks fullStore <> [].
Proof.
  destruct (@full_store_burst_sends_nothing (ChangeTasks [seedTask3] None) threeEdits 800
              fullStore eq_refl eq_refl eq_refl) as (_ & A & B).
  repeat apply conj; [exact A|exact B|reflexivity|discriminate].
Defined.

End Debounce.

(** ** Load-time reconciliation *)

Section Reconcile.
Import ProjectManager.

(** C1 as stated fails for the trash: an empty remote trash is loaded as it
    is, and the cached trash is overwritten with it. *)
Lemma empty_remote_trash_wins : ~ reconciledPerGroup emptiedElsewhere.
Proof.
  intros H.
  destruct (H [remoteB] [remoteP] (Some [])) as (_ & _ & Hd & _).
  - repeat split; try reflexivity.
    + eexists. reflexivity.
    + left. discriminate.
  - vm_compute in Hd. discriminate Hd.
Qed.

(** C1, amended: on authoritative data with a non-empty collection, the
    loaded tasks are the remote ones if there are any and the cached ones
    otherwise, likewise the projects; the loaded trash is the remote trash
    whenever the response carries one, empty or not; the cache then holds the
    three loaded collections, and the sync status is [saved]. *)
Theorem load_reconciles (w : World) (rt : list Task.t) (rp : list Project.t)
        (rd : option (list DeletedTask.t)) :
  authoritative w rt rp rd ->
  outcome load w = Returned tt
  /\ tasks (exec load w) = pick rt (cached STORAGE_KEY_TASKS DEFAULT_TASKS w)
  /\ projects (exec load w) = pick rp (cached STORAGE_KEY_PROJECTS DEFAULT_PROJECTS w)
  /\ (forall d, rd = Some d -> deletedTasks (exec load w) = d)
  /\ localStorage (exec load w)
     = mkLocalStorage (Stored (projects (exec load w))) (Stored (tasks (exec load w)))
                      (Stored (deletedTasks (exec load w)))
  /\ syncStatus (exec load w) = saved.
Proof.
  intros (Hwin & Hfull & [rest Hnet] & Hne).
  unfold outcome, exec, cached, pick, outcome.
  destruct w as [? ? ? ? ? ? ? ? ? ? ? ? ? ? ? [sp st sd] ? ? ? ?]; cbn in *; subst.
  destruct rt as [|b rt], rp as [|q rp]; try (destruct Hne; congruence);
    destruct sp, st, sd, rd; cbn; repeat split; try reflexivity;
    intros d' E; congruence.
Qed.

(** Without a trash in the response the loaded trash is empty, whatever the
    cache held, and the cache is overwritten with it. *)
Lemma load_without_remote_trash (w : World) (rt : list Task.t) (rp : list Project.t) :
  authoritative w rt rp None ->
  deletedTasks (exec load w) = []
  /\ pm_deleted_tasks (localStorage (exec load w)) = Stored [].
Proof.
  intros (Hwin & Hfull & [rest Hnet] & Hne).
  unfold exec.
  destruct w as [? ? ? ? ? ? ? ? ? ? ? ? ? ? ? [sp st sd] ? ? ? ?]; cbn in *; subst.
  destruct rt as [|b rt], rp as [|q rp]; try (destruct Hne; congruence);
    destruct sp, st, sd; cbn; split; reflexivity.
Qed.

Lemma load_reconciles_witness :
  outcome load remoteWins = Returned tt
  /\ tasks (exec load remoteWins) = [remoteB]
  /\ projects (exec load remoteWins) = [remoteP]
  /\ (forall d, Some [binned] = Some d -> deletedTasks (exec load remoteWins) = d)
  /\ localStorage (exec load remoteWins)
     = mkLocalStorage (Stored (projects (exec load remoteWins)))
                      (Stored (tasks (exec load remoteWins)))
                      (Stored (deletedTasks (exec load remoteWins)))
  /\ syncStatus (exec load remoteWins) = saved.
Proof.
  apply (@load_reconciles remoteWins [remoteB] [remoteP] (Some [binned])).
  repeat split; try reflexivity.
  - eexists. reflexivity.
  - left. discriminate.
Defined.

End Reconcile.

(** ** A failed POST *)

Section FailedPost.
Import ProjectManager.

Lemma fire_localStorage (w : World) (tm : Timer) :
  localStorage (fire w tm) = localStorage w.
Proof.
  unfold fire, exec, timerBody, saveToApi, try_catch, fetch, bind, get.
  destruct w as [? ? ? ? ? ? ? ? ? ? ? ? ? ? ? ? ? ? net ?]; cbn.
  destruct net as [|[|ok body] net]; reflexivity.
Qed.

Lemma elapse_localStorage (dt : N) (w : World) :
  localStorage (elapse dt w) = localStorage w.
Proof.
  unfold elapse.
  transitivity (localStorage
     (with_timers (filter (fun tm => negb (due tm <=? clock w + dt)) (timers w)) w));
    [|now destruct w].
  generalize (with_timers (filter (fun tm => negb (due tm <=? clock w + dt)) (timers w)) w).
  generalize (firingOrder (filter (fun tm => due tm <=? clock w + dt) (timers w))).
  intros l. induction l as [|tm l IH]; intros w0; cbn [fold_left].
  - now destruct w0.
  - rewrite IH. apply fire_localStorage.
Qed.

(** However the debounced POST settles, the status ends as [saved]; the
    document and the cache are as the mutation left them. *)
Lemma debounced_post_always_saved (quiet : N) (w : World) :
  scheduled w -> DEBOUNCE <= quiet ->
  syncStatus (elapse quiet w) = saved
  /\ document (elapse quiet w) = document w
  /\ localStorage (elapse quiet w) = localStorage w.
Proof.
  intros Hs Hq. destruct (elapse_after_due Hs Hq) as (_ & _ & Hsaved).
  split; [exact Hsaved|]. split; [apply elapse_document|apply elapse_localStorage].
Qed.

(** C6, at failing inputs: the route answers 500 (no database), or the
    request never gets through; either way the debounced save ends with the
    status [saved], not [error].  Document and cache are untouched by the
    failure. *)
Theorem failed_post_shows_saved :
  noDatabase = Response false (Some (Data.mk (Some "no-db") None None None))
  /\ posts (requests (elapse 800 (edited noDatabase))) = [bodyOf (edited noDatabase)]
  /\ syncStatus (elapse 800 (edited noDatabase)) = saved
  /\ document (elapse 800 (edited noDatabase)) = document (edited noDatabase)
  /\ localStorage (elapse 800 (edited noDatabase)) = localStorage (edited noDatabase)
  /\ posts (requests (elapse 800 (edited Rejected))) = [bodyOf (edited Rejected)]
  /\ syncStatus (elapse 800 (edited Rejected)) = saved
  /\ document (elapse 800 (edited Rejected)) = document (edited Rejected)
  /\ localStorage (elapse 800 (edited Rejected)) = localStorage (edited Rejected).
Proof. repeat apply conj; vm_compute; reflexivity. Qed.

End FailedPost.

(** ** The data route *)

Section Route.
Import ProjectManager.

(** Tasks and projects posted as arrays come back from a GET that follows a
    successful POST. *)
Lemma post_then_get (now : N) (t : list Task.t) (p : list Project.t)
      (d : option (list DeletedTask.t)) (supabase : option Db) :
  DataRoute.p_success (fst (DataRoute.POST now (Some (DataRoute.mkBody (Some t) (Some p) d))
                                           supabase)) = true ->
  (forall db, snd (DataRoute.POST now (Some (DataRoute.mkBody (Some t) (Some p) d))
                                  supabase) = Some db ->
              DataRoute.selectError db = None) ->
  let answer := DataRoute.GET (snd (DataRoute.POST now
                                      (Some (DataRoute.mkBody (Some t) (Some p) d))
                                      supabase)) in
  DataRoute.g_tasks answer = t
  /\ DataRoute.g_projects answer = p
  /\ DataRoute.g_source answer = "supabase".
Proof.
  destruct supabase as [[r se ue]|]; cbn; [|discriminate].
  destruct ue; cbn; [discriminate|].
  intros _ Hsel. specialize (Hsel _ eq_refl). cbn in Hsel. subst se.
  repeat split; reflexivity.
Qed.

(** C5, at a failing input: the POST of a document with one trash entry
    succeeds, and the GET that follows returns its tasks and projects but no
    [deletedTasks]: the stored value has no such field.  A client that loads
    the answer ends with an empty trash. *)
Theorem route_drops_deletedTasks :
  DataRoute.p_success (fst (DataRoute.POST 1770384900000 (Some withTrash) (Some emptyDb)))
    = true
  /\ DataRoute.row (match snd (DataRoute.POST 1770384900000 (Some withTrash) (Some emptyDb))
                    with Some db => db | None => emptyDb end)
     = Some (DataRoute.CObject
               (DataRoute.mkValue (Some [remoteB]) (Some [remoteP])
                                  (Some "2026-02-06T13:35:00.000Z")))
  /\ wireGet (DataRoute.GET (snd (DataRoute.POST 1770384900000 (Some withTrash)
                                                 (Some emptyDb))))
     = Response true (Some (Data.mk (Some "supabase") (Some [remoteB]) (Some [remoteP]) None))
  /\ DataRoute.b_deletedTasks withTrash = Some [binned]
  /\ deletedTasks (exec load reloaded) = [].
Proof. repeat apply conj; vm_compute; reflexivity. Qed.

End Route.

(** ** [completedAt] *)

Section CompletedAt.
Import ProjectManagementPage.

(** The status-change handler follows the rule: into [done] with no
    completion date sets one; any status other than [done] clears it. *)
Lemma changeStatus_completedAt (status : TaskStatus) (now : N) (t : Task.t) :
  (status = done -> Task.completedAt t = None ->
   Task.completedAt (changeStatus status now t) = Some (Js.toISOString now))
  /\ (status <> done -> Task.completedAt (changeStatus status now t) = None).
Proof.
  split.
  - intros -> H. cbn. rewrite H. reflexivity.
  - intros H. destruct status; cbn; try reflexivity. congruence.
Qed.

(** The form sets a completion date on the way into [done]. *)
Lemma handleSubmit_into_done (t : Task.t) (form : FormData.t) (now : N) (suffix : string) :
  whitespaceOnly (FormData.title form) = false ->
  FormData.status form = done ->
  Task.completedAt t = None ->
  option_map Task.completedAt (handleSubmit (Some t) form now suffix)
  = Some (Some (Js.toISOString now)).
Proof.
  intros Htitle Hdone Hnull. unfold handleSubmit.
  rewrite trim_truthy, Htitle, Hdone, Hnull. reflexivity.
Qed.

(** The form keeps the completion date on the way out of [done]. *)
Lemma handleSubmit_out_of_done (t : Task.t) (form : FormData.t) (now : N)
      (suffix c : string) :
  whitespaceOnly (FormData.title form) = false ->
  FormData.status form <> done ->
  Task.completedAt t = Some c ->
  Js.truthy c = true ->
  option_map Task.completedAt (handleSubmit (Some t) form now suffix) = Some (Some c).
Proof.
  intros Htitle Hstatus Hc Htruthy. unfold handleSubmit.
  rewrite trim_truthy, Htitle, Hc. cbn.
  destruct (FormData.status form); try congruence; cbn; unfold Js.or_null;
    rewrite Htruthy; reflexivity.
Qed.

(** C4, at a failing input: reopening a finished task through the edit form
    (status [done] to [todo]) saves it with its completion date still set,
    where the status-change handler clears it. *)
Theorem edit_form_keeps_completedAt :
  option_map Task.status
             (handleSubmit (Some finished) (pickStatus todo (formOf finished))
                           1770384896789 "a1b2c3d4e")
  = Some todo
  /\ option_map Task.completedAt
                (handleSubmit (Some finished) (pickStatus todo (formOf finished))
                              1770384896789 "a1b2c3d4e")
     = Some (Some "2026-02-05T09:00:00.000Z")
  /\ map Task.completedAt (handleStatusChange (Task.id finished) todo 1770384896789
                                              [finished])
     = [None].
Proof. repeat apply conj; vm_compute; reflexivity. Qed.

End CompletedAt.

(** ** Mount without remote data *)

Section Fallback.
Import ProjectManager.

(** X1: [loadFromApi] never throws, whatever the network does: it sends one
    GET, changes nothing else, and returns [null] unless the answer is a
    usable one. *)
Theorem loadFromApi_never_throws (w : World) :
  (exists r, outcome loadFromApi w = Returned r
             /\ (r <> None -> exists o rest, network w = o :: rest /\ usable o = true))
  /\ requests (exec loadFromApi w) = (requests w ++ [GET_data])%list
  /\ document (exec loadFromApi w) = document w
  /\ localStorage (exec loadFromApi w) = localStorage w
  /\ syncStatus (exec loadFromApi w) = syncStatus w.
Proof.
  unfold outcome, exec, loadFromApi, try_catch, fetch, json, bind, get, document.
  destruct w as [? ? ? ? ? ? ? ? ? ? ? ? ? ? ? ? ? ? net ?]; cbn.
  destruct net as [|[|[|] [data|]] rest]; cbn;
    try (split; [exists None; split; [reflexivity|congruence]|repeat split; reflexivity]).
  destruct (source_is_supabase data
            && (Js.nonEmpty (Data.tasks data) || Js.nonEmpty (Data.projects data))) eqn:E;
    cbn.
  - split; [|repeat split; reflexivity].
    eexists. split; [reflexivity|]. intros _. eexists. eexists. split; [reflexivity|].
    exact E.
  - split; [exists None; split; [reflexivity|congruence]|repeat split; reflexivity].
Qed.

Lemma loadLocal_cached {T} (key : Key T) (defaults : T) (w : World) :
  loadLocal key defaults w = (Returned (cached key defaults w), w).
Proof.
  unfold cached, outcome, loadLocal, bind, get.
  destruct (hasWindow w); cbn; [|reflexivity].
  destruct (getItem key (localStorage w)); reflexivity.
Qed.

Lemma load_without_remote_data (w : World) :
  noRemoteData w ->
  outcome load w = Returned tt
  /\ tasks (exec load w) = cached STORAGE_KEY_TASKS DEFAULT_TASKS w
  /\ projects (exec load w) = cached STORAGE_KEY_PROJECTS DEFAULT_PROJECTS w
  /\ deletedTasks (exec load w) = cached STORAGE_KEY_DELETED [] w
  /\ localStorage (exec load w) = localStorage w
  /\ posts (requests (exec load w))
     = (posts (requests w)
        ++ [DataRoute.mkBody (Some (cached STORAGE_KEY_TASKS DEFAULT_TASKS w))
                             (Some (cached STORAGE_KEY_PROJECTS DEFAULT_PROJECTS w))
                             (Some (cached STORAGE_KEY_DELETED [] w))])%list
  /\ syncStatus (exec load w) = saved
  /\ isInitialLoad (exec load w) = false.
Proof.
  intros H. unfold outcome, exec, load, bind.
  repeat (rewrite loadLocal_cached; cbv iota beta).
  generalize (cached STORAGE_KEY_TASKS DEFAULT_TASKS w)
             (cached STORAGE_KEY_PROJECTS DEFAULT_PROJECTS w)
             (cached STORAGE_KEY_DELETED [] w).
  intros lt lp ld. unfold noRemoteData in H.
  destruct w as [? ? ? ? ? ? ? ? ? ? ? ? ? ? ? ? ? ? net reqs]; cbn in H.
  destruct net as [|o rest].
  - cbn. rewrite !posts_app. cbn [posts app]. rewrite ?List.app_nil_r.
    repeat apply conj; reflexivity.
  - specialize (H o rest eq_refl).
    destruct o as [|ok [data|]]; [| destruct ok |destruct ok].
    + destruct rest as [|[|? ?] ?]; cbn; rewrite !posts_app; cbn [posts app]; rewrite ?List.app_nil_r;
        repeat apply conj; reflexivity.
    + unfold usable in H.
      destruct rest as [|[|? ?] ?];
        unfold loadFromApi, try_catch, fetch, json, bind, get;
        cbn -[source_is_supabase Js.nonEmpty];
        rewrite H; cbn; rewrite !posts_app;
        cbn [posts app]; rewrite ?List.app_nil_r; repeat apply conj; reflexivity.
    + destruct rest as [|[|? ?] ?]; cbn; rewrite !posts_app; cbn [posts app]; rewrite ?List.app_nil_r;
        repeat apply conj; reflexivity.
    + destruct rest as [|[|? ?] ?]; cbn; rewrite !posts_app; cbn [posts app]; rewrite ?List.app_nil_r;
        repeat apply conj; reflexivity.
    + destruct rest as [|[|? ?] ?]; cbn; rewrite !posts_app; cbn [posts app]; rewrite ?List.app_nil_r;
        repeat apply conj; reflexivity.
Qed.

(** X2: when the GET brings no usable data (it is rejected, not [ok], not
    JSON, from another source, or empty), [load] shows what the cache holds
    (the seed data where it holds nothing), leaves the cache as it is, sends
    that same snapshot in one POST and ends with status [saved]; nothing is
    thrown. *)
Theorem load_falls_back_to_cache (w : World) :
  noRemoteData w ->
  outcome load w = Returned tt
  /\ tasks (exec load w) = cached STORAGE_KEY_TASKS DEFAULT_TASKS w
  /\ projects (exec load w) = cached STORAGE_KEY_PROJECTS DEFAULT_PROJECTS w
  /\ deletedTasks (exec load w) = cached STORAGE_KEY_DELETED [] w
  /\ localStorage (exec load w) = localStorage w
  /\ posts (requests (exec load w))
     = (posts (requests w)
        ++ [DataRoute.mkBody (Some (cached STORAGE_KEY_TASKS DEFAULT_TASKS w))
                             (Some (cached STORAGE_KEY_PROJECTS DEFAULT_PROJECTS w))
                             (Some (cached STORAGE_KEY_DELETED [] w))])%list
  /\ syncStatus (exec load w) = saved
  /\ isInitialLoad (exec load w) = false.
Proof. exact (@load_without_remote_data w). Qed.

Lemma load_falls_back_to_cache_witness :
  outcome load offlineMount = Returned tt
  /\ tasks (exec load offlineMount) = DEFAULT_TASKS
  /\ projects (exec load offlineMount) = [remoteP]
  /\ deletedTasks (exec load offlineMount) = [binned]
  /\ syncStatus (exec load offlineMount) = saved.
Proof.
  assert (H : noRemoteData offlineMount).
  { intros o rest E. injection E as <- _. reflexivity. }
  destruct (@load_falls_back_to_cache offlineMount H) as (A & B & C & D & _ & _ & G & _).
  repeat apply conj; assumption.
Defined.

End Fallback.

(** ** Write-through *)

Section WriteThrough.
Import ProjectManager.

Lemma fire_env (w : World) (tm : Timer) :
  hasWindow (fire w tm) = hasWindow w /\ storageFull (fire w tm) = storageFull w.
Proof.
  unfold fire, exec, timerBody, saveToApi, try_catch, fetch, bind, get.
  destruct w as [? ? ? ? ? ? ? ? ? ? ? ? ? ? ? ? ? ? net ?]; cbn.
  destruct net as [|[|ok body] net]; split; reflexivity.
Qed.

Lemma elapse_env (dt : N) (w : World) :
  hasWindow (elapse dt w) = hasWindow w /\ storageFull (elapse dt w) = storageFull w.
Proof.
  unfold elapse.
  set (later := filter (fun tm => negb (due tm <=? clock w + dt)) (timers w)).
  assert (H0 : hasWindow (with_timers later w) = hasWindow w
               /\ storageFull (with_timers later w) = storageFull w) by (now destruct w).
  revert H0. generalize (with_timers later w).
  generalize (firingOrder (filter (fun tm => due tm <=? clock w + dt) (timers w))).
  intros l. induction l as [|x l IH]; intros w0 H0; cbn [fold_left].
  - now destruct w0.
  - apply IH. destruct (fire_env w0 x) as [A B]. now rewrite A, B.
Qed.

Lemma debouncedSave_cache (t : list Task.t) (p : list Project.t)
      (d : list DeletedTask.t) (w : World) :
  hasWindow w = true -> storageFull w = false ->
  exists w',
    debouncedSave t p (Some d) w = (Returned tt, w')
    /\ hasWindow w' = true
    /\ storageFull w' = false
    /\ localStorage w' = mkLocalStorage (Stored p) (Stored t) (Stored d)
    /\ document w' = document w.
Proof.
  intros Hwin Hfull. unfold document.
  destruct (saveTimer w) eqn:?; on_world w; eexists; repeat apply conj; reflexivity.
Qed.

(** Replace a [debouncedSave] that runs in a browser with room by the world
    it leaves. *)
Ltac through_save w :=
  match goal with
  | |- context [debouncedSave ?t ?p (Some ?d) ?W] =>
      let w' := fresh "w'" in
      let E := fresh "E" in
      let Hd := fresh "Hd" in
      destruct (@debouncedSave_cache t p d W) as (w' & E & ? & ? & ? & Hd);
      [ destruct w; assumption | destruct w; assumption | ];
      rewrite E; cbv beta iota zeta;
      unfold document in Hd;
      repeat apply conj;
      [ reflexivity
      | destruct w'; assumption
      | destruct w'; assumption
      | right; unfold cacheOf; destruct w'; destruct w; cbn in *;
        injection Hd as -> -> ->; subst; reflexivity ]
  end.

(** A handler that gets as far as [debouncedSave] writes the whole document
    to the cache; one that returns early leaves the world alone. *)
Lemma handler_writes_through (a : Action) (w : World) :
  hasWindow w = true -> storageFull w = false ->
  outcome (handler a) w = Returned tt
  /\ hasWindow (exec (handler a) w) = true
  /\ storageFull (exec (handler a) w) = false
  /\ (exec (handler a) w = w
      \/ localStorage (exec (handler a) w) = cacheOf (exec (handler a) w)).
Proof.
  intros Hwin Hfull. unfold outcome, exec.
  destruct a as [| |id|id|id| |id status]; cbn [handler].
  - unfold addTask, persistTasks, setTasks, setNewTask, setShowAddTask, modify, bind, get,
      ret.
    destruct (negb (Js.truthy (Js.trim (NewTask.title (newTask w))))).
    + cbn. auto.
    + cbv beta iota zeta. through_save w.
  - unfold addProject, persistProjects, setProjects, setNewProject, setShowAddProject, modify,
      bind, get, ret.
    destruct (negb (Js.truthy (Js.trim (NewProject.name (newProject w))))).
    + cbn. auto.
    + cbv beta iota zeta. through_save w.
  - unfold softDeleteTask, persistTasks, setTasks, setDeletedTasks, setSelectedTask,
      setConfirmDelete, modify, bind, get, ret.
    destruct (find _ (tasks w)).
    + cbv beta iota zeta. through_save w.
    + cbn. auto.
  - unfold restoreTask, persistTasks, setTasks, setDeletedTasks, modify, bind, get, ret.
    destruct (find _ (deletedTasks w)).
    + cbv beta iota zeta. through_save w.
    + cbn. auto.
  - unfold permanentDeleteTask, setDeletedTasks, modify, bind, get, ret.
    cbv beta iota zeta.
    rewrite saveLocal_writes by (destruct w; assumption).
    cbv beta iota zeta. through_save w.
  - unfold emptyTrash, setDeletedTasks, modify, bind, get, ret.
    cbv beta iota zeta.
    rewrite saveLocal_writes by (destruct w; assumption).
    cbv beta iota zeta. through_save w.
  - unfold updateTaskStatus, persistTasks, setTasks, modify, bind, get, ret.
    cbv beta iota zeta. through_save w.
Qed.


Lemma run_keeps_sync (l : list (N * Action)) (w : World) :
  hasWindow w = true -> storageFull w = false -> inSync w ->
  inSync (run (actions l) w).
Proof.
  revert w. induction l as [|[dt a] l IH]; intros w Hwin Hfull Hsync; [exact Hsync|].
  cbn [actions map run fst snd]. fold (actions l).
  destruct (elapse_env dt w) as [Hw1 Hf1]. rewrite Hwin in Hw1. rewrite Hfull in Hf1.
  assert (Hs1 : inSync (elapse dt w)).
  { unfold inSync, cacheOf. rewrite elapse_localStorage, elapse_tasks, elapse_projects,
      elapse_deletedTasks. exact Hsync. }
  destruct (@handler_writes_through a _ Hw1 Hf1) as (_ & Hw2 & Hf2 & [E|E]).
  - apply IH; rewrite ?E; assumption.
  - apply IH; assumption.
Qed.

(** X3: in a browser whose store has room, once the cache holds the
    document it does so after every button press, however the presses are
    spaced: a reload never sees an older document than the screen showed. *)
Theorem cache_mirrors_document (l : list (N * Action)) (w : World) :
  hasWindow w = true -> storageFull w = false -> inSync w ->
  localStorage (run (actions l) w)
  = mkLocalStorage (Stored (projects (run (actions l) w)))
                   (Stored (tasks (run (actions l) w)))
                   (Stored (deletedTasks (run (actions l) w))).
Proof. intros Hwin Hfull Hsync. exact (@run_keeps_sync l w Hwin Hfull Hsync). Qed.

Lemma cache_mirrors_document_witness :
  localStorage (run (actions someEdits) synced)
  = mkLocalStorage (Stored (projects (run (actions someEdits) synced)))
                   (Stored (tasks (run (actions someEdits) synced)))
                   (Stored (deletedTasks (run (actions someEdits) synced))).
Proof. apply cache_mirrors_document; reflexivity. Defined.

(** X4: the document on screen after any run of button presses is the
    document a fresh mount shows from that cache when the remote store gives
    no usable data. *)
Theorem reload_shows_last_document (l : list (N * Action)) (w : World) (clock : N)
        (full : bool) (net : list FetchOutcome) :
  hasWindow w = true -> storageFull w = false -> inSync w ->
  (forall o rest, net = o :: rest -> usable o = false) ->
  document (exec load (initial clock true full (localStorage (run (actions l) w)) net))
  = document (run (actions l) w).
Proof.
  intros Hwin Hfull Hsync Hnet.
  pose proof (@run_keeps_sync l w Hwin Hfull Hsync) as Hs. unfold inSync in Hs.
  set (fresh := initial clock true full (localStorage (run (actions l) w)) net).
  assert (Hno : noRemoteData fresh) by exact Hnet.
  destruct (@load_without_remote_data fresh Hno) as (_ & Ht & Hp & Hd & _).
  unfold document. rewrite Ht, Hp, Hd.
  unfold cached, outcome, loadLocal, bind, get, fresh. cbn. rewrite Hs. reflexivity.
Qed.

Lemma reload_shows_last_document_witness :
  document (exec load (initial 1770385000000 true false
                               (localStorage (run (actions someEdits) synced))
                               [Rejected]))
  = document (run (actions someEdits) synced).
Proof.
  apply reload_shows_last_document; try reflexivity.
  intros o rest E. injection E as <- _. reflexivity.
Defined.

End WriteThrough.

(** ** Mutations that are not coalesced *)

Section Spaced.
Import ProjectManager.

Lemma bodiesAlong_length (events : list (N * Mutation)) (w : World) :
  List.length (bodiesAlong events w) = List.length events.
Proof.
  revert w. induction events as [|[dt m] events IH]; intros w; cbn; [reflexivity|].
  now rewrite IH.
Qed.

Lemma spaced_goes_on (more : list (N * Mutation)) (quiet : N) (w : World) :
  scheduled w -> writable w ->
  Forall (fun e => DEBOUNCE <= fst e) more ->
  DEBOUNCE <= quiet ->
  posts (requests (elapse quiet (run (map (fun e => (fst e, mutate (snd e))) more) w)))
  = (posts (requests w) ++ bodyOf w :: bodiesAlong more w)%list.
Proof.
  intros Hs Hw Hmore Hq. revert w Hs Hw.
  induction Hmore as [|[dt m] more Hdt Hmore IH]; intros w Hs Hw.
  - cbn [map run bodiesAlong].
    destruct (@elapse_after_due quiet w Hs Hq) as (_ & Hr & _).
    rewrite Hr, posts_app. reflexivity.
  - cbn [map run fst snd bodiesAlong] in *.
    destruct (@elapse_after_due dt w Hs Hdt) as (Ht & Hr & _).
    destruct (elapse_env dt w) as [He1 He2].
    assert (Hw1 : writable (elapse dt w)) by (unfold writable in *; now rewrite He1, He2).
    assert (Hh1 : heldOnly (elapse dt w)) by (intros tm Hin; rewrite Ht in Hin; destruct Hin).
    destruct (@mutate_schedules m _ Hw1 Hh1) as (_ & Hs2 & Hw2 & _ & Hr2).
    rewrite (IH _ Hs2 Hw2), Hr2, Hr, posts_app. cbn [posts app].
    now rewrite <- List.app_assoc.
Qed.

(** X5: mutations that come a debounce interval or more apart are not
    coalesced: each one's timer fires before the next mutation, so one POST
    goes out per mutation, in order, each with the document that mutation
    left.  The cache writes are taken not to throw. *)
Theorem spaced_mutations_post_each (first : Mutation) (more : list (N * Mutation))
        (quiet : N) (w : World) :
  writable w ->
  heldOnly w ->
  Forall (fun e => DEBOUNCE <= fst e) more ->
  DEBOUNCE <= quiet ->
  posts (requests (elapse quiet (burstOf first more w)))
  = (posts (requests w)
     ++ bodyOf (exec (mutate first) w) :: bodiesAlong more (exec (mutate first) w))%list
  /\ List.length (posts (requests (elapse quiet (burstOf first more w))))
     = (List.length (posts (requests w)) + 1 + List.length more)%nat.
Proof.
  intros Hw Hheld Hmore Hquiet. unfold burstOf.
  destruct (@mutate_schedules first w Hw Hheld) as (_ & Hs1 & Hw1 & _ & Hr1).
  pose proof (@spaced_goes_on more quiet _ Hs1 Hw1 Hmore Hquiet) as H.
  rewrite Hr1 in H. split; [exact H|].
  rewrite H, length_app. cbn [List.length]. rewrite bodiesAlong_length. lia.
Qed.

Lemma spaced_mutations_post_each_witness :
  posts (requests (elapse 800 (burstOf (ChangeTasks [seedTask3] None) slowEdits seeded)))
  = (posts (requests seeded)
     ++ bodyOf (exec (mutate (ChangeTasks [seedTask3] None)) seeded)
     :: bodiesAlong slowEdits (exec (mutate (ChangeTasks [seedTask3] None)) seeded))%list
  /\ List.length
       (posts (requests (elapse 800 (burstOf (ChangeTasks [seedTask3] None) slowEdits
                                             seeded))))
     = (List.length (posts (requests seeded)) + 1 + List.length slowEdits)%nat.
Proof.
  apply spaced_mutations_post_each.
  - right. reflexivity.
  - intros tm [].
  - repeat (apply Forall_cons; [unfold DEBOUNCE; cbn [fst]; lia|]). apply Forall_nil.
  - unfold DEBOUNCE. lia.
Defined.

End Spaced.

(** ** The other task handlers *)

Section MoreHandlers.
Import ProjectManager.

Lemma permanentDeleteTask_document (id : string) (w : World) :
  document (exec (permanentDeleteTask id) w)
  = (tasks w, projects w, filter (fun d => negb (trashedAs id d)) (deletedTasks w)).
Proof.
  unfold exec, permanentDeleteTask, bind, get, document, trashedAs.
  on_store w; on_world w; reflexivity.
Qed.

Lemma emptyTrash_document (w : World) :
  document (exec emptyTrash w) = (tasks w, projects w, []).
Proof.
  unfold exec, emptyTrash, bind, get, document.
  on_store w; on_world w; reflexivity.
Qed.

Lemma updateTaskStatus_document (id : string) (status : TaskStatus) (w : World) :
  document (exec (updateTaskStatus id status) w)
  = (map (fun t => if hasId id t then withStatus status t else t) (tasks w),
     projects w, deletedTasks w).
Proof.
  unfold exec, updateTaskStatus, bind, get, document, hasId.
  on_store w; on_world w; reflexivity.
Qed.

Lemma filter_length_le {A} (p : A -> bool) (l : list A) :
  (List.length (filter p l) <= List.length l)%nat.
Proof. induction l as [|x l IH]; cbn; [lia|]. destruct (p x); cbn; lia. Qed.

(** X6: [permanentDeleteTask] takes out of the trash exactly the entries
    with the given id, in place, and touches neither the live tasks nor the
    projects; after it, restoring that id does nothing at all. *)
Theorem purge_is_final (id : string) (w : World) :
  tasks (exec (permanentDeleteTask id) w) = tasks w
  /\ projects (exec (permanentDeleteTask id) w) = projects w
  /\ deletedTasks (exec (permanentDeleteTask id) w)
     = filter (fun d => negb (String.eqb (DeletedTask.id d) id)) (deletedTasks w)
  /\ (forall d, In d (deletedTasks (exec (permanentDeleteTask id) w))
                <-> In d (deletedTasks w) /\ DeletedTask.id d <> id)
  /\ restoreTask id (exec (permanentDeleteTask id) w)
     = (Returned tt, exec (permanentDeleteTask id) w).
Proof.
  pose proof (permanentDeleteTask_document id w) as H.
  unfold document in H. injection H as Ht Hp Hd.
  repeat apply conj; try assumption.
  - intros d. rewrite Hd, filter_In. unfold trashedAs.
    rewrite negb_true_iff, String.eqb_neq. reflexivity.
  - apply restoreTask_absent, find_absent. intros d Hin.
    rewrite Hd in Hin. apply filter_In in Hin. destruct Hin as [_ Hin].
    now apply negb_true_iff in Hin.
Qed.

Lemma handler_trash_bound (a : Action) (w : World) :
  (List.length (deletedTasks w) <= MAX_DELETED)%nat ->
  (List.length (deletedTasks (exec (handler a) w)) <= MAX_DELETED)%nat.
Proof.
  intros H. destruct a as [| |id|id|id| |id status]; cbn [handler].
  - destruct (addTask_step w) as [_ [task [_ Hd]]].
    destruct (whitespaceOnly _); unfold document in Hd; injection Hd as _ _ ->; exact H.
  - destruct (addProject_step w) as [_ [project [_ Hd]]].
    destruct (whitespaceOnly _); unfold document in Hd; injection Hd as _ _ ->; exact H.
  - destruct (find (hasId id) (tasks w)) as [t|] eqn:F.
    + pose proof (softDeleteTask_present id w F) as Hd.
      apply (f_equal snd) in Hd. unfold document in Hd. cbn [snd] in Hd.
      rewrite Hd. apply firstn_le_length.
    + unfold exec. now rewrite (softDeleteTask_absent id w F).
  - destruct (find (trashedAs id) (deletedTasks w)) as [d|] eqn:F.
    + pose proof (restoreTask_present id w F) as Hd.
      unfold document in Hd. injection Hd as _ _ ->.
      etransitivity; [apply filter_length_le|exact H].
    + unfold exec. now rewrite (restoreTask_absent id w F).
  - pose proof (permanentDeleteTask_document id w) as Hd.
    unfold document in Hd. injection Hd as _ _ ->.
    etransitivity; [apply filter_length_le|exact H].
  - pose proof (emptyTrash_document w) as Hd.
    unfold document in Hd. injection Hd as _ _ ->. cbn. lia.
  - pose proof (updateTaskStatus_document id status w) as Hd.
    unfold document in Hd. injection Hd as _ _ ->. exact H.
Qed.

(** X7: a trash of at most [MAX_DELETED] entries stays so through any run
    of button presses: adding, soft-deleting, restoring, purging, emptying
    and moving between columns, in any order and at any pace. *)
Theorem trash_bounded_under_all_actions (l : list (N * Action)) (w : World) :
  (List.length (deletedTasks w) <= MAX_DELETED)%nat ->
  (List.length (deletedTasks (run (actions l) w)) <= MAX_DELETED)%nat.
Proof.
  revert w. induction l as [|[dt a] l IH]; intros w H; [exact H|].
  cbn [actions map run fst snd]. fold (actions l).
  apply IH, handler_trash_bound. now rewrite elapse_deletedTasks.
Qed.

Lemma trash_bounded_under_all_actions_witness :
  (List.length (deletedTasks (run (actions someEdits) synced)) <= MAX_DELETED)%nat.
Proof. apply trash_bounded_under_all_actions. unfold MAX_DELETED. cbn. lia. Defined.

(** X8: [updateTaskStatus] keeps the tasks' ids and order, gives every task
    with the id the new status and leaves the others, the projects and the
    trash as they are; doing it twice is doing it once. *)
Theorem updateTaskStatus_only_sets_status (id : string) (status : TaskStatus) (w : World) :
  map Task.id (tasks (exec (updateTaskStatus id status) w)) = map Task.id (tasks w)
  /\ (forall t, In t (tasks w) -> Task.id t <> id ->
                In t (tasks (exec (updateTaskStatus id status) w)))
  /\ (forall t, In t (tasks (exec (updateTaskStatus id status) w)) -> Task.id t = id ->
                Task.status t = status)
  /\ projects (exec (updateTaskStatus id status) w) = projects w
  /\ deletedTasks (exec (updateTaskStatus id status) w) = deletedTasks w
  /\ document (exec (updateTaskStatus id status) (exec (updateTaskStatus id status) w))
     = document (exec (updateTaskStatus id status) w).
Proof.
  pose proof (updateTaskStatus_document id status w) as H.
  pose proof (updateTaskStatus_document id status (exec (updateTaskStatus id status) w))
    as H2.
  unfold document in H. injection H as Ht Hp Hd.
  repeat apply conj; try assumption.
  - rewrite Ht, map_map. apply map_ext. intros t. now destruct (hasId id t).
  - intros t Hin Hne. rewrite Ht. apply in_map_iff. exists t. split; [|exact Hin].
    unfold hasId. apply String.eqb_neq in Hne. now rewrite Hne.
  - intros t Hin Hid. rewrite Ht in Hin. apply in_map_iff in Hin.
    destruct Hin as [t0 [E _]]. destruct (hasId id t0) eqn:F.
    + now subst t.
    + subst t. unfold hasId in F. apply String.eqb_neq in F. contradiction.
  - rewrite H2. unfold document. rewrite Ht, Hp, Hd. f_equal. f_equal.
    rewrite map_map. apply map_ext. intros t. unfold hasId.
    destruct (String.eqb (Task.id t) id) eqn:F; cbn; now rewrite F.
Qed.

(** X9: [addProject] on a blank name leaves the whole world as it is and
    returns; on any other name it puts one new project in front of the
    projects, which stay as they were, as do tasks and trash.  The id of
    the new project is the decimal form of the clock reading, new among ids
    that stand for no number or for an earlier reading; its creation date
    is the UTC calendar day of the clock reading, written [YYYY-MM-DD]; its
    eight other fields are those of the form. *)
Theorem addProject_creates_or_refuses (w : World) :
  if whitespaceOnly (NewProject.name (newProject w))
  then addProject w = (Returned tt, w)
  else exists project,
      projects (exec addProject w) = project :: projects w
      /\ Project.id project = Js.toString (clock w)
      /\ readNumber (Project.id project) = Some (clock w)
      /\ ((forall p n, In p (projects w) -> readNumber (Project.id p) = Some n ->
                       n < clock w) ->
          ~ In (Project.id project) (map Project.id (projects w)))
      /\ Project.createdAt project = Js.isoDate (clock w)
      /\ (clock w < year10000 ->
          exists y m d,
            Project.createdAt project = dateText y m d
            /\ validDate y m d
            /\ dayNumber y m d = utcDay (clock w))
      /\ Project.name project = NewProject.name (newProject w)
      /\ Project.description project = NewProject.description (newProject w)
      /\ Project.url project = NewProject.url (newProject w)
      /\ Project.status project = NewProject.status (newProject w)
      /\ Project.category project = NewProject.category (newProject w)
      /\ Project.techStack project = NewProject.techStack (newProject w)
      /\ Project.owner project = NewProject.owner (newProject w)
      /\ Project.designScore project = NewProject.designScore (newProject w)
      /\ tasks (exec addProject w) = tasks w
      /\ deletedTasks (exec addProject w) = deletedTasks w.
Proof.
  unfold exec, addProject, bind, get.
  rewrite trim_truthy.
  destruct (whitespaceOnly (NewProject.name (newProject w))); cbn.
  - reflexivity.
  - exists (Project.mk (Js.toString (clock w))
                       (NewProject.name (newProject w)) (NewProject.description (newProject w))
                       (NewProject.url (newProject w)) (NewProject.status (newProject w))
                       (NewProject.category (newProject w))
                       (NewProject.techStack (newProject w))
                       (NewProject.owner (newProject w))
                       (NewProject.designScore (newProject w))
                       (Js.isoDate (clock w))).
    cbn [Project.id Project.createdAt].
    split; [on_store w; on_world w; reflexivity|].
    split; [reflexivity|].
    split; [apply readNumber_toString|].
    split; [apply clock_id_fresh|].
    split; [reflexivity|].
    split; [apply isoDate_calendar|].
    on_store w; on_world w; repeat apply conj; reflexivity.
Qed.

Lemma addProject_creates_or_refuses_witness :
  exists project,
    projects (exec addProject projectFormFilled) = project :: projects projectFormFilled
    /\ Project.id project = "1770384896789"
    /\ Project.createdAt project = "2026-02-06"
    /\ Project.url project = "https://intranet.example"
    /\ ~ In (Project.id project) (map Project.id (projects projectFormFilled)).
Proof.
  pose proof (addProject_creates_or_refuses projectFormFilled) as H.
  change (whitespaceOnly (NewProject.name (newProject projectFormFilled))) with false in H.
  cbv iota in H.
  destruct H as (project & Ep & Eid & _ & Hfresh & Ec & _ & _ & _ & Eu & _).
  exists project. repeat apply conj.
  - exact Ep.
  - rewrite Eid. vm_compute. reflexivity.
  - rewrite Ec. vm_compute. reflexivity.
  - rewrite Eu. reflexivity.
  - apply Hfresh. intros p n Hin Hn. vm_compute in Hin.
    repeat (destruct Hin as [<-|Hin];
            [vm_compute in Hn; injection Hn as <-; reflexivity|]).
    destruct Hin.
Defined.

End MoreHandlers.

(** ** Projects: update and delete *)

Section Projects.
Import ProjectManager.

Lemma persistProjects_document (r : World) (p : list Project.t) (w : World) :
  document (exec (persistProjects r p) w) = (tasks w, p, deletedTasks w).
Proof.
  unfold exec, persistProjects, bind, document.
  on_store w; on_world w; reflexivity.
Qed.

Lemma persistTasks_document (r : World) (t : list Task.t)
      (d : option (list DeletedTask.t)) (w : World) :
  document (exec (persistTasks r t d) w) = (t, projects w, Js.arr_or d (deletedTasks w)).
Proof.
  unfold exec, persistTasks, bind, document.
  destruct d; on_store w; on_world w; reflexivity.
Qed.

Lemma deleteProject_world (id : string) (s : Screen) :
  world (snd (deleteProject id s))
  = exec (persistProjects (world s)
            (filter (fun p => negb (String.eqb (Project.id p) id)) (projects (world s))))
         (world s).
Proof.
  unfold deleteProject, andThen, inWorld, exec, setSelectedProject.
  destruct (persistProjects (world s) _ (world s)) as [[a|e] w']; reflexivity.
Qed.

Lemma find_in_filter {A} (p q : A -> bool) (l : list A) :
  (forall x, p x = true -> q x = true) ->
  find p (filter q l) = find p l.
Proof.
  intros H. induction l as [|x l IH]; cbn; [reflexivity|].
  destruct (q x) eqn:Q; cbn.
  - now rewrite IH.
  - destruct (p x) eqn:P; [|exact IH]. apply H in P. congruence.
Qed.

(** X10: [deleteProject] removes the projects with the given id and nothing
    else: tasks and trash are untouched, also the tasks that point to the
    project.  Such a task's badge now reads "Unknown"; the badge of a task
    that points elsewhere is what it was. *)
Theorem deleteProject_does_not_cascade (id : string) (s : Screen) :
  tasks (world (snd (deleteProject id s))) = tasks (world s)
  /\ deletedTasks (world (snd (deleteProject id s))) = deletedTasks (world s)
  /\ (forall p, In p (projects (world (snd (deleteProject id s))))
                <-> In p (projects (world s)) /\ Project.id p <> id)
  /\ (forall task, Task.projectId task = Some id -> id <> "" ->
                   projectBadge (projects (world (snd (deleteProject id s)))) task
                   = Some "Unknown")
  /\ (forall task other, Task.projectId task = Some other -> other <> id ->
                         projectBadge (projects (world (snd (deleteProject id s)))) task
                         = projectBadge (projects (world s)) task).
Proof.
  rewrite deleteProject_world.
  pose proof (persistProjects_document (world s)
                (filter (fun p => negb (String.eqb (Project.id p) id)) (projects (world s)))
                (world s)) as H.
  unfold document in H. injection H as Ht Hp Hd.
  rewrite Ht, Hp, Hd. repeat apply conj; try reflexivity.
  - intros p. rewrite filter_In, negb_true_iff, String.eqb_neq. reflexivity.
  - intros task Hid Hne. unfold projectBadge. rewrite Hid.
    destruct id as [|c id']; [congruence|]. cbn [Js.truthy_opt Js.truthy].
    rewrite find_absent; [reflexivity|].
    intros p Hin. apply filter_In in Hin. destruct Hin as [_ Hin].
    now apply negb_true_iff in Hin.
  - intros task other Hid Hne. unfold projectBadge. rewrite Hid.
    rewrite find_in_filter; [reflexivity|].
    intros p Hp'. apply String.eqb_eq in Hp'. apply negb_true_iff, String.eqb_neq.
    congruence.
Qed.

Lemma deleteProject_does_not_cascade_witness :
  tasks (world (snd (deleteProject "2" (screenOf seeded)))) = tasks seeded
  /\ projectBadge (projects (world (snd (deleteProject "2" (screenOf seeded)))))
                  seedTask1 = Some "Unknown"
  /\ projectBadge (projects seeded) seedTask1 = Some "Project Manager".
Proof.
  destruct (deleteProject_does_not_cascade "2" (screenOf seeded)) as (A & _ & _ & B & _).
  repeat apply conj.
  - exact A.
  - apply B; [reflexivity|discriminate].
  - reflexivity.
Defined.

Lemma updateTask_world (updated : Task.t) (s : Screen) :
  world (snd (updateTask updated s))
  = exec (bind (persistTasks (world s)
                  (map (fun t => if String.eqb (Task.id t) (Task.id updated)
                                 then updated else t)
                       (tasks (world s)))
                  None)
               (fun _ => setSelectedTask None))
         (world s).
Proof.
  unfold updateTask, andThen, inWorld, exec, setEditingTask, bind.
  destruct (persistTasks (world s) _ None (world s)) as [[a|e] w']; reflexivity.
Qed.

Lemma setSelectedTask_after_document (m : M unit) (w : World) :
  document (exec (bind m (fun _ => setSelectedTask None)) w) = document (exec m w).
Proof.
  unfold exec, bind. destruct (m w) as [[a|e] w']; [|reflexivity].
  now destruct w'.
Qed.

(** X11: [updateTask] puts the edited task in the place of every task with
    its id and changes nothing else: ids and order of the tasks, the tasks
    with another id, projects and trash stay; when no task has the id the
    document is unchanged. *)
Theorem updateTask_replaces_by_id (updated : Task.t) (s : Screen) :
  map Task.id (tasks (world (snd (updateTask updated s)))) = map Task.id (tasks (world s))
  /\ (forall t, In t (tasks (world (snd (updateTask updated s)))) ->
                Task.id t = Task.id updated -> t = updated)
  /\ (forall t, In t (tasks (world s)) -> Task.id t <> Task.id updated ->
                In t (tasks (world (snd (updateTask updated s)))))
  /\ projects (world (snd (updateTask updated s))) = projects (world s)
  /\ deletedTasks (world (snd (updateTask updated s))) = deletedTasks (world s)
  /\ ((forall t, In t (tasks (world s)) -> Task.id t <> Task.id updated) ->
      document (world (snd (updateTask updated s))) = document (world s)).
Proof.
  rewrite updateTask_world.
  pose proof (setSelectedTask_after_document
                (persistTasks (world s)
                   (map (fun t => if String.eqb (Task.id t) (Task.id updated)
                                  then updated else t) (tasks (world s))) None)
                (world s)) as H.
  rewrite persistTasks_document in H. cbn [Js.arr_or] in H.
  unfold document in H. injection H as Ht Hp Hd.
  unfold document. rewrite Ht, Hp, Hd.
  repeat apply conj; try reflexivity.
  - rewrite map_map. apply map_ext_in. intros t _.
    destruct (String.eqb_spec (Task.id t) (Task.id updated)); congruence.
  - intros t Hin Hid. apply in_map_iff in Hin. destruct Hin as [t0 [E _]].
    destruct (String.eqb_spec (Task.id t0) (Task.id updated)); congruence.
  - intros t Hin Hne. apply in_map_iff. exists t. split; [|exact Hin].
    apply String.eqb_neq in Hne. now rewrite Hne.
  - intros Habsent. f_equal. f_equal.
    rewrite <- (map_id (tasks (world s))) at 2. apply map_ext_in.
    intros t Hin. apply Habsent in Hin. apply String.eqb_neq in Hin. now rewrite Hin.
Qed.

Lemma updateProject_world (s : Screen) (edited : Project.t) :
  editingProject s = Some edited ->
  world (snd (updateProject s))
  = exec (persistProjects (world s)
            (map (fun p => if String.eqb (Project.id p) (Project.id edited)
                           then edited else p)
                 (projects (world s))))
         (world s).
Proof.
  intros E. unfold updateProject, andThen, inWorld, exec, setEditingProject. rewrite E.
  destruct (persistProjects (world s) _ (world s)) as [[a|e] w']; reflexivity.
Qed.

(** X12: [updateProject] does nothing when no project is being edited;
    otherwise it puts the edited project in the place of every project with
    its id, keeps ids and order of the projects, and leaves tasks and trash
    alone. *)
Theorem updateProject_replaces_by_id (s : Screen) :
  match editingProject s with
  | None => updateProject s = (Returned tt, s)
  | Some edited =>
      map Project.id (projects (world (snd (updateProject s))))
      = map Project.id (projects (world s))
      /\ (forall p, In p (projects (world (snd (updateProject s)))) ->
                    Project.id p = Project.id edited -> p = edited)
      /\ (forall p, In p (projects (world s)) -> Project.id p <> Project.id edited ->
                    In p (projects (world (snd (updateProject s)))))
      /\ tasks (world (snd (updateProject s))) = tasks (world s)
      /\ deletedTasks (world (snd (updateProject s))) = deletedTasks (world s)
  end.
Proof.
  destruct (editingProject s) as [edited|] eqn:E.
  - rewrite (updateProject_world s E).
    pose proof (persistProjects_document (world s)
                  (map (fun p => if String.eqb (Project.id p) (Project.id edited)
                                 then edited else p) (projects (world s)))
                  (world s)) as H.
    unfold document in H. injection H as Ht Hp Hd. rewrite Ht, Hp, Hd.
    repeat apply conj; try reflexivity.
    + rewrite map_map. apply map_ext_in. intros p _.
      destruct (String.eqb_spec (Project.id p) (Project.id edited)); congruence.
    + intros p Hin Hid. apply in_map_iff in Hin. destruct Hin as [p0 [E0 _]].
      destruct (String.eqb_spec (Project.id p0) (Project.id edited)); congruence.
    + intros p Hin Hne. apply in_map_iff. exists p. split; [|exact Hin].
      apply String.eqb_neq in Hne. now rewrite Hne.
  - unfold updateProject. now rewrite E.
Qed.

End Projects.

(** ** The cache, key by key *)

Section CacheKeys.
Import ProjectManager.

(** X13: in a browser whose store has room, what [saveLocal] writes under a
    key is what [loadLocal] reads back from it, whatever the default; the
    other keys read as before, and the document is not touched. *)
Theorem cache_round_trip {T} (key : Key T) (data defaults : T) (w : World) :
  hasWindow w = true -> storageFull w = false ->
  outcome (loadLocal key defaults) (exec (saveLocal key data) w) = Returned data
  /\ document (exec (saveLocal key data) w) = document w
  /\ (forall T' (key' : Key T') (defaults' : T'),
         keyName key' <> keyName key ->
         outcome (loadLocal key' defaults') (exec (saveLocal key data) w)
         = outcome (loadLocal key' defaults') w).
Proof.
  intros Hwin Hfull. unfold exec. rewrite saveLocal_writes by assumption.
  unfold outcome, loadLocal, bind, get, document.
  destruct w as [? ? ? ? ? ? ? ? ? ? ? ? ? ? ? [sp st sd] ? ? ? ?]; cbn in *; subst.
  repeat apply conj.
  - rewrite getItem_setItem. reflexivity.
  - reflexivity.
  - intros T' key' defaults' Hne.
    destruct key, key'; cbn in *; try congruence; destruct sp, st, sd; reflexivity.
Qed.

Lemma cache_round_trip_witness :
  outcome (loadLocal STORAGE_KEY_TASKS DEFAULT_TASKS)
          (exec (saveLocal STORAGE_KEY_TASKS [cachedA]) seeded) = Returned [cachedA]
  /\ outcome (loadLocal STORAGE_KEY_PROJECTS DEFAULT_PROJECTS)
             (exec (saveLocal STORAGE_KEY_TASKS [cachedA]) seeded)
     = outcome (loadLocal STORAGE_KEY_PROJECTS DEFAULT_PROJECTS) seeded.
Proof.
  destruct (@cache_round_trip _ STORAGE_KEY_TASKS [cachedA] DEFAULT_TASKS seeded
              eq_refl eq_refl) as (A & _ & C).
  split; [exact A|]. apply C. discriminate.
Defined.

(** [loadLocal] never throws and never changes anything; it returns
    the default when there is no window, when the key is missing and when
    the text under the key does not parse. *)
Theorem loadLocal_defaults {T} (key : Key T) (defaults : T) (w : World) :
  (exists v, loadLocal key defaults w = (Returned v, w))
  /\ (hasWindow w = false \/ getItem key (localStorage w) = Missing
      \/ getItem key (localStorage w) = Corrupt ->
      loadLocal key defaults w = (Returned defaults, w)).
Proof.
  unfold loadLocal, bind, get. split.
  - destruct (hasWindow w), (getItem key (localStorage w)); eexists; reflexivity.
  - intros [H|[H|H]]; rewrite H; [reflexivity| |]; destruct (hasWindow w); reflexivity.
Qed.

Lemma loadLocal_defaults_witness :
  loadLocal STORAGE_KEY_TASKS DEFAULT_TASKS offlineMount = (Returned DEFAULT_TASKS, offlineMount).
Proof.
  apply (proj2 (loadLocal_defaults STORAGE_KEY_TASKS DEFAULT_TASKS offlineMount)).
  right; right. reflexivity.
Defined.

End CacheKeys.

(** ** What the views compute *)

Section Views.
Import ProjectManager.

Lemma column_push (g : Grouped.t) (t : Task.t) (status : TaskStatus) :
  column (push g t) status
  = (column g status ++ if TaskStatus_eqb (Task.status t) status then [t] else [])%list.
Proof.
  unfold push. destruct (Task.status t), status; cbn; now rewrite ?List.app_nil_r.
Qed.

Lemma column_fold_push (l : list Task.t) (g : Grouped.t) (status : TaskStatus) :
  column (fold_left push l g) status
  = (column g status ++ filter (fun t => TaskStatus_eqb (Task.status t) status) l)%list.
Proof.
  revert g. induction l as [|t l IH]; intros g; cbn [fold_left filter].
  - now rewrite List.app_nil_r.
  - rewrite IH, column_push, <- List.app_assoc.
    now destruct (TaskStatus_eqb (Task.status t) status).
Qed.

(** X14: [tasksByStatus] is a partition of the tasks it is given: each
    column holds exactly the tasks of its status, in their order in the
    list, so every task is in one column and the five columns together are
    as many as the list. *)
Theorem tasksByStatus_partitions (l : list Task.t) :
  (forall status,
      column (tasksByStatus l) status
      = filter (fun t => TaskStatus_eqb (Task.status t) status) l)
  /\ (forall t status, In t (column (tasksByStatus l) status)
                       <-> In t l /\ Task.status t = status)
  /\ (List.length (Grouped.backlog (tasksByStatus l))
      + List.length (Grouped.todo (tasksByStatus l))
      + List.length (Grouped.in_progress (tasksByStatus l))
      + List.length (Grouped.review (tasksByStatus l))
      + List.length (Grouped.done (tasksByStatus l)))%nat
     = List.length l.
Proof.
  assert (Hcol : forall status,
             column (tasksByStatus l) status
             = filter (fun t => TaskStatus_eqb (Task.status t) status) l).
  { intros status. unfold tasksByStatus. rewrite column_fold_push. now destruct status. }
  split; [exact Hcol|]. split.
  - intros t status. rewrite Hcol, filter_In.
    split; intros [A B]; split; try assumption.
    + destruct (Task.status t), status; cbn in B; congruence.
    + rewrite B. now destruct status.
  - change (Grouped.backlog (tasksByStatus l)) with (column (tasksByStatus l) backlog).
    change (Grouped.todo (tasksByStatus l)) with (column (tasksByStatus l) todo).
    change (Grouped.in_progress (tasksByStatus l))
      with (column (tasksByStatus l) in_progress).
    change (Grouped.review (tasksByStatus l)) with (column (tasksByStatus l) review).
    change (Grouped.done (tasksByStatus l)) with (column (tasksByStatus l) done).
    rewrite !Hcol. clear Hcol.
    induction l as [|t l IH]; [reflexivity|].
    cbn [filter List.length]. destruct (Task.status t); cbn [TaskStatus_eqb List.length]; lia.
Qed.

Lemma lowerChar_idempotent (c : ascii) : Js.lowerChar (Js.lowerChar c) = Js.lowerChar c.
Proof. destruct c as [[] [] [] [] [] [] [] []]; reflexivity. Qed.

Lemma toLowerCase_idempotent (s : string) :
  Js.toLowerCase (Js.toLowerCase s) = Js.toLowerCase s.
Proof.
  induction s as [|c s IH]; cbn; [reflexivity|]. now rewrite lowerChar_idempotent, IH.
Qed.

Lemma toLowerCase_truthy (s : string) : Js.truthy (Js.toLowerCase s) = Js.truthy s.
Proof. now destruct s. Qed.

Lemma startsWith_self (s : string) : Js.startsWith s s = true.
Proof.
  induction s as [|c s IH]; cbn; [reflexivity|]. now rewrite Ascii.eqb_refl, IH.
Qed.

Lemma includes_self (s : string) : Js.includes s s = true.
Proof. destruct s; cbn; [reflexivity|]. now rewrite Ascii.eqb_refl, startsWith_self. Qed.

(** X15: the task search shows every task while the box is empty, never
    shows a task that is not in the list, does not care about the case of
    what is typed, and finds a task by its own title. *)
Theorem filteredTasks_search (l : list Task.t) :
  filteredTasks l "" = l
  /\ (forall q t, In t (filteredTasks l q) -> In t l)
  /\ (forall q, filteredTasks l (Js.toLowerCase q) = filteredTasks l q)
  /\ (forall t, In t l -> In t (filteredTasks l (Task.title t))).
Proof.
  repeat apply conj.
  - reflexivity.
  - intros q t. unfold filteredTasks. destruct (negb (Js.truthy q)); [trivial|].
    intros H. now apply filter_In in H.
  - intros q. unfold filteredTasks.
    now rewrite toLowerCase_truthy, toLowerCase_idempotent.
  - intros t Hin. unfold filteredTasks. destruct (negb (Js.truthy (Task.title t))); [exact Hin|].
    apply filter_In. split; [exact Hin|]. now rewrite includes_self.
Qed.

(** X16: with an empty search box and the status filter on "all" every
    project is listed; whatever is listed is one of the projects and has the
    status the filter asks for. *)
Theorem filteredProjects_filters (l : list Project.t) :
  filteredProjects l "" None = l
  /\ (forall q status p, In p (filteredProjects l q (Some status)) ->
                         In p l /\ Project.status p = status)
  /\ (forall q p, In p (filteredProjects l q None) -> In p l)
  /\ (forall p, In p l -> In p (filteredProjects l (Project.name p) None)).
Proof.
  repeat apply conj.
  - unfold filteredProjects. cbn. apply filter_keeps_all. reflexivity.
  - intros q status p H. unfold filteredProjects in H. apply filter_In in H.
    destruct H as [Hin H]. split; [exact Hin|].
    apply andb_true_iff in H. destruct H as [_ H].
    destruct (Project.status p), status; cbn in H; congruence.
  - intros q p H. unfold filteredProjects in H. now apply filter_In in H.
  - intros p Hin. unfold filteredProjects. apply filter_In. split; [exact Hin|].
    rewrite includes_self. now rewrite orb_true_r.
Qed.

End Views.

(** ** The data route, case by case *)

Section RouteCases.
Variables T P D : Type.

(** X17: GET always answers, and only a stored value makes it answer with
    data: without a database the source is "no-db"; a select that reports an
    error reads as "empty", like a missing row; text that does not parse
    reads as "error"; and whenever the source is not "supabase" both lists
    are empty and there is no date. *)
Theorem GET_answers (supabase : option (DataRoute.Db T P)) :
  (supabase = None -> DataRoute.GET supabase = DataRoute.mkGetResponse [] [] None "no-db")
  /\ (forall db e, supabase = Some db -> DataRoute.selectError db = Some e ->
                   DataRoute.GET supabase = DataRoute.mkGetResponse [] [] None "empty")
  /\ (forall db, supabase = Some db -> DataRoute.selectError db = None ->
                 DataRoute.row db = None ->
                 DataRoute.GET supabase = DataRoute.mkGetResponse [] [] None "empty")
  /\ (forall db, supabase = Some db -> DataRoute.selectError db = None ->
                 DataRoute.row db = Some (DataRoute.CText None) ->
                 DataRoute.GET supabase = DataRoute.mkGetResponse [] [] None "error")
  /\ (DataRoute.g_source (DataRoute.GET supabase) <> "supabase" ->
      DataRoute.g_tasks (DataRoute.GET supabase) = []
      /\ DataRoute.g_projects (DataRoute.GET supabase) = []
      /\ DataRoute.g_lastUpdated (DataRoute.GET supabase) = None).
Proof.
  repeat apply conj.
  - intros ->. reflexivity.
  - intros db e -> H. cbn. now rewrite H.
  - intros db -> H1 H2. cbn. now rewrite H1, H2.
  - intros db -> H1 H2. cbn. now rewrite H1, H2.
  - destruct supabase as [[r se ue]|]; cbn; [|auto].
    destruct se; cbn; [auto|].
    destruct r as [[|v|[v|]]|]; cbn; auto; intros H; congruence.
Qed.

(** X18: a POST succeeds exactly when it answers 200, and one that fails
    (no JSON body, no database, an upsert error) leaves the store as it
    was. *)
Theorem failed_POST_changes_nothing (now : N) (body : option (DataRoute.Body T P D))
        (supabase : option (DataRoute.Db T P)) :
  (DataRoute.p_success (fst (DataRoute.POST now body supabase)) = true
   <-> DataRoute.p_status (fst (DataRoute.POST now body supabase)) = 200)
  /\ (DataRoute.p_success (fst (DataRoute.POST now body supabase)) = false ->
      snd (DataRoute.POST now body supabase) = supabase
      /\ DataRoute.p_status (fst (DataRoute.POST now body supabase)) = 500
      /\ DataRoute.p_error (fst (DataRoute.POST now body supabase)) <> None)
  /\ (body = None \/ supabase = None
      \/ (exists db e, supabase = Some db /\ DataRoute.upsertError db = Some e) ->
      DataRoute.p_success (fst (DataRoute.POST now body supabase)) = false).
Proof.
  destruct body as [b|], supabase as [[r se [e|]]|]; cbn;
    repeat apply conj; try tauto; try (split; congruence); try discriminate;
    try (intros _; repeat apply conj; [reflexivity|reflexivity|discriminate]);
    intros [H|[H|[db [e' [H1 H2]]]]]; try congruence.
  injection H1 as <-. cbn in H2. discriminate.
Qed.

(** A successful POST replaces the stored document as a whole: the GET
    that follows answers with the posted tasks and projects, an empty list
    for a list the body did not carry, and the date of the POST, whatever
    was stored before. *)
Theorem POST_overwrites_whole_document (now : N) (body : DataRoute.Body T P D)
        (db : DataRoute.Db T P) :
  DataRoute.selectError db = None ->
  DataRoute.upsertError db = None ->
  DataRoute.p_success (fst (DataRoute.POST now (Some body) (Some db))) = true
  /\ DataRoute.GET (snd (DataRoute.POST now (Some body) (Some db)))
     = DataRoute.mkGetResponse (Js.arr_or (DataRoute.b_tasks body) [])
                               (Js.arr_or (DataRoute.b_projects body) [])
                               (Some (Js.toISOString now)) "supabase".
Proof.
  intros Hs Hu. destruct db as [r se ue]. cbn in *. subst. cbn. split; reflexivity.
Qed.

End RouteCases.

(** ** Client and route together *)

Section ClientAndRoute.
Import ProjectManager.

Lemma POST_overwrites_whole_document_witness :
  DataRoute.p_success (fst (DataRoute.POST 1770384900000 (Some tasksOnly) (Some usedDb)))
    = true
  /\ DataRoute.GET (snd (DataRoute.POST 1770384900000 (Some tasksOnly) (Some usedDb)))
     = DataRoute.mkGetResponse [remoteB] [] (Some "2026-02-06T13:35:00.000Z") "supabase".
Proof.
  destruct (@POST_overwrites_whole_document Task.t Project.t DeletedTask.t 1770384900000
              tasksOnly usedDb eq_refl eq_refl) as [A B].
  split; [exact A|]. etransitivity; [exact B|]. vm_compute. reflexivity.
Defined.

(** X19: against the repository's own route the mount never throws when the
    cache can be written: whatever the store holds or reports, [load] ends
    with status [saved], showing the stored tasks where there are any and the
    cached ones otherwise, and likewise the projects. *)
Theorem load_from_route_never_throws (supabase : option (DataRoute.Db Task.t Project.t))
        (rest : list FetchOutcome) (w : World) :
  network w = wireGet (DataRoute.GET supabase) :: rest ->
  hasWindow w = false \/ storageFull w = false ->
  outcome load w = Returned tt
  /\ syncStatus (exec load w) = saved
  /\ isInitialLoad (exec load w) = false
  /\ tasks (exec load w)
     = pick (DataRoute.g_tasks (DataRoute.GET supabase))
            (cached STORAGE_KEY_TASKS DEFAULT_TASKS w)
  /\ projects (exec load w)
     = pick (DataRoute.g_projects (DataRoute.GET supabase))
            (cached STORAGE_KEY_PROJECTS DEFAULT_PROJECTS w).
Proof.
  intros Hnet Hw. unfold wireGet in Hnet.
  destruct (usable (wireGet (DataRoute.GET supabase))) eqn:U.
  - unfold outcome, exec, load, bind.
    repeat (rewrite loadLocal_cached; cbv iota beta).
    generalize (cached STORAGE_KEY_TASKS DEFAULT_TASKS w)
               (cached STORAGE_KEY_PROJECTS DEFAULT_PROJECTS w)
               (cached STORAGE_KEY_DELETED [] w).
    intros lt lp ld. unfold usable, wireGet in U.
    remember (DataRoute.g_tasks (DataRoute.GET supabase)) as rt eqn:Ert.
    remember (DataRoute.g_projects (DataRoute.GET supabase)) as rp eqn:Erp.
    remember (DataRoute.g_source (DataRoute.GET supabase)) as src eqn:Esrc.
    clear Ert Erp Esrc.
    destruct w as [? ? ? ? ? ? ? ? ? ? ? ? ? hw sf ? ? ? net ?]; cbn in Hnet, Hw; subst net.
    unfold loadFromApi, try_catch, fetch, json, bind, get.
    cbn [Data.tasks Data.projects] in U.
    cbn -[source_is_supabase Js.nonEmpty]. rewrite U.
    unfold pick.
    destruct rt as [|b rt], rp as [|q rp], hw, sf; cbn;
      try (destruct Hw; discriminate); repeat apply conj; reflexivity.
  - assert (Hno : noRemoteData w).
    { intros o rest' E. rewrite Hnet in E. injection E as <- _. exact U. }
    destruct (@load_without_remote_data w Hno) as (A & Bt & Bp & _ & _ & _ & S & I).
    assert (Hempty : DataRoute.g_tasks (DataRoute.GET supabase) = []
                     /\ DataRoute.g_projects (DataRoute.GET supabase) = []).
    { unfold usable, wireGet in U.
      destruct supabase as [[r se ue]|]; cbn in U |- *; [|auto].
      destruct se; cbn in U |- *; [auto|].
      destruct r as [[|v|[v|]]|]; cbn in U |- *; auto;
        destruct (Js.arr_or (DataRoute.v_tasks v) []),
                 (Js.arr_or (DataRoute.v_projects v) []); cbn in U; auto; discriminate. }
    destruct Hempty as [Et Ep]. rewrite Et, Ep.
    repeat apply conj; assumption.
Qed.

Lemma load_from_route_never_throws_witness :
  outcome load reloaded = Returned tt
  /\ syncStatus (exec load reloaded) = saved
  /\ tasks (exec load reloaded) = [remoteB]
  /\ projects (exec load reloaded) = [remoteP].
Proof.
  destruct (@load_from_route_never_throws
              (snd (DataRoute.POST 1770384900000 (Some withTrash) (Some emptyDb))) []
              reloaded eq_refl (or_intror eq_refl)) as (A & B & _ & C & E).
  repeat apply conj; assumption.
Defined.

(** X20: a mount that finds no usable remote data seeds the store: the one
    POST it sends carries the cached tasks, projects and trash, and once the
    route has stored it a GET answers with those tasks and projects; the
    next mount takes that answer for remote data exactly when one of the two
    lists has items. *)
Theorem seeding_fills_the_store (w : World) (db : DataRoute.Db Task.t Project.t) (now : N) :
  noRemoteData w ->
  DataRoute.selectError db = None ->
  DataRoute.upsertError db = None ->
  exists body,
    posts (requests (exec load w)) = (posts (requests w) ++ [body])%list
    /\ DataRoute.g_tasks (DataRoute.GET (snd (DataRoute.POST now (Some body) (Some db))))
       = cached STORAGE_KEY_TASKS DEFAULT_TASKS w
    /\ DataRoute.g_projects (DataRoute.GET (snd (DataRoute.POST now (Some body) (Some db))))
       = cached STORAGE_KEY_PROJECTS DEFAULT_PROJECTS w
    /\ usable (wireGet (DataRoute.GET (snd (DataRoute.POST now (Some body) (Some db)))))
       = Js.hasItems (cached STORAGE_KEY_TASKS DEFAULT_TASKS w)
         || Js.hasItems (cached STORAGE_KEY_PROJECTS DEFAULT_PROJECTS w).
Proof.
  intros Hno Hs Hu.
  destruct (@load_without_remote_data w Hno) as (_ & _ & _ & _ & _ & Hp & _).
  eexists. split; [exact Hp|].
  destruct db as [r se ue]. cbn in Hs, Hu. subst.
  generalize (cached STORAGE_KEY_TASKS DEFAULT_TASKS w)
             (cached STORAGE_KEY_PROJECTS DEFAULT_PROJECTS w).
  intros lt lp. cbn. repeat apply conj; reflexivity.
Qed.

Lemma seeding_fills_the_store_witness :
  exists body,
    posts (requests (exec load offlineMount)) = (posts (requests offlineMount) ++ [body])%list
    /\ DataRoute.g_tasks (DataRoute.GET (snd (DataRoute.POST 1770384900000 (Some body)
                                                             (Some emptyDb))))
       = cached STORAGE_KEY_TASKS DEFAULT_TASKS offlineMount
    /\ DataRoute.g_projects (DataRoute.GET (snd (DataRoute.POST 1770384900000 (Some body)
                                                                (Some emptyDb))))
       = cached STORAGE_KEY_PROJECTS DEFAULT_PROJECTS offlineMount
    /\ usable (wireGet (DataRoute.GET (snd (DataRoute.POST 1770384900000 (Some body)
                                                           (Some emptyDb)))))
       = Js.hasItems (cached STORAGE_KEY_TASKS DEFAULT_TASKS offlineMount)
         || Js.hasItems (cached STORAGE_KEY_PROJECTS DEFAULT_PROJECTS offlineMount).
Proof.
  apply seeding_fills_the_store; try reflexivity.
  intros o rest E. injection E as <- _. reflexivity.
Defined.

End ClientAndRoute.

(** ** The task handlers of the page with [completedAt] *)

Section PageTasks.
Import ProjectManagementPage.

Lemma truthy_append (a b : string) : Js.truthy (a ++ b) = Js.truthy a || Js.truthy b.
Proof. destruct a; reflexivity. Qed.

Lemma toISOString_truthy (ms : N) : Js.truthy (Js.toISOString ms) = true.
Proof.
  unfold Js.toISOString. destruct (Js.civil (ms / 86400000)) as [[y m] d].
  rewrite truthy_append, truthy_append. cbn. apply orb_true_r.
Qed.

Lemma find_after_replace {A} (p : A -> bool) (x : A) (l : list A) (found : A) :
  p x = true -> find p l = Some found ->
  find p (map (fun y => if p y then x else y) l) = Some x.
Proof.
  intros Hx. induction l as [|y l IH]; cbn; [discriminate|].
  destruct (p y) eqn:E; cbn.
  - now rewrite Hx.
  - now rewrite E.
Qed.

(** X21: [handleSaveTask] is an upsert by id: afterwards the saved task is
    the one its id finds; the tasks with another id are all still there; a
    task with a new id goes to the front and one with a known id takes the
    place of the old one, ids and order unchanged. *)
Theorem handleSaveTask_upserts (task : Task.t) (prev : list Task.t) :
  find (fun t => String.eqb (Task.id t) (Task.id task)) (handleSaveTask task prev)
  = Some task
  /\ (forall t, In t prev -> Task.id t <> Task.id task ->
                In t (handleSaveTask task prev))
  /\ ((forall t, In t prev -> Task.id t <> Task.id task) ->
      handleSaveTask task prev = task :: prev)
  /\ ((exists t, In t prev /\ Task.id t = Task.id task) ->
      map Task.id (handleSaveTask task prev) = map Task.id prev).
Proof.
  unfold handleSaveTask.
  destruct (find (fun t => String.eqb (Task.id t) (Task.id task)) prev) as [t0|] eqn:F.
  - repeat apply conj.
    + apply (find_after_replace (fun t => String.eqb (Task.id t) (Task.id task)) task prev
               (String.eqb_refl _) F).
    + intros t Hin Hne. apply in_map_iff. exists t. split; [|exact Hin].
      apply String.eqb_neq in Hne. now rewrite Hne.
    + intros Hnone. apply find_some in F. destruct F as [Hin E].
      apply String.eqb_eq in E. now apply Hnone in Hin.
    + intros _. rewrite map_map. apply map_ext. intros t.
      destruct (String.eqb_spec (Task.id t) (Task.id task)); congruence.
  - repeat apply conj.
    + cbn. now rewrite String.eqb_refl.
    + intros t Hin _. now right.
    + reflexivity.
    + intros [t [Hin E]]. pose proof (find_none _ _ F t Hin) as Hf. cbn in Hf.
      rewrite E, String.eqb_refl in Hf. discriminate.
Qed.

(** X22: [handleDeleteTask] does nothing when the user declines; when the
    user confirms, no task with the id is left and the tasks with another id
    stay, in their order.  Saving a task with a new id and deleting it again
    gives the list back. *)
Theorem handleDeleteTask_removes (id : string) (prev : list Task.t) :
  handleDeleteTask false id prev = prev
  /\ (forall t, In t (handleDeleteTask true id prev) <-> In t prev /\ Task.id t <> id)
  /\ ((forall t, In t prev -> Task.id t <> id) -> handleDeleteTask true id prev = prev)
  /\ (forall task, Task.id task = id -> (forall t, In t prev -> Task.id t <> id) ->
                   handleDeleteTask true id (handleSaveTask task prev) = prev).
Proof.
  unfold handleDeleteTask. cbn [negb]. repeat apply conj.
  - reflexivity.
  - intros t. rewrite filter_In, negb_true_iff, String.eqb_neq. reflexivity.
  - intros H. apply filter_keeps_all. intros t Hin.
    apply negb_true_iff, String.eqb_neq. now apply H.
  - intros task Hid Hnew. unfold handleSaveTask.
    rewrite find_absent.
    + cbn. rewrite Hid, String.eqb_refl. cbn.
      apply filter_keeps_all. intros t Hin.
      apply negb_true_iff, String.eqb_neq. now apply Hnew.
    + intros t Hin. apply String.eqb_neq. rewrite Hid. now apply Hnew.
Qed.

(** X23: [handleStatusChange] keeps ids and order and touches only the
    tasks with the id, which get the new status and the time of the change.
    Marking a finished task as done again keeps its completion time, and
    moving it to any other status afterwards clears it. *)
Theorem handleStatusChange_rules (id : string) (status : TaskStatus) (now : N)
        (prev : list Task.t) :
  map Task.id (handleStatusChange id status now prev) = map Task.id prev
  /\ (forall t, In t prev -> Task.id t <> id ->
                In t (handleStatusChange id status now prev))
  /\ (forall t, In t (handleStatusChange id status now prev) -> Task.id t = id ->
                Task.status t = status /\ Task.updatedAt t = Js.toISOString now)
  /\ (forall later,
         map Task.completedAt
             (handleStatusChange id done later (handleStatusChange id done now prev))
         = map Task.completedAt (handleStatusChange id done now prev))
  /\ (forall later, status <> done ->
         forall t, In t (handleStatusChange id status later
                           (handleStatusChange id done now prev)) ->
                   Task.id t = id -> Task.completedAt t = None).
Proof.
  unfold handleStatusChange. repeat apply conj.
  - rewrite map_map. apply map_ext. intros t.
    now destruct (negb (String.eqb (Task.id t) id)).
  - intros t Hin Hne. apply in_map_iff. exists t. split; [|exact Hin].
    apply String.eqb_neq in Hne. now rewrite Hne.
  - intros t Hin Hid. apply in_map_iff in Hin. destruct Hin as [t0 [E _]].
    destruct (String.eqb_spec (Task.id t0) id) as [E0|E0]; cbn in E; subst t.
    + now split.
    + contradiction.
  - intros later. rewrite !map_map. apply map_ext. intros t.
    destruct (String.eqb_spec (Task.id t) id) as [E0|E0]; cbn.
    + rewrite E0, String.eqb_refl. cbn.
      destruct (Task.completedAt t) as [c|]; cbn.
      * destruct (Js.truthy c) eqn:C; cbn; [now rewrite C|].
        now rewrite toISOString_truthy.
      * now rewrite toISOString_truthy.
    + apply String.eqb_neq in E0. now rewrite E0.
  - intros later Hs t Hin Hid. rewrite map_map in Hin. apply in_map_iff in Hin.
    destruct Hin as [t0 [E _]].
    destruct (String.eqb_spec (Task.id t0) id) as [E0|E0]; cbn in E.
    + rewrite E0, String.eqb_refl in E. cbn in E. subst t. cbn.
      destruct status; cbn; try reflexivity. congruence.
    + apply String.eqb_neq in E0. rewrite E0 in E. cbn in E. subst t.
      apply String.eqb_neq in E0. contradiction.
Qed.

(** X24: the task form refuses a blank title.  Otherwise a new task gets a
    generated id, the time of saving as creation and update time, and a
    completion time exactly when it is created as done; an edited task keeps
    its id and creation time and gets a new update time. *)
Theorem handleSubmit_new_and_edit (form : FormData.t) (now : N) (suffix : string) :
  if whitespaceOnly (FormData.title form)
  then forall task, handleSubmit task form now suffix = None
  else (exists t,
           handleSubmit None form now suffix = Some t
           /\ Task.id t = generateId now suffix
           /\ Task.createdAt t = Js.toISOString now
           /\ Task.updatedAt t = Js.toISOString now
           /\ Task.title t = FormData.title form
           /\ Task.status t = FormData.status form
           /\ Task.completedAt t
              = if TaskStatus_eqb (FormData.status form) done
                then Some (Js.toISOString now) else None)
       /\ (forall old, Js.truthy (Task.id old) = true ->
                       Js.truthy (Task.createdAt old) = true ->
           exists t,
             handleSubmit (Some old) form now suffix = Some t
             /\ Task.id t = Task.id old
             /\ Task.createdAt t = Task.createdAt old
             /\ Task.updatedAt t = Js.toISOString now
             /\ Task.status t = FormData.status form).
Proof.
  unfold handleSubmit. rewrite trim_truthy.
  destruct (whitespaceOnly (FormData.title form)); cbn [negb].
  - reflexivity.
  - split.
    + eexists. split; [reflexivity|]. cbn.
      repeat apply conj; try reflexivity.
      now destruct (TaskStatus_eqb (FormData.status form) done).
    + intros old Hid Hcreated. eexists. split; [reflexivity|]. cbn.
      rewrite Hid, Hcreated. repeat apply conj; reflexivity.
Qed.

(** X25: the dashboard's counts add up: the five status counts to the
    number of tasks, the four priority counts to the number of tasks not
    done, and the six assignee counts to at most that. *)
Theorem dashboard_counts_add_up (tasks : list Task.t) :
  (byStatus tasks backlog + byStatus tasks todo + byStatus tasks in_progress
   + byStatus tasks review + byStatus tasks done)%nat = List.length tasks
  /\ (byPriority tasks low + byPriority tasks medium + byPriority tasks high
      + byPriority tasks urgent)%nat
     = (List.length tasks - byStatus tasks done)%nat
  /\ (byAssignee tasks Jarvis + byAssignee tasks Bob + byAssignee tasks Justin
      + byAssignee tasks Kyle + byAssignee tasks Ethan + byAssignee tasks Shen
      <= List.length tasks - byStatus tasks done)%nat.
Proof.
  unfold byStatus, byPriority, byAssignee.
  induction tasks as [|t l IH]; [repeat split; reflexivity|].
  destruct IH as (A & B & C). cbn [filter List.length].
  destruct (Task.status t), (Task.priority t), (Task.assignee t) as [[]|];
    cbn [TaskStatus_eqb Priority_eqb Agent_eqb negb andb List.length];
    repeat split; lia.
Qed.

End PageTasks.

(** ** The order of the list view *)

Section ListOrder.
Import ProjectManagementPage.

Section ByRank.
Variable A : Type.
Variable rank : A -> Z.

Let byRank (a b : A) : Z := (rank a - rank b)%Z.
Let notAfter (a b : A) : Prop := (rank a <= rank b)%Z.

Lemma insertSorted_permutation (compare : A -> A -> Z) (x : A) (l : list A) :
  Permutation (insertSorted compare x l) (x :: l).
Proof.
  induction l as [|y l IH]; cbn; [reflexivity|].
  destruct (compare x y <=? 0)%Z; [reflexivity|].
  rewrite IH. apply perm_swap.
Qed.

Lemma sort_permutation (compare : A -> A -> Z) (l : list A) :
  Permutation (sort compare l) l.
Proof.
  induction l as [|x l IH]; cbn; [reflexivity|].
  rewrite insertSorted_permutation. now constructor.
Qed.

Lemma insertSorted_sorted (x : A) (l : list A) :
  StronglySorted notAfter l -> StronglySorted notAfter (insertSorted byRank x l).
Proof.
  induction l as [|y l IH]; cbn; intros Hs.
  - repeat constructor.
  - inversion Hs as [|? ? Hl Hy]; subst.
    unfold byRank at 1. destruct (Z.leb_spec (rank x - rank y) 0) as [Hle|Hgt].
    + constructor; [exact Hs|]. constructor; [unfold notAfter; lia|].
      eapply Forall_impl; [|exact Hy]. unfold notAfter. intros z Hz. lia.
    + constructor; [now apply IH|].
      eapply Permutation_Forall; [symmetry; apply insertSorted_permutation|].
      constructor; [unfold notAfter; lia|exact Hy].
Qed.

Lemma sort_sorted (l : list A) : StronglySorted notAfter (sort byRank l).
Proof.
  induction l as [|x l IH]; cbn; [constructor|]. now apply insertSorted_sorted.
Qed.

Lemma insertSorted_stable (r : Z) (x : A) (l : list A) :
  filter (fun a => rank a =? r)%Z (insertSorted byRank x l)
  = filter (fun a => rank a =? r)%Z (x :: l).
Proof.
  induction l as [|y l IH]; [reflexivity|]. cbn [insertSorted].
  unfold byRank at 1. destruct (Z.leb_spec (rank x - rank y) 0) as [Hle|Hgt];
    [reflexivity|].
  cbn [filter] in *. rewrite IH.
  destruct (Z.eqb_spec (rank x) r), (Z.eqb_spec (rank y) r); try reflexivity. lia.
Qed.

Lemma sort_stable (r : Z) (l : list A) :
  filter (fun a => rank a =? r)%Z (sort byRank l) = filter (fun a => rank a =? r)%Z l.
Proof.
  induction l as [|x l IH]; [reflexivity|]. cbn [sort fold_right].
  fold (sort byRank l). rewrite insertSorted_stable. cbn [filter]. now rewrite IH.
Qed.

Lemma sorted_sort (l : list A) : StronglySorted notAfter l -> sort byRank l = l.
Proof.
  induction 1 as [|x l Hs IH Hx]; [reflexivity|].
  cbn [sort fold_right]. fold (sort byRank l). rewrite IH.
  destruct l as [|y l]; [reflexivity|]. cbn [insertSorted].
  inversion Hx as [|? ? Hxy _]; subst. unfold byRank at 1. unfold notAfter in Hxy.
  destruct (Z.leb_spec (rank x - rank y) 0); [reflexivity|lia].
Qed.

Lemma sort_twice (l : list A) : sort byRank (sort byRank l) = sort byRank l.
Proof. apply sorted_sort, sort_sorted. Qed.

End ByRank.

(** X26: sorted by priority or by status, the list view shows exactly the
    tasks that pass its filters, each once, in the order of the rank
    (urgent first, backlog first), and tasks of the same rank in the order
    they have in the task list. *)
Theorem listView_order (getTime : string -> Z) (localeCompare : string -> string -> Z)
        (tasks : list Task.t) (filterStatus : option TaskStatus)
        (filterAssignee : option Agent) (searchQuery : string) (sortBy : SortBy)
        (rank : Task.t -> Z) :
  rankOf sortBy = Some rank ->
  Permutation (filteredTasks getTime localeCompare tasks filterStatus filterAssignee
                             searchQuery sortBy)
              (filter (passes filterStatus filterAssignee searchQuery) tasks)
  /\ StronglySorted (fun a b => (rank a <= rank b)%Z)
                    (filteredTasks getTime localeCompare tasks filterStatus filterAssignee
                                   searchQuery sortBy)
  /\ (forall r,
         filter (fun t => rank t =? r)%Z
                (filteredTasks getTime localeCompare tasks filterStatus filterAssignee
                               searchQuery sortBy)
         = filter (fun t => rank t =? r)%Z
                  (filter (passes filterStatus filterAssignee searchQuery) tasks)).
Proof.
  intros Hrank. unfold filteredTasks.
  destruct sortBy; cbn in Hrank; try discriminate; injection Hrank as <-.
  - repeat apply conj.
    + apply sort_permutation.
    + apply (sort_sorted (fun t => priorityOrder (Task.priority t))).
    + intros r. apply (sort_stable (fun t => priorityOrder (Task.priority t))).
  - repeat apply conj.
    + apply sort_permutation.
    + apply (sort_sorted (fun t => statusOrder (Task.status t))).
    + intros r. apply (sort_stable (fun t => statusOrder (Task.status t))).
Qed.

Lemma listView_order_witness :
  map Task.title
      (filteredTasks (fun _ => 0%Z) (fun _ _ => 0%Z) onTheBoard None None "" sortPriority)
  = ["Fix login"; "Write report"; "Deploy monitoring agent"; "Review budget"]
  /\ StronglySorted (fun a b => (priorityOrder (Task.priority a)
                                 <= priorityOrder (Task.priority b))%Z)
                    (filteredTasks (fun _ => 0%Z) (fun _ _ => 0%Z) onTheBoard None None ""
                                   sortPriority).
Proof.
  split; [reflexivity|].
  apply (@listView_order (fun _ => 0%Z) (fun _ _ => 0%Z) onTheBoard None None ""
           sortPriority (fun t => priorityOrder (Task.priority t)) eq_refl).
Defined.

End ListOrder.


(** ** The page's persistence: saveToApi and loadData *)

Section PageSync.
Import ProjectManagementPage.
Local Open Scope page_scope.

Lemma saveToApi_page (td : list Task.t) (pd : list Project.t) (p : Page) :
  saveToApi td pd p
  = (Returned tt,
     match network p with
     | Response true (Some data) :: rest =>
         mkPage (tasks p) (projects p) (viewMode p) idle (SortData.lastUpdated data)
                (isInitialLoad p) (storageFull p) (localStorage p) rest
                (requests p ++ [PostSort td pd 2])
     | [] =>
         mkPage (tasks p) (projects p) (viewMode p) error (lastUpdated p)
                (isInitialLoad p) (storageFull p) (localStorage p) []
                (requests p ++ [PostSort td pd 2])
     | _ :: rest =>
         mkPage (tasks p) (projects p) (viewMode p) error (lastUpdated p)
                (isInitialLoad p) (storageFull p) (localStorage p) rest
                (requests p ++ [PostSort td pd 2])
     end).
Proof.
  destruct p as [t pr vm st lu il sf ls net rq].
  destruct net as [|[|[|] [data|]] rest]; reflexivity.
Qed.

(** X27: [saveToApi] of the page never throws and never touches tasks,
    projects or the cache; it sends one POST with the data and version 2,
    and ends with status idle and the answer's time stamp when the POST is
    answered [ok] with JSON, with status error and the old time stamp
    otherwise. *)
Theorem saveToApi_reports_the_outcome (td : list Task.t) (pd : list Project.t) (p : Page) :
  outcome (saveToApi td pd) p = Returned tt
  /\ requests (exec (saveToApi td pd) p) = (requests p ++ [PostSort td pd 2])%list
  /\ tasks (exec (saveToApi td pd) p) = tasks p
  /\ projects (exec (saveToApi td pd) p) = projects p
  /\ localStorage (exec (saveToApi td pd) p) = localStorage p
  /\ isInitialLoad (exec (saveToApi td pd) p) = isInitialLoad p
  /\ match network p with
     | Response true (Some data) :: _ =>
         syncStatus (exec (saveToApi td pd) p) = idle
         /\ lastUpdated (exec (saveToApi td pd) p) = SortData.lastUpdated data
     | _ =>
         syncStatus (exec (saveToApi td pd) p) = error
         /\ lastUpdated (exec (saveToApi td pd) p) = lastUpdated p
     end.
Proof.
  unfold outcome, exec. rewrite saveToApi_page.
  destruct (network p) as [|[|[|] [data|]] rest]; cbn; repeat apply conj; reflexivity.
Qed.

Section Rendered.
Variable getTime : string -> Z.

Lemma sort_ext {A} (c1 c2 : A -> A -> Z) (l : list A) :
  (forall a b, c1 a b = c2 a b) -> sort c1 l = sort c2 l.
Proof.
  intros H. induction l as [|x l IH]; [reflexivity|].
  cbn [sort fold_right]. fold (sort c1 l) (sort c2 l). rewrite IH.
  generalize (sort c2 l). intros m. induction m as [|y m IHm]; [reflexivity|].
  cbn [insertSorted]. now rewrite H, IHm.
Qed.

Lemma sorted_weaken {A} (R R' : A -> A -> Prop) (l : list A) :
  (forall a b, R a b -> R' a b) -> StronglySorted R l -> StronglySorted R' l.
Proof.
  intros H. induction 1 as [|x l Hs IH Hx]; constructor; [exact IH|].
  eapply Forall_impl; [|exact Hx]. intros b. apply H.
Qed.

(** The dashboard's comparator ranks by the time of the last update,
    latest first. *)
Lemma recentFirst_rank (l : list Task.t) :
  sort (recentFirst getTime) l
  = sort (fun a b => (- updatedTime getTime a - - updatedTime getTime b)%Z) l.
Proof. apply sort_ext. intros a b. unfold recentFirst, updatedTime. lia. Qed.

Lemma recentFirst_twice (l : list Task.t) :
  sort (recentFirst getTime) (sort (recentFirst getTime) l) = sort (recentFirst getTime) l.
Proof.
  rewrite !recentFirst_rank.
  apply (sort_twice (fun t => (- updatedTime getTime t)%Z)).
Qed.

Lemma hasItems_sort {A} (compare : A -> A -> Z) (l : list A) :
  Js.hasItems (sort compare l) = Js.hasItems l.
Proof.
  destruct l as [|x l]; [reflexivity|]. cbn [sort fold_right].
  destruct (fold_right (insertSorted compare) [] l) as [|y m]; [reflexivity|].
  cbn. now destruct (compare x y <=? 0)%Z.
Qed.

(** What a render leaves of the page. *)
Lemma render_page (p : Page) :
  render getTime p
  = (Returned tt, with_tasks (viewOrder getTime (viewMode p) (tasks p)) p).
Proof. destruct p as [t pr [| | |] st lu il sf ls net rq]; reflexivity. Qed.

(** Rendering twice is rendering once. *)
Lemma viewOrder_twice (view : ViewMode.t) (l : list Task.t) :
  viewOrder getTime view (viewOrder getTime view l) = viewOrder getTime view l.
Proof. destruct view; [apply recentFirst_twice|reflexivity..]. Qed.

Lemma hasItems_viewOrder (view : ViewMode.t) (l : list Task.t) :
  Js.hasItems (viewOrder getTime view l) = Js.hasItems l.
Proof. destruct view; [apply hasItems_sort|reflexivity..]. Qed.

(** The order a view leaves: the same tasks; on the dashboard the task
    updated last first, and tasks updated at one time in the order they
    had. *)
Lemma viewOrder_spec (view : ViewMode.t) (l : list Task.t) :
  Permutation (viewOrder getTime view l) l
  /\ (view = ViewMode.dashboard ->
      StronglySorted (fun a b => (updatedTime getTime b <= updatedTime getTime a)%Z)
                     (viewOrder getTime view l)
      /\ forall time,
           filter (fun t => updatedTime getTime t =? time)%Z (viewOrder getTime view l)
           = filter (fun t => updatedTime getTime t =? time)%Z l).
Proof.
  split.
  - destruct view; [apply sort_permutation|reflexivity..].
  - intros ->. unfold viewOrder. rewrite recentFirst_rank. split.
    + eapply sorted_weaken;
        [|apply (sort_sorted (fun t => (- updatedTime getTime t)%Z))].
      cbn. intros a b H. lia.
    + intros time.
      assert (E : forall t, (updatedTime getTime t =? time)%Z
                            = (- updatedTime getTime t =? - time)%Z).
      { intros t. destruct (Z.eqb_spec (updatedTime getTime t) time),
                           (Z.eqb_spec (- updatedTime getTime t) (- time))%Z;
          try reflexivity; lia. }
      rewrite !(filter_ext _ _ E).
      apply (sort_stable (fun t => (- updatedTime getTime t)%Z)).
Qed.

(** Running a computation step by step. *)
Lemma bind_run {A B} (m : M A) (k : A -> M B) (p p' : Page) (a : A)
      (r : Outcome B * Page) :
  m p = (Returned a, p') -> k a p' = r -> bind m k p = r.
Proof. unfold bind. intros -> H. exact H. Qed.

Lemma bind_stop {A B} (m : M A) (k : A -> M B) (p p' : Page) (e : Exn) :
  m p = (Threw e, p') -> bind m k p = (Threw e, p').
Proof. unfold bind. now intros ->. Qed.

Lemma try_through {A} (m : M A) (h : Exn -> M A) (p p' : Page) (a : A) :
  m p = (Returned a, p') -> try_catch m h p = (Returned a, p').
Proof. unfold try_catch. now intros ->. Qed.

Lemma try_caught {A} (m : M A) (h : Exn -> M A) (p p' : Page) (e : Exn)
      (r : Outcome A * Page) :
  m p = (Threw e, p') -> h e p' = r -> try_catch m h p = r.
Proof. unfold try_catch. intros -> H. exact H. Qed.

Lemma await_run {A} (m : M A) (p p' : Page) (o : Outcome A) :
  m p = (o, p') ->
  await getTime m p = (o, with_tasks (viewOrder getTime (viewMode p') (tasks p')) p').
Proof. unfold await, exec. intros ->. now rewrite render_page. Qed.

Lemma parse_tasks (q : Page) :
  parses (pm_tasks (localStorage q)) = true ->
  (if present (pm_tasks (localStorage q)) then JSON_parse (pm_tasks (localStorage q))
   else ret []) q
  = (Returned (cachedTasks q), q).
Proof. unfold cachedTasks. destruct (pm_tasks (localStorage q)); now try discriminate. Qed.

Lemma parse_projects (q : Page) :
  parses (pm_projects (localStorage q)) = true ->
  (if present (pm_projects (localStorage q)) then JSON_parse (pm_projects (localStorage q))
   else ret DEFAULT_PROJECTS) q
  = (Returned (cachedProjects q), q).
Proof. unfold cachedProjects. destruct (pm_projects (localStorage q)); now try discriminate. Qed.

Lemma keep_lastUpdated (saved : option string) (q : Page) :
  (if Js.truthy_opt saved then setLastUpdated saved else ret tt) q
  = (Returned tt,
     with_lastUpdated (if Js.truthy_opt saved then saved else lastUpdated q) q).
Proof. destruct (Js.truthy_opt saved), q; reflexivity. Qed.

Lemma fetch_run (req : Request) (q : Page) (ok : bool) (body : option SortData.t)
      (rest : list FetchOutcome) :
  network q = Response ok body :: rest ->
  fetch req q
  = (Returned (ok, body), with_network rest (with_requests (requests q ++ [req]) q)).
Proof. intros H. destruct q. cbn in H. subst. reflexivity. Qed.

Lemma fetch_rejected (req : Request) (q : Page) (rest : list FetchOutcome) :
  network q = Rejected :: rest ->
  fetch req q
  = (Threw TypeError, with_network rest (with_requests (requests q ++ [req]) q)).
Proof. intros H. destruct q. cbn in H. subst. reflexivity. Qed.

Lemma fetch_nothing (req : Request) (q : Page) :
  network q = [] ->
  fetch req q = (Threw TypeError, with_requests (requests q ++ [req]) q).
Proof. intros H. destruct q. cbn in H. subst. reflexivity. Qed.

Lemma setItem_room (write : Storage -> Storage) (q : Page) :
  storageFull q = false ->
  setItem write q = (Returned tt, with_localStorage (write (localStorage q)) q).
Proof. intros H. destruct q. cbn in H. subst. reflexivity. Qed.

Lemma setItem_full (write : Storage -> Storage) (q : Page) :
  storageFull q = true -> setItem write q = (Threw QuotaExceededError, q).
Proof. intros H. destruct q. cbn in H. subst. reflexivity. Qed.

(** Pages and answers are brought to their fields. *)
Ltac pages :=
  cbv beta zeta;
  cbn [fst snd tasks projects viewMode syncStatus lastUpdated isInitialLoad storageFull
       localStorage network requests with_tasks with_projects with_viewMode with_syncStatus
       with_lastUpdated with_isInitialLoad with_localStorage with_network with_requests
       SortData.tasks SortData.projects SortData.version SortData.lastUpdated version_is_2
       pm_tasks pm_projects pm_last_updated put_tasks put_projects put_last_updated].

(** One step that does not branch. *)
Ltac leaf :=
  first
    [ eapply parse_tasks; eassumption
    | eapply parse_projects; eassumption
    | apply keep_lastUpdated
    | match goal with
      | H : network _ = _ |- _ =>
          first [eapply fetch_run; exact H|eapply fetch_rejected; exact H
                |eapply fetch_nothing; exact H]
      end
    | match goal with
      | H : storageFull _ = _ |- _ =>
          first [eapply setItem_room; exact H|eapply setItem_full; exact H]
      end
    | apply saveToApi_page
    | reflexivity ].

(** Runs a computation on a page, one step after the other. *)
Ltac exe :=
  pages;
  lazymatch goal with
  | |- bind _ _ _ = _ => first [ eapply bind_run; [exe|exe] | eapply bind_stop; exe ]
  | |- try_catch _ _ _ = _ => first [ eapply try_through; exe | eapply try_caught; [exe|exe] ]
  | |- await _ _ _ = _ => eapply await_run; exe
  | |- (if Js.hasItems _ then _ else _) _ = _ =>
      rewrite ?viewOrder_twice, hasItems_viewOrder;
      match goal with H : Js.hasItems _ = _ |- _ => rewrite H end; exe
  | |- (if (_ =? 2)%Z then _ else _) _ = _ =>
      match goal with H : (_ =? 2)%Z = _ |- _ => rewrite H end; exe
  | |- (if Js.truthy _ then _ else _) _ = _ =>
      match goal with H : Js.truthy _ = _ |- _ => rewrite H end; exe
  | |- _ => leaf
  end.

(** [loadData] on an answer that is not in the new format. *)
Lemma loadData_other_answer (p : Page) (data : SortData.t) (rest : list FetchOutcome) :
  parses (pm_tasks (localStorage p)) = true ->
  parses (pm_projects (localStorage p)) = true ->
  network p = Response true (Some data) :: rest ->
  accepted data = None ->
  exists q,
    loadData getTime p = (Returned tt, q)
    /\ tasks q = viewOrder getTime (viewMode p) (cachedTasks p)
    /\ projects q = cachedProjects p
    /\ localStorage q = localStorage p
    /\ syncStatus q = idle
    /\ isInitialLoad q = false
    /\ requests q
       = (requests p ++ GetSort ::
            (if Js.hasItems (cachedTasks p)
             then [PostSort (viewOrder getTime (viewMode p) (cachedTasks p))
                            (cachedProjects p) 2]
             else []))%list.
Proof.
  intros Ht Hp Hnet Hacc.
  destruct data as [rt rp rv rl]. unfold accepted, version_is_2 in Hacc. cbn in Hacc.
  destruct (Js.hasItems (cachedTasks p)) eqn:Hh.
  all: destruct rt as [remote|]; [destruct rv as [v|]; [destruct (v =? 2)%Z eqn:Ev|]|];
    try discriminate.
  all: eexists; (split; [unfold loadData; exe|]).
  all: try destruct rest as [|[|[|] [d|]] rest'].
  all: pages; rewrite ?viewOrder_twice, <- ?List.app_assoc; repeat apply conj; reflexivity.
Qed.

(** [loadData] on an answer in the new format. *)
Lemma loadData_new_format (p : Page) (data : SortData.t) (rest : list FetchOutcome)
      (remote : list Task.t) :
  parses (pm_tasks (localStorage p)) = true ->
  parses (pm_projects (localStorage p)) = true ->
  network p = Response true (Some data) :: rest ->
  accepted data = Some remote ->
  exists q,
    loadData getTime p = (Returned tt, q)
    /\ tasks q = remote
    /\ viewMode q = viewMode p
    /\ projects q = match SortData.projects data with
                    | Some remoteProjects => remoteProjects
                    | None => cachedProjects p
                    end
    /\ isInitialLoad q = false
    /\ requests q = (requests p ++ [GetSort])%list
    /\ if storageFull p
       then syncStatus q = error /\ localStorage q = localStorage p
       else syncStatus q = idle
            /\ pm_tasks (localStorage q) = Json remote
            /\ pm_projects (localStorage q)
               = match SortData.projects data with
                 | Some remoteProjects => Json remoteProjects
                 | None => pm_projects (localStorage p)
                 end.
Proof.
  intros Ht Hp Hnet Hacc.
  destruct data as [rt rp rv rl]. unfold accepted, version_is_2 in Hacc. cbn in Hacc.
  destruct rt as [remote'|]; [|discriminate].
  destruct rv as [v|]; [|discriminate].
  destruct (v =? 2)%Z eqn:Ev; [|discriminate].
  injection Hacc as ->.
  destruct (storageFull p) eqn:Hsf.
  all: destruct rp as [remoteProjects|].
  all: destruct rl as [stamp|]; [destruct (Js.truthy stamp) eqn:Es|].
  all: eexists; (split; [unfold loadData; exe|]).
  all: pages; repeat apply conj; reflexivity.
Qed.

(** [loadData] when the GET is not answered [ok] with JSON. *)
Lemma loadData_no_answer (p : Page) :
  parses (pm_tasks (localStorage p)) = true ->
  parses (pm_projects (localStorage p)) = true ->
  answered (network p) = false ->
  exists q,
    loadData getTime p = (Returned tt, q)
    /\ tasks q = viewOrder getTime (viewMode p) (cachedTasks p)
    /\ projects q = cachedProjects p
    /\ localStorage q = localStorage p
    /\ isInitialLoad q = false
    /\ requests q = (requests p ++ [GetSort])%list
    /\ syncStatus q = match network p with
                      | Response false _ :: _ => syncing
                      | _ => error
                      end.
Proof.
  intros Ht Hp Hnet.
  destruct (network p) as [|[|[|] [d|]] rest] eqn:Enet; try discriminate.
  all: eexists; (split; [unfold loadData; exe|]).
  all: pages; rewrite ?viewOrder_twice; repeat apply conj; reflexivity.
Qed.

(** X28: when the cache parses and the GET is answered [ok] with JSON,
    [loadData] returns and the first load is over.  An answer with tasks
    and version 2 replaces the tasks, an empty list included, and is
    written to the cache as it came; the render that follows puts the new
    array in the order of the view; if the cache write throws the status is
    error, with the remote tasks in the state and the cache as it was.  Any
    other answer leaves the cached tasks in the state, in the order the
    view on show gave their array while the answer was awaited (on the
    dashboard: last update first), and, when there are any, sends them in
    that order in one POST; the status is idle afterwards whatever became
    of that POST. *)
Theorem loadData_takes_version_2 (p : Page) (data : SortData.t) (rest : list FetchOutcome) :
  parses (pm_tasks (localStorage p)) = true ->
  parses (pm_projects (localStorage p)) = true ->
  network p = Response true (Some data) :: rest ->
  outcome (loadData getTime) p = Returned tt
  /\ isInitialLoad (exec (loadData getTime) p) = false
  /\ match accepted data with
     | Some remote =>
         tasks (exec (loadData getTime) p) = remote
         /\ tasks (exec (render getTime) (exec (loadData getTime) p))
            = viewOrder getTime (viewMode p) remote
         /\ projects (exec (loadData getTime) p)
            = match SortData.projects data with
              | Some remoteProjects => remoteProjects
              | None => cachedProjects p
              end
         /\ requests (exec (loadData getTime) p) = (requests p ++ [GetSort])%list
         /\ if storageFull p
            then syncStatus (exec (loadData getTime) p) = error
                 /\ localStorage (exec (loadData getTime) p) = localStorage p
            else syncStatus (exec (loadData getTime) p) = idle
                 /\ pm_tasks (localStorage (exec (loadData getTime) p)) = Json remote
                 /\ pm_projects (localStorage (exec (loadData getTime) p))
                    = match SortData.projects data with
                      | Some remoteProjects => Json remoteProjects
                      | None => pm_projects (localStorage p)
                      end
     | None =>
         tasks (exec (loadData getTime) p)
         = viewOrder getTime (viewMode p) (cachedTasks p)
         /\ projects (exec (loadData getTime) p) = cachedProjects p
         /\ localStorage (exec (loadData getTime) p) = localStorage p
         /\ syncStatus (exec (loadData getTime) p) = idle
         /\ requests (exec (loadData getTime) p)
            = (requests p ++ GetSort ::
                 (if Js.hasItems (cachedTasks p)
                  then [PostSort (viewOrder getTime (viewMode p) (cachedTasks p))
                                 (cachedProjects p) 2]
                  else []))%list
     end.
Proof.
  intros Ht Hp Hnet. unfold outcome, exec.
  destruct (accepted data) as [remote|] eqn:Hacc.
  - destruct (@loadData_new_format p data rest remote Ht Hp Hnet Hacc)
      as (q & E & Et & Evm & Epr & Ei & Er & Hs).
    rewrite E. cbn [fst snd]. rewrite render_page. cbn [snd tasks with_tasks].
    rewrite Et, Evm. repeat apply conj; try assumption; reflexivity.
  - destruct (@loadData_other_answer p data rest Ht Hp Hnet Hacc)
      as (q & E & Et & Epr & Els & Es & Ei & Er).
    rewrite E. cbn [fst snd]. repeat apply conj; try assumption; reflexivity.
Qed.

(** X29: cached text that is not JSON makes [loadData] throw before it sets
    anything: the page is left exactly as it was, no request is sent, and
    the first load is never marked as over. *)
Theorem loadData_throws_on_corrupt_cache (p : Page) :
  parses (pm_tasks (localStorage p)) = false
  \/ parses (pm_projects (localStorage p)) = false ->
  loadData getTime p = (Threw SyntaxError, p).
Proof.
  destruct p as [t pr vm st lu il sf [st_t st_p st_l] net rq]. cbn.
  intros [H|H].
  - destruct st_t; try discriminate. reflexivity.
  - destruct st_p; try discriminate. destruct st_t; reflexivity.
Qed.

(** X30: when the cache parses and the GET is not answered [ok] with JSON,
    [loadData] returns with the cached tasks and projects in the state, the
    cache as it was and the first load over.  The task array is in the
    order the view on show gave it while the answer was awaited: the same
    tasks, on the dashboard with the last update first.  The status is
    error when the fetch is rejected or the body is not JSON, and stays
    syncing when the response is not [ok]. *)
Theorem loadData_without_answer (p : Page) :
  parses (pm_tasks (localStorage p)) = true ->
  parses (pm_projects (localStorage p)) = true ->
  answered (network p) = false ->
  outcome (loadData getTime) p = Returned tt
  /\ tasks (exec (loadData getTime) p) = viewOrder getTime (viewMode p) (cachedTasks p)
  /\ Permutation (tasks (exec (loadData getTime) p)) (cachedTasks p)
  /\ (viewMode p = ViewMode.dashboard ->
      StronglySorted (fun a b => (updatedTime getTime b <= updatedTime getTime a)%Z)
                     (tasks (exec (loadData getTime) p)))
  /\ projects (exec (loadData getTime) p) = cachedProjects p
  /\ localStorage (exec (loadData getTime) p) = localStorage p
  /\ isInitialLoad (exec (loadData getTime) p) = false
  /\ requests (exec (loadData getTime) p) = (requests p ++ [GetSort])%list
  /\ syncStatus (exec (loadData getTime) p)
     = match network p with
       | Response false _ :: _ => syncing
       | _ => error
       end.
Proof.
  intros Ht Hp Hnet. unfold outcome, exec.
  destruct (@loadData_no_answer p Ht Hp Hnet) as (q & E & Et & Epr & Els & Ei & Er & Es).
  destruct (viewOrder_spec (viewMode p) (cachedTasks p)) as [Hperm Hsorted].
  rewrite E. cbn [fst snd]. rewrite Et.
  repeat apply conj; try assumption; try reflexivity.
  intros Hvm. apply (Hsorted Hvm).
Qed.

End Rendered.

(** The old-format answer on the dashboard: the two cached tasks stay, the
    one updated last now in front, and go out in that order; the POST
    fails and the status is idle. *)
Lemma loadData_takes_version_2_witness :
  tasks (exec (loadData digitsOf)
              (atMount [Response true (Some oldFormat); Response false None]))
  = [cachedLater; cachedTask]
  /\ syncStatus (exec (loadData digitsOf)
                      (atMount [Response true (Some oldFormat); Response false None]))
     = idle
  /\ requests (exec (loadData digitsOf)
                    (atMount [Response true (Some oldFormat); Response false None]))
     = [GetSort; PostSort [cachedLater; cachedTask] DEFAULT_PROJECTS 2].
Proof.
  destruct (@loadData_takes_version_2 digitsOf
              (atMount [Response true (Some oldFormat); Response false None])
              oldFormat [Response false None] eq_refl eq_refl eq_refl)
    as (_ & _ & A & _ & _ & B & C).
  repeat apply conj; [exact A|exact B|exact C].
Defined.

Lemma loadData_throws_on_corrupt_cache_witness :
  loadData digitsOf brokenCache = (Threw SyntaxError, brokenCache).
Proof.
  apply loadData_throws_on_corrupt_cache. right. reflexivity.
Defined.

(** A response that is not [ok], on the dashboard: the status stays
    syncing and the cached tasks are in the state, the one updated last in
    front. *)
Lemma loadData_without_answer_witness :
  syncStatus (exec (loadData digitsOf) (atMount [Response false None])) = syncing
  /\ tasks (exec (loadData digitsOf) (atMount [Response false None]))
     = [cachedLater; cachedTask]
  /\ isInitialLoad (exec (loadData digitsOf) (atMount [Response false None])) = false.
Proof.
  destruct (@loadData_without_answer digitsOf (atMount [Response false None])
              eq_refl eq_refl eq_refl)
    as (_ & A & _ & _ & _ & _ & B & _ & C).
  repeat apply conj; [exact C|exact A|exact B].
Defined.

End PageSync.
